(** * metric-pulse: the Customer Analytics Engine and the ETL Orchestrator

    A shallow embedding of [src/analytics/clvCalculator.js] and
    [src/pipelines/etlPipeline.js], with the parts of the PostgreSQL
    loader and of the transformer that the pipeline relies on.

    Conventions of the embedding.
    - JavaScript numbers that carry money, rates and ratios are rationals
      ([Q]); the arithmetic of the source is kept operation by operation,
      rounding of IEEE doubles is not represented.  Equalities between
      computed amounts are therefore stated with [==].
    - Integral JavaScript numbers (day counts, scores, quantities) are [Z];
      lengths of arrays are [nat].
    - A [Date] is its time value, the number of milliseconds since the epoch
      ([Z]); only valid dates are represented.  The host's time zone is
      taken to keep one offset from UTC (no daylight-saving shift), so that
      a calendar day is 86400000 ms long.
    - Row identifiers are the SERIAL keys of [schema.sql] ([positive], they
      start at 1); a nullable column or an optional property is an
      [option].  On such a key the truthiness test of JavaScript is the
      test for its presence.
    - A call that can raise returns a [Completion]; an effect that happened
      before the exception stays in place. *)

From Stdlib Require Import ZArith QArith Qminmax Ascii String List Sorted Lia Lqa.
From stdpp Require Import gmap strings list fin_maps pretty.

Local Open Scope string_scope.
Local Open Scope Z_scope.
Set Warnings "-clear-no-such-hyp".

(** ** Completions: normal return or a thrown [Error] with its message *)

Inductive Completion (A : Type) : Type :=
| Normal (a : A)
| Throw (message : string).

Arguments Normal {A} a.
Arguments Throw {A} message.

Definition bindC {A B : Type} (c : Completion A) (k : A -> Completion B) : Completion B :=
  match c with
  | Normal a => k a
  | Throw m => Throw m
  end.

(** [xs[i]] followed by a property read: reading a property of [undefined]
    raises a TypeError. *)
Definition index_prop {A : Type} (xs : list A) (i : nat) (prop : string) : Completion A :=
  match nth_error xs i with
  | Some x => Normal x
  | None => Throw ("Cannot read properties of undefined (reading '" ++ prop ++ "')")
  end.

(** ** Dates *)

Definition msPerDay : Z := 86400000.

(** [differenceInDays] is imported from date-fns: the number of full days
    between two dates, truncated towards zero (a later date first gives a
    count that is not negative).  date-fns counts the days on the calendar
    of the host; with the one offset the host's zone is taken to keep,
    that is the quotient below.  On a host whose zone changes its offset
    the count across such a change can differ by one from the quotient,
    its sign cannot. *)
Definition differenceInDays (laterDate earlierDate : Z) : Z :=
  Z.quot (laterDate - earlierDate) msPerDay.

(** [Date.prototype.toDateString] prints the calendar date of the host's
    time zone; two dates print the same string exactly when they fall on the
    same local day.  [tz] is the zone's offset from UTC in milliseconds. *)
Definition toDateString (tz : Z) (date : Z) : Z := (date + tz) / msPerDay.

(** ** Entities read by the analytics engine *)

Module Customer.
Record t := mk { id : positive }.
End Customer.

Module LineItem.
Record t := mk {
  source_product_id : option string;
  title : option string;
  quantity : option Z;
  price : option Q
}.
End LineItem.

Module Order.
Record t := mk {
  id : positive;
  customer_id : option positive;
  total_price : option Q;
  processed_at : Z;
  source_name : option string;
  line_items : option (list LineItem.t)
}.
End Order.

(** [x || 0] on an optional number. *)
Definition orZeroQ (x : option Q) : Q :=
  match x with Some q => q | None => 0%Q end.

Definition orZeroZ (x : option Z) : Z :=
  match x with Some z => z | None => 0 end.

(** ** CustomerMetrics *)

Module CustomerMetrics.
Record t := mk {
  customer_id : positive;
  calculation_date : Z;
  total_revenue : Q;
  total_orders : nat;
  average_order_value : Q;
  purchase_frequency : Q;
  customer_lifespan_days : Z;
  customer_lifetime_value : Q;
  churn_probability : Q;
  days_since_last_purchase : option Z;
  rfm_recency_score : Z;
  rfm_frequency_score : Z;
  rfm_monetary_score : Z;
  customer_segment : string
}.

(** Assignments [metrics.field = v]. *)
Definition set_average_order_value (v : Q) (m : t) : t :=
  mk (customer_id m) (calculation_date m) (total_revenue m) (total_orders m)
     v (purchase_frequency m) (customer_lifespan_days m)
     (customer_lifetime_value m) (churn_probability m)
     (days_since_last_purchase m) (rfm_recency_score m)
     (rfm_frequency_score m) (rfm_monetary_score m) (customer_segment m).

Definition set_purchase_frequency (v : Q) (m : t) : t :=
  mk (customer_id m) (calculation_date m) (total_revenue m) (total_orders m)
     (average_order_value m) v (customer_lifespan_days m)
     (customer_lifetime_value m) (churn_probability m)
     (days_since_last_purchase m) (rfm_recency_score m)
     (rfm_frequency_score m) (rfm_monetary_score m) (customer_segment m).

Definition set_customer_lifespan_days (v : Z) (m : t) : t :=
  mk (customer_id m) (calculation_date m) (total_revenue m) (total_orders m)
     (average_order_value m) (purchase_frequency m) v
     (customer_lifetime_value m) (churn_probability m)
     (days_since_last_purchase m) (rfm_recency_score m)
     (rfm_frequency_score m) (rfm_monetary_score m) (customer_segment m).

Definition set_customer_lifetime_value (v : Q) (m : t) : t :=
  mk (customer_id m) (calculation_date m) (total_revenue m) (total_orders m)
     (average_order_value m) (purchase_frequency m) (customer_lifespan_days m)
     v (churn_probability m)
     (days_since_last_purchase m) (rfm_recency_score m)
     (rfm_frequency_score m) (rfm_monetary_score m) (customer_segment m).

Definition set_churn_probability (v : Q) (m : t) : t :=
  mk (customer_id m) (calculation_date m) (total_revenue m) (total_orders m)
     (average_order_value m) (purchase_frequency m) (customer_lifespan_days m)
     (customer_lifetime_value m) v
     (days_since_last_purchase m) (rfm_recency_score m)
     (rfm_frequency_score m) (rfm_monetary_score m) (customer_segment m).

Definition set_days_since_last_purchase (v : option Z) (m : t) : t :=
  mk (customer_id m) (calculation_date m) (total_revenue m) (total_orders m)
     (average_order_value m) (purchase_frequency m) (customer_lifespan_days m)
     (customer_lifetime_value m) (churn_probability m)
     v (rfm_recency_score m)
     (rfm_frequency_score m) (rfm_monetary_score m) (customer_segment m).

Definition set_rfm_scores (r f mo : Z) (m : t) : t :=
  mk (customer_id m) (calculation_date m) (total_revenue m) (total_orders m)
     (average_order_value m) (purchase_frequency m) (customer_lifespan_days m)
     (customer_lifetime_value m) (churn_probability m)
     (days_since_last_purchase m) r f mo (customer_segment m).

Definition set_customer_segment (v : string) (m : t) : t :=
  mk (customer_id m) (calculation_date m) (total_revenue m) (total_orders m)
     (average_order_value m) (purchase_frequency m) (customer_lifespan_days m)
     (customer_lifetime_value m) (churn_probability m)
     (days_since_last_purchase m) (rfm_recency_score m)
     (rfm_frequency_score m) (rfm_monetary_score m) v.
End CustomerMetrics.

Module RFMScores.
Record t := mk {
  recency : Z;
  frequency : Z;
  monetary : Z;
  combinedScore : Z
}.
End RFMScores.

(** ** class CLVCalculator *)

Module CLVCalculator.
Import CustomerMetrics.

(** [o.customer_id === customer.id] *)
Definition sameCustomer (customer : Customer.t) (o : Order.t) : bool :=
  match Order.customer_id o with
  | Some c => Pos.eqb c (Customer.id customer)
  | None => false
  end.

(** [Array.prototype.sort] with the comparator
    [new Date(a.processed_at) - new Date(b.processed_at)]: ascending and
    stable. *)
Fixpoint insertByDate (x : Order.t) (l : list Order.t) : list Order.t :=
  match l with
  | [] => [x]
  | y :: l' =>
      if Order.processed_at x <=? Order.processed_at y
      then x :: y :: l'
      else y :: insertByDate x l'
  end.

Definition sortByDate (l : list Order.t) : list Order.t :=
  fold_right insertByDate [] l.

Definition calculateTotalRevenue (orders : list Order.t) : Q :=
  fold_left (fun sum order => (sum + orZeroQ (Order.total_price order))%Q) orders 0%Q.

Definition calculateSimpleCLV (metrics : t) : Q :=
  let lifespanMonths := (inject_Z (customer_lifespan_days metrics) / 30)%Q in
  (average_order_value metrics * purchase_frequency metrics * lifespanMonths)%Q.

Definition discountRate : Q := (0.1 / 12)%Q.

Definition calculatePredictiveCLV (metrics : t) : Q :=
  let monthlyRevenue := (average_order_value metrics * purchase_frequency metrics)%Q in
  let retentionRate := (1 - churn_probability metrics)%Q in
  if Qle_bool (1 + discountRate) retentionRate
  then (monthlyRevenue * 12 * 3)%Q
  else (monthlyRevenue * (retentionRate / (1 + discountRate - retentionRate)))%Q.

(** The step function on a day count; [calculateChurnProbability] reads
    the count from the metrics object, where [null] compares as 0. *)
Definition churnStep (daysSinceLastPurchase : Z) : Q :=
  if daysSinceLastPurchase <? 30 then 0.05%Q
  else if daysSinceLastPurchase <? 60 then 0.15%Q
  else if daysSinceLastPurchase <? 90 then 0.25%Q
  else if daysSinceLastPurchase <? 180 then 0.45%Q
  else if daysSinceLastPurchase <? 365 then 0.70%Q
  else 0.90%Q.

Definition calculateChurnProbability (metrics : t) : Q :=
  churnStep (orZeroZ (days_since_last_purchase metrics)).

Definition calculateRFMScores (customer : Customer.t) (orders : list Order.t)
    (calculationDate : Z) : Completion RFMScores.t :=
  bindC (index_prop orders (length orders - 1) "processed_at") (fun lastOrder =>
  let lastOrderDate := Order.processed_at lastOrder in
  let daysSinceLastOrder := differenceInDays calculationDate lastOrderDate in
  let recencyScore :=
    if daysSinceLastOrder <=? 30 then 5
    else if daysSinceLastOrder <=? 60 then 4
    else if daysSinceLastOrder <=? 90 then 3
    else if daysSinceLastOrder <=? 180 then 2
    else 1 in
  let orderCount := Z.of_nat (length orders) in
  let frequencyScore :=
    if 20 <=? orderCount then 5
    else if 10 <=? orderCount then 4
    else if 5 <=? orderCount then 3
    else if 2 <=? orderCount then 2
    else 1 in
  let totalSpent := calculateTotalRevenue orders in
  let monetaryScore :=
    if Qle_bool 5000 totalSpent then 5
    else if Qle_bool 2000 totalSpent then 4
    else if Qle_bool 500 totalSpent then 3
    else if Qle_bool 100 totalSpent then 2
    else 1 in
  Normal (RFMScores.mk recencyScore frequencyScore monetaryScore
            (recencyScore + frequencyScore + monetaryScore))).

Definition determineSegment (rfmScores : RFMScores.t) : string :=
  let recency := RFMScores.recency rfmScores in
  let frequency := RFMScores.frequency rfmScores in
  let monetary := RFMScores.monetary rfmScores in
  let combinedScore := RFMScores.combinedScore rfmScores in
  if (4 <=? recency) && (4 <=? frequency) && (4 <=? monetary) then "Champions"
  else if (3 <=? frequency) && (3 <=? monetary) && (9 <=? combinedScore) then "Loyal Customers"
  else if (3 <=? recency) && (2 <=? frequency) && (7 <=? combinedScore) then "Potential Loyalists"
  else if (4 <=? recency) && (frequency <=? 2) then "New Customers"
  else if (recency <=? 2) && (3 <=? frequency) && (3 <=? monetary) then "At Risk"
  else if (recency <=? 2) && (4 <=? monetary) then "Cannot Lose"
  else if (recency <=? 2) && (frequency <=? 2) && (monetary <=? 2) then "Hibernating"
  else if (monetary <=? 2) && (3 <=? frequency) then "Price Sensitive"
  else "Regular".

Definition getEmptyMetrics (customerId : positive) (calculationDate : Z) : t :=
  {| customer_id := customerId;
     calculation_date := calculationDate;
     total_revenue := 0;
     total_orders := 0;
     average_order_value := 0;
     purchase_frequency := 0;
     customer_lifespan_days := 0;
     customer_lifetime_value := 0;
     churn_probability := 1;
     days_since_last_purchase := None;
     rfm_recency_score := 1;
     rfm_frequency_score := 1;
     rfm_monetary_score := 1;
     customer_segment := "Inactive" |}.

(** [a || 1] on a day count. *)
Definition orOne (a : Z) : Z := if a =? 0 then 1 else a.

(** The body of [calculateCustomerMetrics] once the customer has orders;
    the assignments to [metrics] follow the source line by line. *)
Definition metricsOfOrders (customer : Customer.t) (customerOrders : list Order.t)
    (calculationDate : Z) : Completion t :=
  let customerOrders := sortByDate customerOrders in
  let metrics :=
    {| customer_id := Customer.id customer;
       calculation_date := calculationDate;
       total_revenue := calculateTotalRevenue customerOrders;
       total_orders := length customerOrders;
       average_order_value := 0;
       purchase_frequency := 0;
       customer_lifespan_days := 0;
       customer_lifetime_value := 0;
       churn_probability := 0;
       days_since_last_purchase := Some 0;
       rfm_recency_score := 0;
       rfm_frequency_score := 0;
       rfm_monetary_score := 0;
       customer_segment := EmptyString |} in
  let metrics :=
    set_average_order_value
      (total_revenue metrics / inject_Z (Z.of_nat (total_orders metrics)))%Q metrics in
  bindC (index_prop customerOrders 0 "processed_at") (fun firstOrder =>
  bindC (index_prop customerOrders (length customerOrders - 1) "processed_at") (fun lastOrder =>
  let firstOrderDate := Order.processed_at firstOrder in
  let lastOrderDate := Order.processed_at lastOrder in
  let metrics :=
    set_customer_lifespan_days (orOne (differenceInDays lastOrderDate firstOrderDate)) metrics in
  let metrics :=
    set_days_since_last_purchase (Some (differenceInDays calculationDate lastOrderDate)) metrics in
  let monthsActive := Qmax (inject_Z (customer_lifespan_days metrics) / 30)%Q 1%Q in
  let metrics :=
    set_purchase_frequency
      (inject_Z (Z.of_nat (total_orders metrics)) / monthsActive)%Q metrics in
  let simpleCLV := calculateSimpleCLV metrics in
  let predictiveCLV := calculatePredictiveCLV metrics in
  let metrics := set_customer_lifetime_value ((simpleCLV + predictiveCLV) / 2)%Q metrics in
  let metrics := set_churn_probability (calculateChurnProbability metrics) metrics in
  bindC (calculateRFMScores customer customerOrders calculationDate) (fun rfmScores =>
  let metrics :=
    set_rfm_scores (RFMScores.recency rfmScores) (RFMScores.frequency rfmScores)
      (RFMScores.monetary rfmScores) metrics in
  let metrics := set_customer_segment (determineSegment rfmScores) metrics in
  Normal metrics))).

(** [orders.filter] on [null] raises a TypeError, which the [catch] block
    logs and rethrows. *)
Definition calculateCustomerMetrics (customer : Customer.t)
    (orders : option (list Order.t)) (calculationDate : Z) : Completion t :=
  match orders with
  | None => Throw "Cannot read properties of null (reading 'filter')"
  | Some orders =>
      let customerOrders := List.filter (sameCustomer customer) orders in
      if (length customerOrders =? 0)%nat
      then Normal (getEmptyMetrics (Customer.id customer) calculationDate)
      else metricsOfOrders customer customerOrders calculationDate
  end.
End CLVCalculator.

(** ** DailyMetrics *)

Module ProductSale.
Record t := mk {
  product_id : string;
  title : option string;
  quantity : Z;
  revenue : Q
}.
End ProductSale.

Module DailyMetrics.
(** The [metrics] object together with the two local tables while the
    orders of the day are visited; [total_customers] is still a [Set]. *)
Record acc := mkAcc {
  acc_total_revenue : Q;
  acc_total_customers : gset positive;
  acc_total_products_sold : Z;
  acc_revenue_by_source : gmap string Q;
  productSales : list (string * ProductSale.t);
  customerOrderCounts : gmap positive nat
}.

Record t := mk {
  metric_date : Z;
  total_revenue : Q;
  total_orders : nat;
  total_customers : nat;
  new_customers : nat;
  returning_customers : nat;
  average_order_value : Q;
  total_products_sold : Z;
  top_selling_products : list ProductSale.t;
  revenue_by_source : gmap string Q
}.
End DailyMetrics.

(** *** Property order of a plain object

    [Object.values] lists array-index keys first, in ascending numeric
    order, then the other string keys in insertion order. *)

Module JsObject.
Definition digit (a : Ascii.ascii) : option Z :=
  let n := Z.of_nat (Ascii.nat_of_ascii a) in
  if (48 <=? n) && (n <=? 57) then Some (n - 48) else None.

Fixpoint digits (s : string) (value : Z) : option Z :=
  match s with
  | EmptyString => Some value
  | String a rest =>
      match digit a with
      | Some d => digits rest (10 * value + d)
      | None => None
      end
  end.

(** The canonical numeric strings below 2^32 - 1. *)
Definition arrayIndex (key : string) : option Z :=
  match key with
  | EmptyString => None
  | String a rest =>
      match digits key 0 with
      | Some n =>
          if (n <=? 4294967294) && (negb (Ascii.eqb a "0"%char) || String.eqb rest EmptyString)
          then Some n else None
      | None => None
      end
  end.

Section Values.
Context {V : Type}.

Fixpoint insertIndexed (e : Z * V) (l : list (Z * V)) : list (Z * V) :=
  match l with
  | [] => [e]
  | y :: l' => if fst e <=? fst y then e :: y :: l' else y :: insertIndexed e l'
  end.

Fixpoint indexed (entries : list (string * V)) : list (Z * V) :=
  match entries with
  | [] => []
  | (k, v) :: rest =>
      match arrayIndex k with
      | Some n => insertIndexed (n, v) (indexed rest)
      | None => indexed rest
      end
  end.

Fixpoint named (entries : list (string * V)) : list V :=
  match entries with
  | [] => []
  | (k, v) :: rest =>
      match arrayIndex k with
      | Some _ => named rest
      | None => v :: named rest
      end
  end.

(** [entries] holds the own properties in insertion order, one per key. *)
Definition values (entries : list (string * V)) : list V :=
  List.map snd (indexed entries) ++ named entries.

Fixpoint get (key : string) (entries : list (string * V)) : option V :=
  match entries with
  | [] => None
  | (k, v) :: rest => if String.eqb k key then Some v else get key rest
  end.

(** [obj[key] = v]: an existing property keeps its position. *)
Fixpoint set (key : string) (v : V) (entries : list (string * V)) : list (string * V) :=
  match entries with
  | [] => [(key, v)]
  | (k, v') :: rest =>
      if String.eqb k key then (k, v) :: rest else (k, v') :: set key v rest
  end.
End Values.

(** The names every plain object inherits from [Object.prototype].  A
    lookup [obj[key]] under one of them finds the inherited value where
    the object has no property of its own.  The tables of the daily
    aggregate are plain objects; the embedding holds their own
    properties, which is all a lookup sees under any other key. *)
Definition inherited : list string :=
  [ "constructor"; "__defineGetter__"; "__defineSetter__"; "hasOwnProperty";
    "__lookupGetter__"; "__lookupSetter__"; "isPrototypeOf";
    "propertyIsEnumerable"; "toString"; "valueOf"; "__proto__";
    "toLocaleString" ].
End JsObject.

Module DailyCalculator.
Import DailyMetrics.

(** One [line_items.forEach] step. *)
Definition visitItem (a : acc) (item : LineItem.t) : acc :=
  let sold := acc_total_products_sold a + orZeroZ (LineItem.quantity item) in
  let sales :=
    match LineItem.source_product_id item with
    | Some productId =>
        if String.eqb productId EmptyString then productSales a
        else
          let entry :=
            match JsObject.get productId (productSales a) with
            | Some e => e
            | None => ProductSale.mk productId (LineItem.title item) 0 0
            end in
          JsObject.set productId
            (ProductSale.mk (ProductSale.product_id entry) (ProductSale.title entry)
               (ProductSale.quantity entry + orZeroZ (LineItem.quantity item))
               (ProductSale.revenue entry
                + orZeroQ (LineItem.price item)
                  * inject_Z (orZeroZ (LineItem.quantity item)))%Q)
            (productSales a)
    | None => productSales a
    end in
  mkAcc (acc_total_revenue a) (acc_total_customers a) sold
        (acc_revenue_by_source a) sales (customerOrderCounts a).

(** [order.source_name || 'direct'] *)
Definition sourceOf (order : Order.t) : string :=
  match Order.source_name order with
  | Some s => if String.eqb s EmptyString then "direct" else s
  | None => "direct"
  end.

(** [counts[c] = (counts[c] || 0) + 1] *)
Definition bump (counts : gmap positive nat) (c : positive) : gmap positive nat :=
  <[c := (default 0%nat (counts !! c) + 1)%nat]> counts.

(** One [dayOrders.forEach] step.  [if (order.customer_id)] asks whether
    the order carries a customer key. *)
Definition visitOrder (a : acc) (order : Order.t) : acc :=
  let revenue := (acc_total_revenue a + orZeroQ (Order.total_price order))%Q in
  let customers :=
    match Order.customer_id order with
    | Some c => {[c]} ∪ acc_total_customers a
    | None => acc_total_customers a
    end in
  let counts :=
    match Order.customer_id order with
    | Some c => bump (customerOrderCounts a) c
    | None => customerOrderCounts a
    end in
  let source := sourceOf order in
  let bySource :=
    <[source := (default 0%Q (acc_revenue_by_source a !! source)
                 + orZeroQ (Order.total_price order))%Q]> (acc_revenue_by_source a) in
  let a' := mkAcc revenue customers (acc_total_products_sold a) bySource
                  (productSales a) counts in
  match Order.line_items order with
  | Some items => fold_left visitItem items a'
  | None => a'
  end.

(** [.sort((a, b) => b.revenue - a.revenue)]: descending and stable. *)
Fixpoint insertByRevenue (x : ProductSale.t) (l : list ProductSale.t) : list ProductSale.t :=
  match l with
  | [] => [x]
  | y :: l' =>
      if Qle_bool (ProductSale.revenue y) (ProductSale.revenue x)
      then x :: y :: l'
      else y :: insertByRevenue x l'
  end.

Definition sortByRevenue (l : list ProductSale.t) : list ProductSale.t :=
  fold_right insertByRevenue [] l.

(** The final [Object.entries(customerOrderCounts).forEach]. *)
Definition countNewReturning (entries : list (positive * nat)) : nat * nat :=
  fold_left (fun '(new, returning) '(_, count) =>
               if (count =? 1)%nat then (S new, returning) else (new, S returning))
            entries (0%nat, 0%nat).

(** [orders.filter(order => orderDate.toDateString() ===
    calculationDate.toDateString())] *)
Definition dayOrders (tz : Z) (orders : list Order.t) (calculationDate : Z) : list Order.t :=
  List.filter (fun order =>
                 toDateString tz (Order.processed_at order)
                 =? toDateString tz calculationDate) orders.

(** [calculateDailyMetrics(orders, products, calculationDate)]; the
    [products] argument is never read and is left out. *)
Definition calculateDailyMetrics (tz : Z) (orders : list Order.t)
    (calculationDate : Z) : t :=
  let dayOrders := dayOrders tz orders calculationDate in
  let a := fold_left visitOrder dayOrders (mkAcc 0 ∅ 0 ∅ [] ∅) in
  let totalOrders := length dayOrders in
  let averageOrderValue :=
    if (0 <? totalOrders)%nat
    then (acc_total_revenue a / inject_Z (Z.of_nat totalOrders))%Q
    else 0%Q in
  let top := take 10 (sortByRevenue (JsObject.values (productSales a))) in
  let '(new, returning) := countNewReturning (map_to_list (customerOrderCounts a)) in
  {| metric_date := calculationDate;
     total_revenue := acc_total_revenue a;
     total_orders := totalOrders;
     total_customers := size (acc_total_customers a);
     new_customers := new;
     returning_customers := returning;
     average_order_value := averageOrderValue;
     total_products_sold := acc_total_products_sold a;
     top_selling_products := top;
     revenue_by_source := acc_revenue_by_source a |}.
End DailyCalculator.

(** ** The formulas of the specification, written from its words *)

Module Spec.
Import CustomerMetrics.

(** predictiveCLV: monthlyRevenue = averageOrderValue x purchaseFrequency,
    retention = 1 - churnProbability, discount = 0.1/12; the flat 36-month
    projection when retention >= 1 + discount, the quotient otherwise. *)
Definition predictiveCLV (averageOrderValue purchaseFrequency churnProbability : Q) : Q :=
  let monthlyRevenue := (averageOrderValue * purchaseFrequency)%Q in
  let retention := (1 - churnProbability)%Q in
  let discount := (0.1 / 12)%Q in
  if Qle_bool (1 + discount) retention
  then (monthlyRevenue * 36)%Q
  else (monthlyRevenue * retention / (1 + discount - retention))%Q.

(** customerLifetimeValue = (simpleCLV + predictiveCLV) / 2, with the
    churn probability of the days since the last purchase. *)
Definition customerLifetimeValue (m : t) : Q :=
  ((CLVCalculator.calculateSimpleCLV m
    + predictiveCLV (average_order_value m) (purchase_frequency m)
        (CLVCalculator.churnStep (orZeroZ (days_since_last_purchase m)))) / 2)%Q.

(** The segmentation table: rules in order, the first match wins. *)
Definition segmentRules : list ((Z -> Z -> Z -> Z -> bool) * string) :=
  [ (fun r f m c => (4 <=? r) && (4 <=? f) && (4 <=? m), "Champions");
    (fun r f m c => (3 <=? f) && (3 <=? m) && (9 <=? c), "Loyal Customers");
    (fun r f m c => (3 <=? r) && (2 <=? f) && (7 <=? c), "Potential Loyalists");
    (fun r f m c => (4 <=? r) && (f <=? 2), "New Customers");
    (fun r f m c => (r <=? 2) && (3 <=? f) && (3 <=? m), "At Risk");
    (fun r f m c => (r <=? 2) && (4 <=? m), "Cannot Lose");
    (fun r f m c => (r <=? 2) && (f <=? 2) && (m <=? 2), "Hibernating");
    (fun r f m c => (m <=? 2) && (3 <=? f), "Price Sensitive") ].

Fixpoint firstMatch (rules : list ((Z -> Z -> Z -> Z -> bool) * string))
    (r f m c : Z) : string :=
  match rules with
  | [] => "Regular"
  | (rule, segment) :: rest => if rule r f m c then segment else firstMatch rest r f m c
  end.

Definition nineSegments : list string :=
  [ "Champions"; "Loyal Customers"; "Potential Loyalists"; "New Customers";
    "At Risk"; "Cannot Lose"; "Hibernating"; "Price Sensitive"; "Regular" ].

(** Sum of the totals of a list of orders, a missing total counting 0. *)
Definition sumTotals (orders : list Order.t) : Q :=
  fold_right (fun o s => (orZeroQ (Order.total_price o) + s)%Q) 0%Q orders.
End Spec.

(** ** Fixtures of [test/analytics/clvCalculator.test.js] *)

Module Fixture.
Definition mockCustomer : Customer.t := Customer.mk 1.

(** 2024-01-01, 2024-01-15 and 2024-02-01, all at 00:00 UTC. *)
Definition mockOrders : list Order.t :=
  [ Order.mk 1 (Some 1%positive) (Some 100%Q) 1704067200000 None None;
    Order.mk 2 (Some 1%positive) (Some 150%Q) 1705276800000 None None;
    Order.mk 3 (Some 1%positive) (Some 200%Q) 1706745600000 None None ].

(** 2024-03-01 *)
Definition march1 : Z := 1709251200000.

Definition otherCustomersOrder : Order.t :=
  Order.mk 9 (Some 2%positive) (Some 40%Q) 1705276800000 None None.
End Fixture.


(** Fixtures of the [calculateDailyMetrics] tests: the orders of
    'should handle orders from different dates'. *)
Module DailyFixture.
Definition productA (quantity : Z) (price : Q) : LineItem.t :=
  LineItem.mk (Some "1") (Some "Product A") (Some quantity) (Some price).

Definition productB : LineItem.t :=
  LineItem.mk (Some "2") (Some "Product B") (Some 1) (Some 150%Q).

(** 2024-01-14T10:00:00Z, 2024-01-15T14:00:00Z, 2024-01-15T16:00:00Z *)
Definition ordersWithDifferentDates : list Order.t :=
  [ Order.mk 1 (Some 1%positive) (Some 100%Q) 1705226400000 (Some "web")
      (Some [productA 2 50%Q]);
    Order.mk 2 (Some 2%positive) (Some 150%Q) 1705327200000 (Some "mobile")
      (Some [productB]);
    Order.mk 3 (Some 1%positive) (Some 75%Q) 1705334400000 (Some "web")
      (Some [productA 1 75%Q]) ].

(** 2024-01-15T00:00:00Z *)
Definition january15 : Z := 1705276800000.

Definition utc : Z := 0.

(** An order of the same day without a customer. *)
Definition guestOrder : Order.t :=
  Order.mk 4 None (Some 20%Q) 1705330000000 None None.
End DailyFixture.

(** * The ETL orchestrator ([src/pipelines/etlPipeline.js])

    An [async] method is a computation over the state of everything the
    process talks to (the database, the storefront APIs, the clock): it
    ends in a value or in a rejection, and leaves a new outside state.
    Calls to the logger are not represented. *)

Definition Eff (S A : Type) : Type := S -> Completion A * S.

Definition ret {S A : Type} (a : A) : Eff S A := fun s => (Normal a, s).

Definition throw {S A : Type} (message : string) : Eff S A := fun s => (Throw message, s).

Definition bind {S A B : Type} (c : Eff S A) (k : A -> Eff S B) : Eff S B :=
  fun s => match c s with
           | (Normal a, s') => k a s'
           | (Throw m, s') => (Throw m, s')
           end.

(** [try { body } catch (error) { handler(error.message) }] *)
Definition tryCatch {S A : Type} (body : Eff S A) (handler : string -> Eff S A) : Eff S A :=
  fun s => match body s with
           | (Normal a, s') => (Normal a, s')
           | (Throw m, s') => handler m s'
           end.

(** A synchronous call that may raise. *)
Definition liftC {S A : Type} (c : Completion A) : Eff S A := fun s => (c, s).

Notation "'let*' x ':=' c 'in' k" := (bind c (fun x => k))
  (at level 10, x pattern, c at level 100, k at level 200).

(** [for (const x of xs) { await body(x) }] *)
Fixpoint forEach {S A : Type} (xs : list A) (body : A -> Eff S unit) : Eff S unit :=
  match xs with
  | [] => ret tt
  | x :: rest => let* _ := body x in forEach rest body
  end.

(** A local object that the body of a [try] updates and the [catch] block
    reads: the state is the object paired with the outside state. *)
Definition outside {L W A : Type} (c : Eff W A) : Eff (L * W) A :=
  fun s => let '(r, w') := c (snd s) in (r, (fst s, w')).

Definition readLocal {L W : Type} : Eff (L * W) L := fun s => (Normal (fst s), s).

Definition updateLocal {L W : Type} (f : L -> L) : Eff (L * W) unit :=
  fun s => (Normal tt, (f (fst s), snd s)).

Definition withLocal {L W A : Type} (init : L) (c : Eff (L * W) A) : Eff W A :=
  fun w => let '(r, s') := c (init, w) in (r, snd s').

(** [String.prototype.includes] *)
Fixpoint includes (needle hay : string) : bool :=
  String.prefix needle hay ||
  match hay with
  | EmptyString => false
  | String _ rest => includes needle rest
  end.

(** [x ? ... : ...] on an optional string: the empty string is falsy. *)
Definition truthyString (x : option string) : option string :=
  match x with
  | Some s => if String.eqb s EmptyString then None else Some s
  | None => None
  end.

Module ETLPipeline.
Section Pipeline.
(** The outside state and the record shapes of the collaborators. *)
Context {World RawCustomer RawProduct RawOrder RawItem : Type}.
Context {TCustomer TProduct TOrder TItem : Type}.

(** [new Date()]: reading the clock may move the outside state on. *)
Variable clock : World -> Z * World.
(** [rawOrder.line_items] *)
Variable raw_line_items : RawOrder -> option (list RawItem).
(** [order.source_id] and [order.email] of a canonical order. *)
Variable order_source_id : TOrder -> string.
Variable order_email : TOrder -> option string.
(** The time zone of the host, read by [toDateString]. *)
Variable hostTz : Z.

Definition IO (A : Type) : Type := Eff World A.

Definition now : IO Z := fun w => let '(t, w') := clock w in (Normal t, w').

Record Connector := {
  testConnection : IO bool;
  getCustomers : option Z -> IO (list RawCustomer);
  getProducts : option Z -> IO (list RawProduct);
  getOrders : option Z -> IO (list RawOrder)
}.

Record Transformer := {
  transformCustomerBatch : list RawCustomer -> string -> Completion (list TCustomer);
  transformProductBatch : list RawProduct -> string -> Completion (list TProduct);
  transformOrder : RawOrder -> string -> Completion TOrder;
  transformOrderItem : RawItem -> string -> Completion TItem
}.

(** A transformed order item with the [source_order_id] set on it. *)
Record OrderItem := {
  item : TItem;
  source_order_id : string
}.

Record BatchResult (A : Type) := {
  inserted : list (A * positive);
  failed : list (A * string)
}.
Arguments inserted {A} _.
Arguments failed {A} _.

Record LoadResults := {
  lr_customers : BatchResult TCustomer;
  lr_products : BatchResult TProduct;
  lr_orders : BatchResult TOrder;
  lr_orderItems : BatchResult OrderItem;
  totalLoaded : nat
}.

Record ETLLog := {
  pipeline_name : string;
  source_type : string;
  status : string;
  records_extracted : nat;
  records_transformed : nat;
  records_loaded : nat;
  started_at : Z;
  metadata : option LoadResults;
  error_message : option string;
  completed_at : option Z;
  duration_seconds : option Z
}.

(** A row of the customers query: the customer and its aggregated
    orders, [NULL] when it has none. *)
Record CustomerRow := {
  customer : Customer.t;
  orders : option (list Order.t)
}.

Record Loader := {
  getLastETLRun : string -> string -> IO (option ETLLog);
  upsertCustomerBatch : list TCustomer -> IO (BatchResult TCustomer);
  upsertProductBatch : list TProduct -> IO (BatchResult TProduct);
  findCustomerId : string -> string -> IO (option positive);
  upsertOrder : TOrder -> option positive -> IO positive;
  insertOrderItems : list OrderItem -> positive -> IO (list (OrderItem * positive));
  upsertCustomerMetrics : CustomerMetrics.t -> IO positive;
  (** the metrics with [source_type] set on them *)
  upsertDailyMetrics : DailyMetrics.t -> string -> IO positive;
  logETLRun : ETLLog -> IO positive;
  (** the three statements sent through [loader.pool.query] *)
  queryUpdatePurchaseDates : string -> IO unit;
  queryCustomersWithOrders : string -> IO (list CustomerRow);
  queryDailyOrders : string -> Z -> IO (list Order.t)
}.

Record ETLPipeline := {
  transformer : Transformer;
  loader : Loader;
  connectors : string -> option Connector
}.

Record ExtractedData := {
  ex_customers : list RawCustomer;
  ex_products : list RawProduct;
  ex_orders : list RawOrder
}.

Record TransformedData := {
  tr_customers : list TCustomer;
  tr_products : list TProduct;
  tr_orders : list TOrder;
  tr_orderItems : list OrderItem
}.

Record RunResult := {
  success : bool;
  log : ETLLog
}.

Variable this : ETLPipeline.

Definition extractData (connector : Connector) (since : option Z) : IO ExtractedData :=
  let* customers := getCustomers connector since in
  let* products := getProducts connector since in
  let* orders := getOrders connector since in
  ret {| ex_customers := customers; ex_products := products; ex_orders := orders |}.

(** The items of one raw order, each stamped with the order's source id. *)
Fixpoint transformItems (items : list RawItem) (sourceOrderId sourceType : string)
    : Completion (list OrderItem) :=
  match items with
  | [] => Normal []
  | rawItem :: rest =>
      bindC (transformOrderItem (transformer this) rawItem sourceType) (fun transformedItem =>
      bindC (transformItems rest sourceOrderId sourceType) (fun others =>
      Normal ({| item := transformedItem; source_order_id := sourceOrderId |} :: others)))
  end.

Fixpoint transformOrders (rawOrders : list RawOrder) (sourceType : string)
    : Completion (list TOrder * list OrderItem) :=
  match rawOrders with
  | [] => Normal ([], [])
  | order :: rest =>
      bindC (transformOrder (transformer this) order sourceType) (fun transformedOrder =>
      bindC (match raw_line_items order with
             | Some items =>
                 transformItems items (order_source_id transformedOrder) sourceType
             | None => Normal []
             end) (fun items =>
      bindC (transformOrders rest sourceType) (fun '(orders, orderItems) =>
      Normal (transformedOrder :: orders, (items ++ orderItems)%list))))
  end.

Definition transformData (data : ExtractedData) (sourceType : string) : IO TransformedData :=
  liftC
    (bindC (transformCustomerBatch (transformer this) (ex_customers data) sourceType)
       (fun customers =>
     bindC (transformProductBatch (transformer this) (ex_products data) sourceType)
       (fun products =>
     bindC (transformOrders (ex_orders data) sourceType) (fun '(orders, orderItems) =>
     Normal {| tr_customers := customers; tr_products := products;
               tr_orders := orders; tr_orderItems := orderItems |})))).

(** [updateCustomerPurchaseDates] logs a failing statement and goes on. *)
Definition updateCustomerPurchaseDates (sourceType : string) : IO unit :=
  tryCatch (queryUpdatePurchaseDates (loader this) sourceType) (fun _ => ret tt).

(** The body of the [try] around one order in [loadData]: the id of the
    order and the items inserted for it. *)
Definition loadOrder (data : TransformedData) (sourceType : string) (order : TOrder)
    : IO (positive * list (OrderItem * positive)) :=
  let* customerId :=
    match truthyString (order_email order) with
    | Some email => findCustomerId (loader this) email sourceType
    | None => ret None
    end in
  let* orderId := upsertOrder (loader this) order customerId in
  let orderItems :=
    List.filter (fun i => String.eqb (source_order_id i) (order_source_id order))
      (tr_orderItems data) in
  let* insertedItems :=
    if (0 <? length orderItems)%nat
    then insertOrderItems (loader this) orderItems orderId
    else ret [] in
  ret (orderId, insertedItems).

Fixpoint loadOrders (data : TransformedData) (sourceType : string) (todo : list TOrder)
    (orders : BatchResult TOrder) (orderItems : BatchResult OrderItem)
    : IO (BatchResult TOrder * BatchResult OrderItem) :=
  match todo with
  | [] => ret (orders, orderItems)
  | order :: rest =>
      let* (orders', orderItems') :=
        tryCatch
          (let* (orderId, insertedItems) := loadOrder data sourceType order in
           ret ({| inserted := (inserted orders ++ [(order, orderId)])%list;
                   failed := failed orders |},
                {| inserted := (inserted orderItems ++ insertedItems)%list;
                   failed := failed orderItems |}))
          (fun message =>
             ret ({| inserted := inserted orders;
                     failed := (failed orders ++ [(order, message)])%list |},
                  orderItems)) in
      loadOrders data sourceType rest orders' orderItems'
  end.

Definition loadData (data : TransformedData) (sourceType : string) : IO LoadResults :=
  let* customers := upsertCustomerBatch (loader this) (tr_customers data) in
  let* products := upsertProductBatch (loader this) (tr_products data) in
  let* (orders, orderItems) :=
    loadOrders data sourceType (tr_orders data)
      {| inserted := []; failed := [] |} {| inserted := []; failed := [] |} in
  let* _ := updateCustomerPurchaseDates sourceType in
  ret {| lr_customers := customers;
         lr_products := products;
         lr_orders := orders;
         lr_orderItems := orderItems;
         totalLoaded := (length (inserted customers) + length (inserted products)
                         + length (inserted orders) + length (inserted orderItems))%nat |}.

(** [customer.orders && customer.orders.length > 0] *)
Definition hasOrders (row : CustomerRow) : bool :=
  match orders row with
  | Some os => (0 <? length os)%nat
  | None => false
  end.

(** Computing and storing the metrics of one customer. *)
Definition storeCustomerMetrics (calculationDate : Z) (row : CustomerRow) : IO unit :=
  let* metrics :=
    liftC (CLVCalculator.calculateCustomerMetrics (customer row) (orders row)
             calculationDate) in
  let* _ := upsertCustomerMetrics (loader this) metrics in
  ret tt.

(** The loop [for (const customer of customersWithOrders)]. *)
Definition customerMetricsLoop (calculationDate : Z) (rows : list CustomerRow) : IO unit :=
  forEach rows (fun row =>
    if hasOrders row then storeCustomerMetrics calculationDate row else ret tt).

Definition calculateMetrics (data : TransformedData) (sourceType : string) : IO unit :=
  let* calculationDate := now in
  let* customersWithOrders := queryCustomersWithOrders (loader this) sourceType in
  let* _ := customerMetricsLoop calculationDate customersWithOrders in
  let* dailyOrders := queryDailyOrders (loader this) sourceType calculationDate in
  let dailyMetrics :=
    DailyCalculator.calculateDailyMetrics hostTz dailyOrders calculationDate in
  let* _ := upsertDailyMetrics (loader this) dailyMetrics sourceType in
  ret tt.

(** Assignments to the fields of [etlLog]. *)
Definition setCounts (extracted transformed loaded : nat) (l : ETLLog) : ETLLog :=
  {| pipeline_name := pipeline_name l; source_type := source_type l;
     status := status l;
     records_extracted := extracted; records_transformed := transformed;
     records_loaded := loaded;
     started_at := started_at l; metadata := metadata l;
     error_message := error_message l; completed_at := completed_at l;
     duration_seconds := duration_seconds l |}.

Definition setStatus (v : string) (l : ETLLog) : ETLLog :=
  {| pipeline_name := pipeline_name l; source_type := source_type l;
     status := v;
     records_extracted := records_extracted l;
     records_transformed := records_transformed l;
     records_loaded := records_loaded l;
     started_at := started_at l; metadata := metadata l;
     error_message := error_message l; completed_at := completed_at l;
     duration_seconds := duration_seconds l |}.

Definition setErrorMessage (v : string) (l : ETLLog) : ETLLog :=
  {| pipeline_name := pipeline_name l; source_type := source_type l;
     status := status l;
     records_extracted := records_extracted l;
     records_transformed := records_transformed l;
     records_loaded := records_loaded l;
     started_at := started_at l; metadata := metadata l;
     error_message := Some v; completed_at := completed_at l;
     duration_seconds := duration_seconds l |}.

Definition setMetadata (v : LoadResults) (l : ETLLog) : ETLLog :=
  {| pipeline_name := pipeline_name l; source_type := source_type l;
     status := status l;
     records_extracted := records_extracted l;
     records_transformed := records_transformed l;
     records_loaded := records_loaded l;
     started_at := started_at l; metadata := Some v;
     error_message := error_message l; completed_at := completed_at l;
     duration_seconds := duration_seconds l |}.

(** [completed_at = new Date()] followed by
    [duration_seconds = Math.floor((completed_at - started_at) / 1000)]. *)
Definition setCompleted (completedAt : Z) (l : ETLLog) : ETLLog :=
  {| pipeline_name := pipeline_name l; source_type := source_type l;
     status := status l;
     records_extracted := records_extracted l;
     records_transformed := records_transformed l;
     records_loaded := records_loaded l;
     started_at := started_at l; metadata := metadata l;
     error_message := error_message l; completed_at := Some completedAt;
     duration_seconds := Some ((completedAt - started_at l) / 1000) |}.

Definition Run (A : Type) : Type := Eff (ETLLog * World) A.

(** The [try] block of [runForSource]. *)
Definition runTry (sourceType : string) : Run RunResult :=
  let* connector :=
    match connectors this sourceType with
    | Some connector => ret connector
    | None => throw ("Connector for " ++ sourceType ++ " not initialized")
    end in
  let* connectionOk := outside (testConnection connector) in
  let* _ :=
    if connectionOk then ret tt
    else throw ("Failed to connect to " ++ sourceType) in
  let* lastRun := outside (getLastETLRun (loader this) "main_etl" sourceType) in
  let since :=
    match lastRun with
    | Some lastRun => Some (orZeroZ (completed_at lastRun))
    | None => None
    end in
  let* extractedData := outside (extractData connector since) in
  let* _ :=
    updateLocal (fun l =>
      setCounts (length (ex_customers extractedData) + length (ex_products extractedData)
                 + length (ex_orders extractedData))%nat
                (records_transformed l) (records_loaded l) l) in
  let* transformedData := outside (transformData extractedData sourceType) in
  let* _ :=
    updateLocal (fun l =>
      setCounts (records_extracted l)
                (length (tr_customers transformedData)
                 + length (tr_products transformedData)
                 + length (tr_orders transformedData))%nat
                (records_loaded l) l) in
  let* loadResults := outside (loadData transformedData sourceType) in
  let* _ :=
    updateLocal (fun l =>
      setCounts (records_extracted l) (records_transformed l)
                (totalLoaded loadResults) l) in
  let* _ := outside (calculateMetrics transformedData sourceType) in
  let* _ := updateLocal (setStatus "success") in
  let* completedAt := outside now in
  let* _ := updateLocal (fun l => setMetadata loadResults (setCompleted completedAt l)) in
  let* etlLog := readLocal in
  let* _ := outside (logETLRun (loader this) etlLog) in
  ret {| success := true; log := etlLog |}.

(** The [catch] block of [runForSource]. *)
Definition runCatch (message : string) : Run RunResult :=
  let* _ := updateLocal (fun l => setErrorMessage message (setStatus "failed" l)) in
  let* completedAt := outside now in
  let* _ := updateLocal (setCompleted completedAt) in
  let* etlLog := readLocal in
  let* _ := outside (logETLRun (loader this) etlLog) in
  ret {| success := false; log := etlLog |}.

Definition runForSource (sourceType : string) : IO RunResult :=
  let* startedAt := now in
  withLocal
    {| pipeline_name := "main_etl";
       source_type := sourceType;
       status := "running";
       records_extracted := 0;
       records_transformed := 0;
       records_loaded := 0;
       started_at := startedAt;
       metadata := None;
       error_message := None;
       completed_at := None;
       duration_seconds := None |}
    (tryCatch (runTry sourceType) runCatch).

(** [config.<source>.enabled], from [utils/config.js]. *)
Record Config := {
  shopify_enabled : bool;
  woocommerce_enabled : bool;
  commercetools_enabled : bool
}.

Variable config : Config.

Record RunResults := {
  shopify : option RunResult;
  woocommerce : option RunResult;
  commercetools : option RunResult
}.

(** [if (config.x.enabled) results.x = await this.runForSource(x)] *)
Definition runSource (enabled : bool) (sourceType : string) : IO (option RunResult) :=
  if enabled
  then let* result := runForSource sourceType in ret (Some result)
  else ret None.

(** [run]: the sources one after the other; its [catch] block rethrows. *)
Definition run : IO RunResults :=
  let* startTime := now in
  let* s := runSource (shopify_enabled config) "shopify" in
  let* w := runSource (woocommerce_enabled config) "woocommerce" in
  let* c := runSource (commercetools_enabled config) "commercetools" in
  let* endTime := now in
  ret {| shopify := s; woocommerce := w; commercetools := c |}.
End Pipeline.
End ETLPipeline.

(** ** A recording double of the collaborators

    The shape of [MockConnector] and of the loader double of the pipeline
    tests: the connector answers [testConnection] with a preset result and
    has no data, the loader records what it is asked to store. *)

Module Mock.
Import ETLPipeline.

Definition Log : Type := @ETLLog unit unit unit unit.

Record World := {
  time : Z;
  etl_logs : list Log;
  customer_metrics : list CustomerMetrics.t;
  daily_metrics : list (DailyMetrics.t * string)
}.

(** Each reading of the clock takes a second and a half. *)
Definition clock (w : World) : Z * World :=
  (time w,
   {| time := time w + 1500; etl_logs := etl_logs w;
      customer_metrics := customer_metrics w; daily_metrics := daily_metrics w |}).

Definition connector (connectionTestResult : bool)
    : @Connector World unit unit unit :=
  {| testConnection := ret connectionTestResult;
     getCustomers := fun _ => ret [];
     getProducts := fun _ => ret [];
     getOrders := fun _ => ret [] |}.

Definition transformer : @Transformer unit unit unit unit unit unit unit unit :=
  {| transformCustomerBatch := fun raw _ => Normal raw;
     transformProductBatch := fun raw _ => Normal raw;
     transformOrder := fun raw _ => Normal raw;
     transformOrderItem := fun raw _ => Normal raw |}.

Definition storeBatch {A : Type} (entities : list A) : Eff World (BatchResult A) :=
  ret {| inserted := List.map (fun e => (e, 1%positive)) entities; failed := [] |}.

Definition loader (customersWithOrders : list CustomerRow)
    : @Loader World unit unit unit unit :=
  {| getLastETLRun := fun _ _ => ret None;
     upsertCustomerBatch := storeBatch;
     upsertProductBatch := storeBatch;
     findCustomerId := fun _ _ => ret (Some 1%positive);
     upsertOrder := fun _ _ => ret 1%positive;
     insertOrderItems := fun items _ => ret (List.map (fun i => (i, 1%positive)) items);
     upsertCustomerMetrics := fun metrics w =>
       (Normal 1%positive,
        {| time := time w; etl_logs := etl_logs w;
           customer_metrics := (customer_metrics w ++ [metrics])%list;
           daily_metrics := daily_metrics w |});
     upsertDailyMetrics := fun metrics sourceType w =>
       (Normal 1%positive,
        {| time := time w; etl_logs := etl_logs w;
           customer_metrics := customer_metrics w;
           daily_metrics := (daily_metrics w ++ [(metrics, sourceType)])%list |});
     logETLRun := fun entry w =>
       (Normal 1%positive,
        {| time := time w; etl_logs := (etl_logs w ++ [entry])%list;
           customer_metrics := customer_metrics w;
           daily_metrics := daily_metrics w |});
     queryUpdatePurchaseDates := fun _ => ret tt;
     queryCustomersWithOrders := fun _ => ret customersWithOrders;
     queryDailyOrders := fun _ _ => ret [] |}.

(** Only the Shopify connector is configured. *)
Definition pipeline (connectionTestResult : bool) (customersWithOrders : list CustomerRow)
    : @ETLPipeline World unit unit unit unit unit unit unit unit :=
  {| ETLPipeline.transformer := transformer;
     ETLPipeline.loader := loader customersWithOrders;
     connectors := fun sourceType =>
       if String.eqb sourceType "shopify"
       then Some (connector connectionTestResult) else None |}.

Definition start : World :=
  {| time := 1709251200000; etl_logs := []; customer_metrics := []; daily_metrics := [] |}.

(** What the customers query reads back: the customer of the analytics
    fixture with its three orders, and customer 2 without orders. *)
Definition customerWithOrders : CustomerRow :=
  {| customer := Fixture.mockCustomer; orders := Some Fixture.mockOrders |}.

Definition customerWithoutOrders : CustomerRow :=
  {| customer := Customer.mk 2; orders := None |}.

Definition noData : @TransformedData unit unit unit unit :=
  {| tr_customers := []; tr_products := []; tr_orders := []; tr_orderItems := [] |}.

Definition runForSource (connectionTestResult : bool) (rows : list CustomerRow)
    : string -> Eff World RunResult :=
  ETLPipeline.runForSource clock (fun _ => None) (fun _ => "order") (fun _ => None) 0
    (pipeline connectionTestResult rows).

Definition calculateMetrics (rows : list CustomerRow) : string -> Eff World unit :=
  ETLPipeline.calculateMetrics clock 0 (pipeline true rows) noData.
End Mock.

(** ** The PostgreSQL loader

    [pool.query] is the one way out of [PostgresLoader]: a statement with
    its parameters, answered with rows or with an error.  The statements
    that return the [id] column of a table with a serial key are told
    apart by [Statement], and their rows are the ids; the statement of
    [getLastETLRun] returns log entries. *)

Module PostgresLoader.
Import ETLPipeline.

Section Loader.
Context {World TCustomer TProduct TOrder TItem : Type}.

Inductive Statement :=
| UpsertCustomer (customer : TCustomer)
| UpsertProduct (product : TProduct)
| UpsertOrder (order : TOrder) (customerId : option positive)
| InsertOrderItem (orderId : positive) (productId : option positive)
    (orderItem : @OrderItem TItem)
| SelectProductId (sourceProductId : string) (sourceType : option string)
| SelectCustomerId (email sourceType : string)
| UpsertCustomerMetrics (metrics : CustomerMetrics.t)
| UpsertDailyMetrics (metrics : DailyMetrics.t) (sourceType : string)
| InsertETLLog (entry : @ETLLog TCustomer TProduct TOrder TItem).

Variable pool_query : Statement -> Eff World (list positive).
Variable pool_query_logs :
  string -> string -> Eff World (list (@ETLLog TCustomer TProduct TOrder TItem)).
(** The three statements the pipeline sends through [loader.pool]. *)
Variable pool_query_purchase_dates : string -> Eff World unit.
Variable pool_query_customers : string -> Eff World (list CustomerRow).
Variable pool_query_daily_orders : string -> Z -> Eff World (list Order.t).
(** [order.customer_id], [item.source_product_id] and [item.source_type]. *)
Variable order_customer_id : TOrder -> option positive.
Variable item_source_product_id : TItem -> option string.
Variable item_source_type : TItem -> option string.
(** [String.prototype.toLowerCase] *)
Variable toLowerCase : string -> string.

(** [result.rows[0].id] *)
Definition firstId (rows : list positive) : Eff World positive :=
  match rows with
  | id :: _ => ret id
  | [] => throw "Cannot read properties of undefined (reading 'id')"
  end.

(** [try { ... return result.rows[0].id } catch (error) { throw error }] *)
Definition returningId (statement : Statement) : Eff World positive :=
  tryCatch (let* rows := pool_query statement in firstId rows)
    (fun message => throw message).

Definition upsertCustomer (customer : TCustomer) : Eff World positive :=
  returningId (UpsertCustomer customer).

Definition upsertProduct (product : TProduct) : Eff World positive :=
  returningId (UpsertProduct product).

(** The loop of [upsertCustomerBatch] and of [upsertProductBatch], which
    differ in the entity only. *)
Fixpoint upsertEach {A : Type} (upsert : A -> Eff World positive) (todo : list A)
    (inserted : list (A * positive)) (failed : list (A * string))
    : Eff World (BatchResult A) :=
  match todo with
  | [] => ret {| ETLPipeline.inserted := inserted; ETLPipeline.failed := failed |}
  | entity :: rest =>
      let* (inserted', failed') :=
        tryCatch
          (let* id := upsert entity in
           ret ((inserted ++ [(entity, id)])%list, failed))
          (fun message => ret (inserted, (failed ++ [(entity, message)])%list)) in
      upsertEach upsert rest inserted' failed'
  end.

Definition upsertCustomerBatch (customers : list TCustomer)
    : Eff World (BatchResult TCustomer) :=
  upsertEach upsertCustomer customers [] [].

Definition upsertProductBatch (products : list TProduct)
    : Eff World (BatchResult TProduct) :=
  upsertEach upsertProduct products [] [].

(** [customerId || order.customer_id] is the fourth parameter. *)
Definition upsertOrder (order : TOrder) (customerId : option positive)
    : Eff World positive :=
  returningId
    (UpsertOrder order
       (match customerId with
        | Some id => Some id
        | None => order_customer_id order
        end)).

Definition findProductId (sourceProductId sourceType : option string)
    : Eff World (option positive) :=
  match truthyString sourceProductId with
  | None => ret None
  | Some sourceProductId =>
      tryCatch
        (let* rows := pool_query (SelectProductId sourceProductId sourceType) in
         ret (head rows))
        (fun _ => ret None)
  end.

Definition findCustomerId (email sourceType : string) : Eff World (option positive) :=
  if String.eqb email EmptyString then ret None
  else
    tryCatch
      (let* rows := pool_query (SelectCustomerId (toLowerCase email) sourceType) in
       ret (head rows))
      (fun _ => ret None).

Fixpoint insertEach (orderId : positive) (todo : list (@OrderItem TItem))
    (insertedItems : list (@OrderItem TItem * positive))
    : Eff World (list (@OrderItem TItem * positive)) :=
  match todo with
  | [] => ret insertedItems
  | orderItem :: rest =>
      let* productId :=
        findProductId (item_source_product_id (item orderItem))
          (item_source_type (item orderItem)) in
      let* insertedItems' :=
        tryCatch
          (let* rows := pool_query (InsertOrderItem orderId productId orderItem) in
           let* id := firstId rows in
           ret (insertedItems ++ [(orderItem, id)])%list)
          (fun _ => ret insertedItems) in
      insertEach orderId rest insertedItems'
  end.

Definition insertOrderItems (orderItems : list (@OrderItem TItem)) (orderId : positive)
    : Eff World (list (@OrderItem TItem * positive)) :=
  match orderItems with
  | [] => ret []
  | _ => insertEach orderId orderItems []
  end.

Definition upsertCustomerMetrics (metrics : CustomerMetrics.t) : Eff World positive :=
  returningId (UpsertCustomerMetrics metrics).

Definition upsertDailyMetrics (metrics : DailyMetrics.t) (sourceType : string)
    : Eff World positive :=
  returningId (UpsertDailyMetrics metrics sourceType).

Definition logETLRun (logEntry : @ETLLog TCustomer TProduct TOrder TItem)
    : Eff World positive :=
  returningId (InsertETLLog logEntry).

(** [result.rows[0] || null], and [null] when the query fails. *)
Definition getLastETLRun (pipelineName sourceType : string)
    : Eff World (option (@ETLLog TCustomer TProduct TOrder TItem)) :=
  tryCatch
    (let* rows := pool_query_logs pipelineName sourceType in
     ret (head rows))
    (fun _ => ret None).

Definition asLoader : @Loader World TCustomer TProduct TOrder TItem :=
  {| ETLPipeline.getLastETLRun := getLastETLRun;
     ETLPipeline.upsertCustomerBatch := upsertCustomerBatch;
     ETLPipeline.upsertProductBatch := upsertProductBatch;
     ETLPipeline.findCustomerId := findCustomerId;
     ETLPipeline.upsertOrder := upsertOrder;
     ETLPipeline.insertOrderItems := insertOrderItems;
     ETLPipeline.upsertCustomerMetrics := upsertCustomerMetrics;
     ETLPipeline.upsertDailyMetrics := upsertDailyMetrics;
     ETLPipeline.logETLRun := logETLRun;
     ETLPipeline.queryUpdatePurchaseDates := pool_query_purchase_dates;
     ETLPipeline.queryCustomersWithOrders := pool_query_customers;
     ETLPipeline.queryDailyOrders := pool_query_daily_orders |}.

(** The pipeline as its constructor builds it: [this.loader] is a
    [PostgresLoader]. *)
Definition productionPipeline {RawCustomer RawProduct RawOrder RawItem : Type}
    (transformer : @Transformer RawCustomer RawProduct RawOrder RawItem
                     TCustomer TProduct TOrder TItem)
    (connectors : string -> option (@Connector World RawCustomer RawProduct RawOrder))
    : @ETLPipeline World RawCustomer RawProduct RawOrder RawItem
        TCustomer TProduct TOrder TItem :=
  {| ETLPipeline.transformer := transformer;
     ETLPipeline.loader := asLoader;
     ETLPipeline.connectors := connectors |}.
End Loader.
End PostgresLoader.

(** ** The status words of the transformer

    [normalizeStatus] and [normalizeFinancialStatus] of [DataTransformer].
    A status is a string, [null] or [undefined].  The strings are bytes;
    [toLowerCase] lowers the letters A to Z.  JavaScript lowers letters
    outside ASCII as well, but of those only the Kelvin sign becomes an
    ASCII letter, a k, and the lowered text is only looked up in lists of
    words without a k. *)

Module DataTransformer.
Definition lowerLetter (a : Ascii.ascii) : Ascii.ascii :=
  let n := Ascii.nat_of_ascii a in
  if ((65 <=? n) && (n <=? 90))%nat then Ascii.ascii_of_nat (n + 32) else a.

Fixpoint toLowerCase (s : string) : string :=
  match s with
  | EmptyString => EmptyString
  | String a rest => String (lowerLetter a) (toLowerCase rest)
  end.

(** [words.includes(text)] *)
Definition oneOf (words : list string) (text : string) : bool :=
  existsb (String.eqb text) words.

Definition normalizeStatus (status : option string) : string :=
  match truthyString status with
  | None => "active"
  | Some status =>
      let normalized := toLowerCase status in
      if oneOf ["active"; "publish"; "published"] normalized then "active"
      else if oneOf ["draft"; "inactive"; "unpublished"] normalized then "draft"
      else if oneOf ["archived"; "deleted"] normalized then "archived"
      else status
  end.

Definition normalizeFinancialStatus (status : option string) : string :=
  match truthyString status with
  | None => "pending"
  | Some status =>
      let normalized := toLowerCase status in
      if oneOf ["paid"; "completed"; "complete"] normalized then "paid"
      else if oneOf ["pending"; "processing"; "authorized"] normalized then "pending"
      else if oneOf ["refunded"; "refund"] normalized then "refunded"
      else if oneOf ["voided"; "cancelled"; "canceled"] normalized then "voided"
      else if oneOf ["partially_paid"; "partial"] normalized then "partially_paid"
      else if oneOf ["partially_refunded"] normalized then "partially_refunded"
      else status
  end.
End DataTransformer.

(** ** Cohorts

    [analyzeCohorts] groups the customers by the month of their first
    purchase, in the time zone of the host. *)

Module Cohorts.
(** The civil year and month of a day counted from 1970-01-01. *)
Definition yearMonth (day : Z) : Z * Z :=
  let z := day + 719468 in
  let era := z / 146097 in
  let doe := z - era * 146097 in
  let yoe := (doe - doe / 1460 + doe / 36524 - doe / 146096) / 365 in
  let doy := doe - (365 * yoe + yoe / 4 - yoe / 100) in
  let mp := (5 * doy + 2) / 153 in
  let month := if mp <? 10 then mp + 3 else mp - 9 in
  let year := yoe + era * 400 in
  (if month <=? 2 then year + 1 else year, month).

(** [date.getFullYear()] and [date.getMonth() + 1] *)
Definition getFullYear (tz date : Z) : Z := fst (yearMonth (toDateString tz date)).
Definition monthNumber (tz date : Z) : Z := snd (yearMonth (toDateString tz date)).

(** [String(n).padStart(2, '0')] *)
Definition padStart2 (n : Z) : string :=
  let text := pretty n in
  if (String.length text <? 2)%nat then "0" ++ text else text.

Definition cohortKey (tz date : Z) : string :=
  pretty (getFullYear tz date) ++ "-" ++ padStart2 (monthNumber tz date).

(** A customer as [analyzeCohorts] reads it. *)
Record CohortCustomer := {
  customer : Customer.t;
  first_purchase_date : option Z
}.

(** [retention_rates] stays the empty object and is left out. *)
Record Cohort := {
  cohort_month : string;
  customer_count : Z;
  total_revenue : Q;
  average_ltv : Q
}.

Definition emptyCohort (cohortKey : string) : Cohort :=
  {| cohort_month := cohortKey; customer_count := 0; total_revenue := 0; average_ltv := 0 |}.

(** The revenue of the orders of one customer. *)
Definition customerRevenue (orders : list Order.t) (c : CohortCustomer) : Q :=
  CLVCalculator.calculateTotalRevenue
    (List.filter (CLVCalculator.sameCustomer (customer c)) orders).

(** The body of [customers.forEach]. *)
Definition visitCustomer (tz : Z) (orders : list Order.t)
    (cohorts : list (string * Cohort)) (c : CohortCustomer) : list (string * Cohort) :=
  match first_purchase_date c with
  | None => cohorts
  | Some firstOrderDate =>
      let cohortKey := cohortKey tz firstOrderDate in
      let cohort :=
        match JsObject.get cohortKey cohorts with
        | Some cohort => cohort
        | None => emptyCohort cohortKey
        end in
      JsObject.set cohortKey
        {| cohort_month := cohort_month cohort;
           customer_count := customer_count cohort + 1;
           total_revenue := (total_revenue cohort + customerRevenue orders c)%Q;
           average_ltv := average_ltv cohort |}
        cohorts
  end.

(** The body of [Object.values(cohorts).forEach]. *)
Definition settle (cohort : Cohort) : Cohort :=
  if 0 <? customer_count cohort
  then {| cohort_month := cohort_month cohort;
          customer_count := customer_count cohort;
          total_revenue := total_revenue cohort;
          average_ltv := (total_revenue cohort / inject_Z (customer_count cohort))%Q |}
  else cohort.

Definition analyzeCohorts (tz : Z) (customers : list CohortCustomer)
    (orders : list Order.t) : list (string * Cohort) :=
  List.map (fun entry => (fst entry, settle (snd entry)))
    (fold_left (visitCustomer tz orders) customers []).
End Cohorts.

(** The customers and orders of the cohort tests: first purchases on
    2023-01-15, 2023-01-20 and 2023-02-10, and a customer without one. *)
Module CohortFixture.
Definition mockCustomers : list Cohorts.CohortCustomer :=
  [ {| Cohorts.customer := Customer.mk 1; Cohorts.first_purchase_date := Some 1673740800000 |};
    {| Cohorts.customer := Customer.mk 2; Cohorts.first_purchase_date := Some 1674172800000 |};
    {| Cohorts.customer := Customer.mk 3; Cohorts.first_purchase_date := Some 1675987200000 |};
    {| Cohorts.customer := Customer.mk 4; Cohorts.first_purchase_date := None |} ].

Definition mockOrders : list Order.t :=
  [ Order.mk 1 (Some 1%positive) (Some 100%Q) 1673740800000 None None;
    Order.mk 2 (Some 1%positive) (Some 150%Q) 1673740800000 None None;
    Order.mk 3 (Some 2%positive) (Some 200%Q) 1674172800000 None None;
    Order.mk 4 (Some 3%positive) (Some 75%Q) 1675987200000 None None ].
End CohortFixture.

(** ** Doubles that fail

    A connector with data, a transformer that rejects every order, and a
    database that refuses every statement. *)

Module MockFailures.
Import ETLPipeline.

Definition connectorWithData : @Connector Mock.World unit unit unit :=
  {| testConnection := ret true;
     getCustomers := fun _ => ret [tt];
     getProducts := fun _ => ret [];
     getOrders := fun _ => ret [tt; tt] |}.

Definition rejectingTransformer : @Transformer unit unit unit unit unit unit unit unit :=
  {| transformCustomerBatch := fun raw _ => Normal raw;
     transformProductBatch := fun raw _ => Normal raw;
     transformOrder := fun _ _ => Throw "Invalid order";
     transformOrderItem := fun raw _ => Normal raw |}.

Definition rejectingPipeline : @ETLPipeline Mock.World unit unit unit unit unit unit unit unit :=
  {| ETLPipeline.transformer := rejectingTransformer;
     ETLPipeline.loader := Mock.loader [];
     connectors := fun sourceType =>
       if String.eqb sourceType "shopify" then Some connectorWithData else None |}.

(** [MockDatabase] after [setShouldFail(true)]. *)
Definition failingQuery {A : Type} : Eff Mock.World A := throw "Mock database error".

Definition failingLoader : @Loader Mock.World unit unit unit unit :=
  PostgresLoader.asLoader (fun _ => failingQuery) (fun _ _ => failingQuery)
    (fun _ => failingQuery) (fun _ => failingQuery) (fun _ _ => failingQuery)
    (fun _ => None) (fun _ => None) (fun _ => None) (fun s => s).

Definition failingPipeline
    : @ETLPipeline Mock.World unit unit unit unit unit unit unit unit :=
  {| ETLPipeline.transformer := Mock.transformer;
     ETLPipeline.loader := failingLoader;
     connectors := fun sourceType =>
       if String.eqb sourceType "shopify" then Some connectorWithData else None |}.

(** A source whose connection test fails, over the database that
    refuses every statement. *)
Definition unreachablePipeline
    : @ETLPipeline Mock.World unit unit unit unit unit unit unit unit :=
  {| ETLPipeline.transformer := Mock.transformer;
     ETLPipeline.loader := failingLoader;
     connectors := fun sourceType =>
       if String.eqb sourceType "shopify" then Some (Mock.connector false) else None |}.

(** Two orders with a line item each, ready to be loaded. *)
Definition transformed : @TransformedData unit unit unit unit :=
  {| tr_customers := [tt];
     tr_products := [tt];
     tr_orders := [tt; tt];
     tr_orderItems := [{| item := tt; source_order_id := "order" |}] |}.
End MockFailures.

(** * Properties of the analytics engine *)

Module CLVFacts.
Import CustomerMetrics CLVCalculator.

Lemma length_insertByDate x l : length (insertByDate x l) = S (length l).
Proof.
  induction l as [|y l IH]; simpl; [reflexivity|].
  destruct (Order.processed_at x <=? Order.processed_at y); simpl; congruence.
Qed.

Lemma length_sortByDate l : length (sortByDate l) = length l.
Proof.
  induction l as [|x l IH]; simpl; [reflexivity|].
  rewrite length_insertByDate. congruence.
Qed.

Lemma index_prop_first {A} (l : list A) prop :
  l <> [] -> exists x, index_prop l 0 prop = Normal x.
Proof. destruct l as [|x l]; [congruence|]. intros _. exists x. reflexivity. Qed.

Lemma index_prop_last {A} (l : list A) prop :
  l <> [] -> exists x, index_prop l (length l - 1) prop = Normal x.
Proof.
  intros Hl. unfold index_prop.
  destruct (nth_error l (length l - 1)) as [x|] eqn:E; [eauto|].
  apply nth_error_None in E. destruct l; [congruence|]. simpl in E. lia.
Qed.

Lemma sortByDate_nonempty l : l <> [] -> sortByDate l <> [].
Proof.
  intros Hl Hs. apply (f_equal (@length _)) in Hs.
  rewrite length_sortByDate in Hs. destruct l; [congruence|discriminate].
Qed.

(** With at least one order of the customer the function returns, and the
    returned object is the one built by the chain of assignments. *)
Lemma metricsOfOrders_returns customer l date :
  l <> [] ->
  exists firstOrder lastOrder rfm,
    index_prop (sortByDate l) 0 "processed_at" = Normal firstOrder /\
    index_prop (sortByDate l) (length (sortByDate l) - 1) "processed_at" = Normal lastOrder /\
    calculateRFMScores customer (sortByDate l) date = Normal rfm /\
    metricsOfOrders customer l date =
      Normal
        (let m0 :=
           {| customer_id := Customer.id customer;
              calculation_date := date;
              total_revenue := calculateTotalRevenue (sortByDate l);
              total_orders := length (sortByDate l);
              average_order_value :=
                (calculateTotalRevenue (sortByDate l)
                 / inject_Z (Z.of_nat (length (sortByDate l))))%Q;
              purchase_frequency := 0;
              customer_lifespan_days :=
                orOne (differenceInDays (Order.processed_at lastOrder)
                                        (Order.processed_at firstOrder));
              customer_lifetime_value := 0;
              churn_probability := 0;
              days_since_last_purchase :=
                Some (differenceInDays date (Order.processed_at lastOrder));
              rfm_recency_score := 0;
              rfm_frequency_score := 0;
              rfm_monetary_score := 0;
              customer_segment := EmptyString |} in
         let m1 :=
           set_purchase_frequency
             (inject_Z (Z.of_nat (length (sortByDate l)))
              / Qmax (inject_Z (customer_lifespan_days m0) / 30) 1)%Q m0 in
         let m2 :=
           set_customer_lifetime_value
             ((calculateSimpleCLV m1 + calculatePredictiveCLV m1) / 2)%Q m1 in
         let m3 := set_churn_probability (calculateChurnProbability m2) m2 in
         set_customer_segment (determineSegment rfm)
           (set_rfm_scores (RFMScores.recency rfm) (RFMScores.frequency rfm)
              (RFMScores.monetary rfm) m3)).
Proof.
  intros Hl. pose proof (sortByDate_nonempty l Hl) as Hs.
  destruct (index_prop_first (sortByDate l) "processed_at" Hs) as [f Hf].
  destruct (index_prop_last (sortByDate l) "processed_at" Hs) as [la Hla].
  assert (Hr : exists rfm, calculateRFMScores customer (sortByDate l) date = Normal rfm).
  { unfold calculateRFMScores. rewrite Hla. simpl. eauto. }
  destruct Hr as [rfm Hr].
  exists f, la, rfm. repeat split; try assumption.
  unfold metricsOfOrders. rewrite Hf, Hla. cbn [bindC]. rewrite Hr. reflexivity.
Qed.

(** On an array of orders the function always returns. *)
Lemma calculateCustomerMetrics_returns customer (orders : list Order.t) date :
  exists m, calculateCustomerMetrics customer (Some orders) date = Normal m.
Proof.
  unfold calculateCustomerMetrics.
  destruct (List.filter (sameCustomer customer) orders) as [|o l] eqn:E.
  - eexists. reflexivity.
  - assert (Hne : o :: l <> []) by discriminate.
    destruct (metricsOfOrders_returns customer (o :: l) date Hne)
      as (f & la & rfm & _ & _ & _ & Hm).
    replace (length (o :: l) =? 0)%nat with false by reflexivity.
    rewrite Hm. eexists. reflexivity.
Qed.
End CLVFacts.

Module CLVClaims.
Import CustomerMetrics CLVCalculator CLVFacts.

(** At the moment [calculatePredictiveCLV] runs, [churn_probability] still
    holds its initial 0: the projection uses a retention of 1. *)
Lemma predictiveCLV_before_churn m :
  churn_probability m = 0%Q ->
  (calculatePredictiveCLV m == average_order_value m * purchase_frequency m * 120)%Q.
Proof.
  intros H. unfold calculatePredictiveCLV. rewrite H.
  replace (Qle_bool (1 + discountRate) (1 - 0)) with false by reflexivity.
  unfold discountRate. field.
Qed.

(** So the returned lifetime value is always the mean of the simple value
    and 120 months of revenue, whatever the churn probability reported in
    the same result. *)
Lemma lifetime_value_with_retention_one customer (orders : list Order.t) date :
  List.filter (sameCustomer customer) orders <> [] ->
  exists m,
    calculateCustomerMetrics customer (Some orders) date = Normal m /\
    (customer_lifetime_value m
     == (calculateSimpleCLV m
         + average_order_value m * purchase_frequency m * 120) / 2)%Q.
Proof.
  intros Hne. unfold calculateCustomerMetrics.
  destruct (List.filter (sameCustomer customer) orders) as [|o l] eqn:E; [congruence|].
  destruct (metricsOfOrders_returns customer (o :: l) date Hne)
    as (f & la & rfm & _ & _ & _ & Hm).
  replace (length (o :: l) =? 0)%nat with false by reflexivity.
  rewrite Hm. eexists. split; [reflexivity|].
  remember (sortByDate (o :: l)) as sorted eqn:Es. clear Es Hm.
  cbv zeta.
  match goal with
  | |- context [calculatePredictiveCLV ?m1] =>
      set (M := m1); pose proof (predictiveCLV_before_churn M eq_refl) as Hp
  end.
  change ((calculateSimpleCLV M + calculatePredictiveCLV M) / 2
          == (calculateSimpleCLV M
              + average_order_value M * purchase_frequency M * 120) / 2)%Q.
  apply Qdiv_comp; [|reflexivity]. apply Qplus_comp; [reflexivity|exact Hp].
Qed.

(** C1, evaluated at the input where code and specification part.  For
    the customer of the test fixture on 2024-03-01 the function returns a
    lifetime value of 816975/31 (about 26354.03): the predictive part is
    monthly revenue x 120, a retention of 1.  The formula of the
    specification, with the churn probability 0.05 that the same result
    reports, gives 818325/217 (about 3771.08). *)
Theorem clv_predictive_reads_unset_churn :
  exists m,
    calculateCustomerMetrics Fixture.mockCustomer (Some Fixture.mockOrders) Fixture.march1
      = Normal m /\
    days_since_last_purchase m = Some 29 /\
    churn_probability m = 0.05%Q /\
    (customer_lifetime_value m == 816975 # 31)%Q /\
    (customer_lifetime_value m
     == (calculateSimpleCLV m
         + average_order_value m * purchase_frequency m * 120) / 2)%Q /\
    (Spec.customerLifetimeValue m == 818325 # 217)%Q /\
    ~ (customer_lifetime_value m == Spec.customerLifetimeValue m)%Q.
Proof.
  eexists. split; [vm_compute; reflexivity|].
  repeat split; try (vm_compute; reflexivity).
  vm_compute. discriminate.
Qed.

(** C2, evaluated at [orders = null]: the call raises the TypeError of
    [null.filter] instead of returning the empty metrics.  On the empty
    array it does return them: every monetary and count field 0,
    churn 1, the three scores 1, segment Inactive, no day count. *)
Theorem null_orders_throw customer date :
  calculateCustomerMetrics customer None date
    = Throw "Cannot read properties of null (reading 'filter')" /\
  calculateCustomerMetrics customer (Some []) date
    = Normal {| customer_id := Customer.id customer;
                calculation_date := date;
                total_revenue := 0;
                total_orders := 0;
                average_order_value := 0;
                purchase_frequency := 0;
                customer_lifespan_days := 0;
                customer_lifetime_value := 0;
                churn_probability := 1;
                days_since_last_purchase := None;
                rfm_recency_score := 1;
                rfm_frequency_score := 1;
                rfm_monetary_score := 1;
                customer_segment := "Inactive" |}.
Proof. split; reflexivity. Qed.

Lemma inject_length_nonzero {A} (l : list A) :
  l <> [] -> ~ (inject_Z (Z.of_nat (length l)) == 0)%Q.
Proof.
  intros Hl H. destruct l as [|x l]; [congruence|].
  unfold Qeq, inject_Z in H. cbn [Qnum Qden length] in H.
  rewrite Nat2Z.inj_succ in H. lia.
Qed.

(** C5.  Whatever the order list, the returned metrics satisfy
    average_order_value x total_orders = total_revenue; the average is
    total_revenue / total_orders when the customer has orders and 0 when
    it has none. *)
Theorem average_order_value_invariant customer (orders : list Order.t) date :
  exists m,
    calculateCustomerMetrics customer (Some orders) date = Normal m /\
    (average_order_value m * inject_Z (Z.of_nat (total_orders m)) == total_revenue m)%Q /\
    (List.filter (sameCustomer customer) orders <> [] ->
       (0 < total_orders m)%nat /\
       (average_order_value m
        == total_revenue m / inject_Z (Z.of_nat (total_orders m)))%Q) /\
    (List.filter (sameCustomer customer) orders = [] ->
       total_orders m = 0%nat /\ average_order_value m = 0%Q).
Proof.
  unfold calculateCustomerMetrics.
  destruct (List.filter (sameCustomer customer) orders) as [|o l] eqn:E.
  - eexists. split; [reflexivity|]. simpl. split; [reflexivity|]. split; [congruence|auto].
  - assert (Hne : o :: l <> []) by discriminate.
    destruct (metricsOfOrders_returns customer (o :: l) date Hne)
      as (f & la & rfm & _ & _ & _ & Hm).
    replace (length (o :: l) =? 0)%nat with false by reflexivity.
    rewrite Hm. eexists. split; [reflexivity|].
    pose proof (sortByDate_nonempty _ Hne) as Hs.
    pose proof (inject_length_nonzero _ Hs) as Hz.
    remember (sortByDate (o :: l)) as sorted eqn:Es. clear Es Hm.
    cbn. split; [field; exact Hz|]. split; [|discriminate].
    intros _. split; [|reflexivity].
    destruct sorted; [congruence|simpl; lia].
Qed.

Lemma average_order_value_invariant_witness :
  exists m,
    calculateCustomerMetrics Fixture.mockCustomer (Some Fixture.mockOrders) Fixture.march1
      = Normal m /\
    (0 < total_orders m)%nat /\
    (average_order_value m == total_revenue m / inject_Z (Z.of_nat (total_orders m)))%Q.
Proof.
  destruct (average_order_value_invariant Fixture.mockCustomer Fixture.mockOrders
              Fixture.march1) as (m & Hm & _ & Hsome & _).
  exists m. split; [exact Hm|]. apply Hsome. vm_compute. discriminate.
Defined.

(** C7.  With at least one order of the customer, the returned
    churn_probability is the six-step function of the returned
    days_since_last_purchase (below 30: 0.05, below 60: 0.15, below 90:
    0.25, below 180: 0.45, below 365: 0.70, else 0.90), and that function
    never decreases when the day count grows. *)
Theorem churn_probability_step customer (orders : list Order.t) date
    (Hne : List.filter (sameCustomer customer) orders <> []) :
  (exists m d,
     calculateCustomerMetrics customer (Some orders) date = Normal m /\
     days_since_last_purchase m = Some d /\
     churn_probability m = calculateChurnProbability m /\
     (d < 30 -> churn_probability m = 0.05%Q) /\
     (30 <= d < 60 -> churn_probability m = 0.15%Q) /\
     (60 <= d < 90 -> churn_probability m = 0.25%Q) /\
     (90 <= d < 180 -> churn_probability m = 0.45%Q) /\
     (180 <= d < 365 -> churn_probability m = 0.70%Q) /\
     (365 <= d -> churn_probability m = 0.90%Q)) /\
  (forall d1 d2, d1 <= d2 -> (churnStep d1 <= churnStep d2)%Q).
Proof.
  split.
  - unfold calculateCustomerMetrics.
    destruct (List.filter (sameCustomer customer) orders) as [|o l] eqn:E; [congruence|].
    destruct (metricsOfOrders_returns customer (o :: l) date Hne)
      as (f & la & rfm & _ & _ & _ & Hm).
    replace (length (o :: l) =? 0)%nat with false by reflexivity.
    rewrite Hm. eexists. eexists. split; [reflexivity|].
    cbn. split; [reflexivity|]. split; [reflexivity|].
    unfold calculateChurnProbability, churnStep. cbn.
    set (d := differenceInDays date (Order.processed_at la)).
    repeat split; intros Hd;
      repeat match goal with
             | |- context [?a <? ?b] => destruct (Z.ltb_spec a b); try lia
             end; reflexivity.
  - intros d1 d2 Hle. unfold churnStep.
    repeat match goal with
           | |- context [?a <? ?b] => destruct (Z.ltb_spec a b); try lia
           end; vm_compute; discriminate.
Qed.

Lemma churn_probability_step_witness :
  exists m d,
    calculateCustomerMetrics Fixture.mockCustomer (Some Fixture.mockOrders) Fixture.march1
      = Normal m /\
    days_since_last_purchase m = Some d /\ churn_probability m = 0.05%Q.
Proof.
  destruct (churn_probability_step Fixture.mockCustomer Fixture.mockOrders Fixture.march1)
    as [(m & d & Hm & Hd & _ & H30 & _) _].
  - vm_compute. discriminate.
  - exists m, d. split; [exact Hm|]. split; [exact Hd|].
    apply H30. vm_compute in Hm. injection Hm as <-. cbn in Hd.
    injection Hd as <-. reflexivity.
Defined.

Lemma filter_skips_other customer (pre post : list Order.t) other :
  sameCustomer customer other = false ->
  List.filter (sameCustomer customer) (pre ++ other :: post)%list
  = List.filter (sameCustomer customer) (pre ++ post)%list.
Proof.
  intros Hother. rewrite !List.filter_app. simpl. rewrite Hother. reflexivity.
Qed.

(** C9.  The result depends on the order list only through the orders of
    the customer: two lists with the same orders of that customer give the
    same result; putting in or taking out an order of another customer, or
    replacing it by another such order, changes nothing; and a list
    without any order of the customer gives the empty metrics, as the
    empty list does. *)
Theorem only_own_orders_matter customer date :
  (forall orders1 orders2 : list Order.t,
     List.filter (sameCustomer customer) orders1
     = List.filter (sameCustomer customer) orders2 ->
     calculateCustomerMetrics customer (Some orders1) date
     = calculateCustomerMetrics customer (Some orders2) date) /\
  (forall (pre post : list Order.t) other,
     sameCustomer customer other = false ->
     calculateCustomerMetrics customer (Some (pre ++ other :: post)%list) date
     = calculateCustomerMetrics customer (Some (pre ++ post)%list) date) /\
  (forall (pre post : list Order.t) other other',
     sameCustomer customer other = false ->
     sameCustomer customer other' = false ->
     calculateCustomerMetrics customer (Some (pre ++ other :: post)%list) date
     = calculateCustomerMetrics customer (Some (pre ++ other' :: post)%list) date) /\
  (forall orders : list Order.t,
     List.filter (sameCustomer customer) orders = [] ->
     calculateCustomerMetrics customer (Some orders) date
     = Normal (getEmptyMetrics (Customer.id customer) date) /\
     calculateCustomerMetrics customer (Some orders) date
     = calculateCustomerMetrics customer (Some []) date).
Proof.
  assert (Hsame : forall orders1 orders2 : list Order.t,
            List.filter (sameCustomer customer) orders1
            = List.filter (sameCustomer customer) orders2 ->
            calculateCustomerMetrics customer (Some orders1) date
            = calculateCustomerMetrics customer (Some orders2) date).
  { intros orders1 orders2 H. unfold calculateCustomerMetrics. rewrite H. reflexivity. }
  split; [exact Hsame|]. split; [|split].
  - intros pre post other Hother. apply Hsame, filter_skips_other, Hother.
  - intros pre post other other' Hother Hother'. apply Hsame.
    rewrite !filter_skips_other by assumption. reflexivity.
  - intros orders Hnone. unfold calculateCustomerMetrics. rewrite Hnone.
    split; reflexivity.
Qed.

Lemma only_own_orders_matter_witness :
  calculateCustomerMetrics Fixture.mockCustomer
    (Some (Fixture.otherCustomersOrder :: Fixture.mockOrders)) Fixture.march1
  = calculateCustomerMetrics Fixture.mockCustomer (Some Fixture.mockOrders) Fixture.march1.
Proof.
  apply (proj1 (proj2 (only_own_orders_matter Fixture.mockCustomer Fixture.march1))
           [] Fixture.mockOrders Fixture.otherCustomersOrder).
  reflexivity.
Defined.
End CLVClaims.

Module SegmentClaims.
Import CLVCalculator.

Lemma determineSegment_firstMatch s :
  determineSegment s
  = Spec.firstMatch Spec.segmentRules (RFMScores.recency s) (RFMScores.frequency s)
      (RFMScores.monetary s) (RFMScores.combinedScore s).
Proof. reflexivity. Qed.

Lemma firstMatch_in_segments rules r f m c :
  Forall (fun rule => In (snd rule) Spec.nineSegments) rules ->
  In (Spec.firstMatch rules r f m c) Spec.nineSegments.
Proof.
  induction 1 as [|[rule segment] rest Hin _ IH]; simpl.
  - do 8 right. left. reflexivity.
  - destruct (rule r f m c); [exact Hin|exact IH].
Qed.

Lemma rules_in_segments :
  Forall (fun rule => In (snd rule) Spec.nineSegments) Spec.segmentRules.
Proof.
  unfold Spec.segmentRules, Spec.nineSegments.
  repeat (constructor; [cbn [In snd]; auto 12|]). constructor.
Qed.

(** C6.  [determineSegment] is the ordered decision list of the
    specification, the first matching rule giving the segment; equal
    score objects get equal segments; the triple (5,5,5), which the
    Loyal Customers and Potential Loyalists rules match as well, is
    Champions; and every triple of scores between 1 and 5 lands in one of
    the nine segments. *)
Theorem segment_is_ordered_decision_list :
  (forall s,
     determineSegment s
     = Spec.firstMatch Spec.segmentRules (RFMScores.recency s) (RFMScores.frequency s)
         (RFMScores.monetary s) (RFMScores.combinedScore s)) /\
  (forall s1 s2,
     RFMScores.recency s1 = RFMScores.recency s2 ->
     RFMScores.frequency s1 = RFMScores.frequency s2 ->
     RFMScores.monetary s1 = RFMScores.monetary s2 ->
     RFMScores.combinedScore s1 = RFMScores.combinedScore s2 ->
     determineSegment s1 = determineSegment s2) /\
  (determineSegment (RFMScores.mk 5 5 5 15) = "Champions" /\
   Spec.firstMatch (tl Spec.segmentRules) 5 5 5 15 = "Loyal Customers" /\
   Spec.firstMatch (tl (tl Spec.segmentRules)) 5 5 5 15 = "Potential Loyalists") /\
  (forall r f m,
     1 <= r <= 5 -> 1 <= f <= 5 -> 1 <= m <= 5 ->
     In (determineSegment (RFMScores.mk r f m (r + f + m))) Spec.nineSegments).
Proof.
  split; [exact determineSegment_firstMatch|].
  split.
  { intros [r1 f1 m1 c1] [r2 f2 m2 c2]; simpl. intros -> -> -> ->. reflexivity. }
  split; [repeat split|].
  intros r f m _ _ _. rewrite determineSegment_firstMatch.
  apply firstMatch_in_segments, rules_in_segments.
Qed.

Lemma segment_is_ordered_decision_list_witness :
  In (determineSegment (RFMScores.mk 2 4 1 (2 + 4 + 1))) Spec.nineSegments
  /\ determineSegment (RFMScores.mk 2 4 1 7) = "Price Sensitive".
Proof.
  split; [|reflexivity].
  apply (proj2 (proj2 (proj2 segment_is_ordered_decision_list)) 2 4 1); lia.
Defined.
End SegmentClaims.

Module DailyFacts.
Import DailyMetrics DailyCalculator.

Lemma fold_visitItem_keeps items a :
  acc_total_revenue (fold_left visitItem items a) = acc_total_revenue a /\
  acc_total_customers (fold_left visitItem items a) = acc_total_customers a /\
  customerOrderCounts (fold_left visitItem items a) = customerOrderCounts a.
Proof.
  revert a. induction items as [|item items IH]; intros a; simpl; [auto|].
  destruct (IH (visitItem a item)) as (-> & -> & ->). auto.
Qed.

Lemma visitOrder_revenue a o :
  acc_total_revenue (visitOrder a o)
  = (acc_total_revenue a + orZeroQ (Order.total_price o))%Q.
Proof.
  unfold visitOrder. destruct (Order.line_items o) as [items|]; [|reflexivity].
  rewrite (proj1 (fold_visitItem_keeps items _)). reflexivity.
Qed.

Lemma visitOrder_customers a o :
  acc_total_customers (visitOrder a o)
  = match Order.customer_id o with
    | Some c => {[c]} ∪ acc_total_customers a
    | None => acc_total_customers a
    end.
Proof.
  unfold visitOrder. destruct (Order.line_items o) as [items|]; [|reflexivity].
  rewrite (proj1 (proj2 (fold_visitItem_keeps items _))). reflexivity.
Qed.

Lemma visitOrder_counts a o :
  customerOrderCounts (visitOrder a o)
  = match Order.customer_id o with
    | Some c => bump (customerOrderCounts a) c
    | None => customerOrderCounts a
    end.
Proof.
  unfold visitOrder. destruct (Order.line_items o) as [items|]; [|reflexivity].
  rewrite (proj2 (proj2 (fold_visitItem_keeps items _))). reflexivity.
Qed.

Lemma fold_visitOrder_revenue l a :
  (acc_total_revenue (fold_left visitOrder l a)
   == acc_total_revenue a + Spec.sumTotals l)%Q.
Proof.
  revert a. induction l as [|o l IH]; intros a; simpl.
  - ring.
  - rewrite IH, visitOrder_revenue. ring.
Qed.

Lemma fold_visitOrder_customers l a :
  acc_total_customers (fold_left visitOrder l a)
  = list_to_set (omap Order.customer_id l) ∪ acc_total_customers a.
Proof.
  revert a. induction l as [|o l IH]; intros a; simpl.
  - set_solver.
  - rewrite IH, visitOrder_customers.
    destruct (Order.customer_id o); simpl; set_solver.
Qed.

Lemma fold_visitOrder_counts l a :
  customerOrderCounts (fold_left visitOrder l a)
  = fold_left bump (omap Order.customer_id l) (customerOrderCounts a).
Proof.
  revert a. induction l as [|o l IH]; intros a; simpl; [reflexivity|].
  rewrite IH, visitOrder_counts. destruct (Order.customer_id o); reflexivity.
Qed.

Lemma dom_fold_bump (ids : list positive) (counts : gmap positive nat) :
  dom (fold_left bump ids counts) = list_to_set ids ∪ dom counts.
Proof.
  revert counts. induction ids as [|c ids IH]; intros counts; simpl.
  - set_solver.
  - rewrite IH. unfold bump. rewrite dom_insert_L. set_solver.
Qed.

Lemma countNewReturning_from (entries : list (positive * nat)) new returning :
  let '(new', returning') :=
    fold_left (fun '(new, returning) '(_, count) =>
                 if (count =? 1)%nat then (S new, returning) else (new, S returning))
              entries (new, returning) in
  (new' + returning' = new + returning + length entries)%nat.
Proof.
  revert new returning. induction entries as [|[c count] entries IH]; intros n r; simpl.
  - lia.
  - destruct (count =? 1)%nat.
    + specialize (IH (S n) r). destruct (fold_left _ entries (S n, r)). lia.
    + specialize (IH n (S r)). destruct (fold_left _ entries (n, S r)). lia.
Qed.

Lemma countNewReturning_total entries :
  (fst (countNewReturning entries) + snd (countNewReturning entries)
   = length entries)%nat.
Proof.
  unfold countNewReturning.
  pose proof (countNewReturning_from entries 0 0) as H.
  destruct (fold_left _ entries (0%nat, 0%nat)). simpl. lia.
Qed.

Lemma size_list_to_set_distinct (ids : list positive) :
  size (list_to_set ids : gset positive) = length (remove_dups ids).
Proof.
  rewrite <- (size_list_to_set (C := gset positive) (remove_dups ids))
    by apply NoDup_remove_dups.
  f_equal. apply set_eq. intros x.
  rewrite !elem_of_list_to_set, elem_of_remove_dups. reflexivity.
Qed.

(** The fields of the result in terms of the orders of the day. *)
Lemma calculateDailyMetrics_fields tz orders date :
  let day := dayOrders tz orders date in
  let counts := fold_left bump (omap Order.customer_id day) ∅ in
  let r := calculateDailyMetrics tz orders date in
  total_orders r = length day /\
  (total_revenue r == Spec.sumTotals day)%Q /\
  total_customers r = length (remove_dups (omap Order.customer_id day)) /\
  new_customers r = fst (countNewReturning (map_to_list counts)) /\
  returning_customers r = snd (countNewReturning (map_to_list counts)).
Proof.
  intros day counts r. subst r. unfold calculateDailyMetrics.
  fold day.
  rewrite fold_visitOrder_counts. cbn [customerOrderCounts]. fold counts.
  destruct (countNewReturning (map_to_list counts)) as [new returning].
  cbn [total_orders total_revenue total_customers new_customers returning_customers fst snd].
  split; [reflexivity|]. split.
  { rewrite fold_visitOrder_revenue. cbn [acc_total_revenue]. ring. }
  split; [|split; reflexivity].
  rewrite fold_visitOrder_customers. cbn [acc_total_customers].
  rewrite <- size_list_to_set_distinct. f_equal. set_solver.
Qed.
End DailyFacts.

Module DailyClaims.
Import DailyMetrics DailyCalculator DailyFacts.
Local Open Scope list_scope.

Lemma dayOrders_In tz orders date o :
  In o (dayOrders tz orders date)
  <-> In o orders /\ toDateString tz (Order.processed_at o) = toDateString tz date.
Proof.
  unfold dayOrders. rewrite filter_In, Z.eqb_eq. reflexivity.
Qed.

(** C4.  The orders that enter the aggregate are exactly those whose
    processed_at falls on the calendar day of the calculation date;
    total_orders is their number and total_revenue the sum of their
    totals.  With two orders on 2024-01-15 totalling 225 and one on
    2024-01-14, the call for 2024-01-15 gives 2 orders and 225. *)
Theorem daily_metrics_same_calendar_date tz (orders : list Order.t) date :
  (forall o,
     In o (dayOrders tz orders date)
     <-> In o orders /\ toDateString tz (Order.processed_at o) = toDateString tz date) /\
  total_orders (calculateDailyMetrics tz orders date) = length (dayOrders tz orders date) /\
  (total_revenue (calculateDailyMetrics tz orders date)
   == Spec.sumTotals (dayOrders tz orders date))%Q /\
  total_orders (calculateDailyMetrics DailyFixture.utc
                  DailyFixture.ordersWithDifferentDates DailyFixture.january15) = 2%nat /\
  (total_revenue (calculateDailyMetrics DailyFixture.utc
                    DailyFixture.ordersWithDifferentDates DailyFixture.january15)
   == 225)%Q.
Proof.
  destruct (calculateDailyMetrics_fields tz orders date) as (Hn & Hr & _).
  split; [intros o; apply dayOrders_In|].
  split; [exact Hn|]. split; [exact Hr|].
  split; vm_compute; reflexivity.
Qed.

Lemma dayOrders_insert tz pre post o date :
  toDateString tz (Order.processed_at o) = toDateString tz date ->
  dayOrders tz (pre ++ o :: post) date
  = dayOrders tz pre date ++ o :: dayOrders tz post date.
Proof.
  intros Hday. unfold dayOrders. rewrite List.filter_app. simpl.
  rewrite Hday, Z.eqb_refl. reflexivity.
Qed.

Lemma dayOrders_app tz pre post date :
  dayOrders tz (pre ++ post) date = dayOrders tz pre date ++ dayOrders tz post date.
Proof. unfold dayOrders. apply List.filter_app. Qed.

Lemma sumTotals_insert pre post o :
  (Spec.sumTotals (pre ++ o :: post)
   == Spec.sumTotals (pre ++ post) + orZeroQ (Order.total_price o))%Q.
Proof.
  induction pre as [|p pre IH]; simpl.
  - ring.
  - rewrite IH. ring.
Qed.

Lemma customer_ids_insert (pre post : list Order.t) o :
  Order.customer_id o = None ->
  omap Order.customer_id (pre ++ o :: post) = omap Order.customer_id (pre ++ post).
Proof.
  intros Hnone. rewrite !omap_app. simpl. rewrite Hnone. reflexivity.
Qed.

(** C10.  In every result new_customers + returning_customers =
    total_customers, the number of distinct customer ids carried by the
    orders of the day.  An order of the day without customer_id adds one
    to total_orders and its total to total_revenue, and leaves the three
    customer counts as they are. *)
Theorem daily_customer_counts tz (pre post : list Order.t) guest date
    (Hnone : Order.customer_id guest = None)
    (Hday : toDateString tz (Order.processed_at guest) = toDateString tz date) :
  (forall orders : list Order.t,
     let r := calculateDailyMetrics tz orders date in
     (new_customers r + returning_customers r = total_customers r)%nat /\
     total_customers r
     = length (remove_dups (omap Order.customer_id (dayOrders tz orders date)))) /\
  (let r := calculateDailyMetrics tz (pre ++ post) date in
   let r' := calculateDailyMetrics tz (pre ++ guest :: post) date in
   total_orders r' = S (total_orders r) /\
   (total_revenue r' == total_revenue r + orZeroQ (Order.total_price guest))%Q /\
   total_customers r' = total_customers r /\
   new_customers r' = new_customers r /\
   returning_customers r' = returning_customers r).
Proof.
  split.
  - intros orders r. subst r.
    destruct (calculateDailyMetrics_fields tz orders date) as (_ & _ & Ht & Hnew & Hret).
    split; [|exact Ht].
    rewrite Hnew, Hret, countNewReturning_total, length_map_to_list, Ht.
    rewrite <- size_dom, dom_fold_bump, dom_empty_L, <- size_list_to_set_distinct.
    f_equal. set_solver.
  - intros r r'. subst r r'.
    destruct (calculateDailyMetrics_fields tz (pre ++ post) date)
      as (Hn & Hr & Ht & Hnew & Hret).
    destruct (calculateDailyMetrics_fields tz (pre ++ guest :: post) date)
      as (Hn' & Hr' & Ht' & Hnew' & Hret').
    rewrite dayOrders_insert in Hn', Hr', Ht', Hnew', Hret' by exact Hday.
    rewrite dayOrders_app in Hn, Hr, Ht, Hnew, Hret.
    rewrite customer_ids_insert in Ht', Hnew', Hret' by exact Hnone.
    split; [rewrite Hn', Hn, !length_app; simpl; lia|].
    split; [rewrite Hr', Hr; apply sumTotals_insert|].
    split; [congruence|]. split; congruence.
Qed.

Lemma daily_customer_counts_witness :
  let r := calculateDailyMetrics DailyFixture.utc DailyFixture.ordersWithDifferentDates
             DailyFixture.january15 in
  let r' := calculateDailyMetrics DailyFixture.utc
              (DailyFixture.guestOrder :: DailyFixture.ordersWithDifferentDates)
              DailyFixture.january15 in
  total_orders r' = S (total_orders r) /\
  (total_revenue r' == total_revenue r + 20)%Q /\
  total_customers r' = total_customers r /\
  new_customers r' = new_customers r /\
  returning_customers r' = returning_customers r.
Proof.
  apply (proj2 (daily_customer_counts DailyFixture.utc []
                  DailyFixture.ordersWithDifferentDates DailyFixture.guestOrder
                  DailyFixture.january15 eq_refl eq_refl)).
Defined.
End DailyClaims.

(** * Properties of the orchestrator *)

Module PipelineClaims.
Section Facts.
Import ETLPipeline.

Context {World RawCustomer RawProduct RawOrder RawItem : Type}.
Context {TCustomer TProduct TOrder TItem : Type}.
Variable clock : World -> Z * World.
Variable raw_line_items : RawOrder -> option (list RawItem).
Variable order_source_id : TOrder -> string.
Variable order_email : TOrder -> option string.
Variable hostTz : Z.
Variable this : @ETLPipeline World RawCustomer RawProduct RawOrder RawItem
                  TCustomer TProduct TOrder TItem.

Lemma includes_connect sourceType :
  includes "connect" ("Failed to connect to " ++ sourceType) = true.
Proof. reflexivity. Qed.

(** A customer that has orders always gets its metrics computed: the
    computation does not raise. *)
Lemma metrics_computed_when_orders (row : CustomerRow) date :
  hasOrders row = true ->
  exists metrics,
    CLVCalculator.calculateCustomerMetrics (customer row) (orders row) date
    = Normal metrics.
Proof.
  unfold hasOrders. destruct (orders row) as [os|]; [|discriminate]. intros _.
  apply CLVFacts.calculateCustomerMetrics_returns.
Qed.

(** C3 as amended.  The ComputingMetrics step visits the customers read
    back from the store in order; for each customer that has at least one
    order its metrics are computed (this never raises) and handed to
    [upsertCustomerMetrics]; a customer without orders is passed over:
    the loop does exactly what the same loop over the customers with
    orders does. *)
Theorem metrics_only_for_customers_with_orders
    (data : TransformedData) (sourceType : string) (w : World) :
  (forall date rows w',
     customerMetricsLoop this date rows w'
     = forEach (List.filter hasOrders rows) (storeCustomerMetrics this date) w') /\
  (forall date row,
     hasOrders row = true ->
     exists metrics,
       CLVCalculator.calculateCustomerMetrics (customer row) (orders row) date
       = Normal metrics /\
       forall w',
         storeCustomerMetrics this date row w'
         = (let* _ := upsertCustomerMetrics (loader this) metrics in ret tt) w') /\
  calculateMetrics clock hostTz this data sourceType w
  = (let* calculationDate := now clock in
     let* customersWithOrders := queryCustomersWithOrders (loader this) sourceType in
     let* _ := forEach (List.filter hasOrders customersWithOrders)
                 (storeCustomerMetrics this calculationDate) in
     let* dailyOrders := queryDailyOrders (loader this) sourceType calculationDate in
     let* _ := upsertDailyMetrics (loader this)
                 (DailyCalculator.calculateDailyMetrics hostTz dailyOrders calculationDate)
                 sourceType in
     ret tt) w.
Proof.
  assert (Hloop : forall date rows w',
            customerMetricsLoop this date rows w'
            = forEach (List.filter hasOrders rows) (storeCustomerMetrics this date) w').
  { intros date rows. unfold customerMetricsLoop.
    induction rows as [|row rows IH]; intros w'; simpl; [reflexivity|].
    destruct (hasOrders row); simpl.
    - unfold bind. destruct (storeCustomerMetrics this date row w') as [[[]|m] w''];
        [apply IH|reflexivity].
    - unfold bind at 1. simpl. apply IH. }
  split; [exact Hloop|]. split.
  - intros date row Hrow.
    destruct (metrics_computed_when_orders row date Hrow) as [metrics Hm].
    exists metrics. split; [exact Hm|].
    intros w'. unfold storeCustomerMetrics. rewrite Hm. reflexivity.
  - unfold calculateMetrics, bind.
    destruct (now clock w) as [[date|m] w1]; [|reflexivity].
    destruct (queryCustomersWithOrders (loader this) sourceType w1) as [[rows|m] w2];
      [|reflexivity].
    rewrite Hloop. reflexivity.
Qed.

(** C8.  When [testConnection] of the source's connector answers false
    and the store accepts the log entry, [runForSource] returns normally
    with success = false, having handed to [logETLRun] an entry with
    status failed, zero extracted, transformed and loaded records, and
    the message "Failed to connect to <source>", which contains
    "connect"; whatever [run] does next is then carried out: when the
    source is the first one, the two later sources are still run. *)
Theorem failed_connection_is_logged
    (sourceType : string) (connector : Connector)
    (w w1 w2 w3 w4 : World) (startedAt completedAt : Z) (id : positive) :
  let etlLog : ETLLog :=
    {| pipeline_name := "main_etl";
       source_type := sourceType;
       status := "failed";
       records_extracted := 0;
       records_transformed := 0;
       records_loaded := 0;
       started_at := startedAt;
       metadata := None;
       error_message := Some ("Failed to connect to " ++ sourceType);
       completed_at := Some completedAt;
       duration_seconds := Some ((completedAt - startedAt) / 1000) |} in
  connectors this sourceType = Some connector ->
  clock w = (startedAt, w1) ->
  testConnection connector w1 = (Normal false, w2) ->
  clock w2 = (completedAt, w3) ->
  logETLRun (loader this) etlLog w3 = (Normal id, w4) ->
  runForSource clock raw_line_items order_source_id order_email hostTz this sourceType w
  = (Normal {| success := false; log := etlLog |}, w4) /\
  status etlLog = "failed" /\
  records_extracted etlLog = 0%nat /\
  records_transformed etlLog = 0%nat /\
  records_loaded etlLog = 0%nat /\
  (exists message,
     error_message etlLog = Some message /\ includes "connect" message = true) /\
  (forall (B : Type) (next : option RunResult -> IO B),
     (let* result :=
        runSource clock raw_line_items order_source_id order_email hostTz this
          true sourceType in
      next result) w
     = next (Some {| success := false; log := etlLog |}) w4) /\
  (forall (config : Config) (w0 : World) (startTime : Z),
     sourceType = "shopify" ->
     shopify_enabled config = true ->
     clock w0 = (startTime, w) ->
     run clock raw_line_items order_source_id order_email hostTz this config w0
     = (let* wo :=
          runSource clock raw_line_items order_source_id order_email hostTz this
            (woocommerce_enabled config) "woocommerce" in
        let* ct :=
          runSource clock raw_line_items order_source_id order_email hostTz this
            (commercetools_enabled config) "commercetools" in
        let* endTime := now clock in
        ret {| shopify := Some {| success := false; log := etlLog |};
               woocommerce := wo; commercetools := ct |}) w4).
Proof.
  intros etlLog Hconnector Hstart Htest Hend Hlog.
  assert (Hrun :
    runForSource clock raw_line_items order_source_id order_email hostTz this sourceType w
    = (Normal {| success := false; log := etlLog |}, w4)).
  { unfold runForSource, bind, now. rewrite Hstart.
    unfold withLocal, tryCatch, runTry, bind. rewrite Hconnector.
    cbn [ret]. unfold outside at 1. cbn [fst snd]. rewrite Htest. cbn [throw].
    unfold runCatch, bind, updateLocal, outside, now, readLocal.
    cbn [fst snd]. rewrite Hend. cbn [fst snd].
    change (setCompleted completedAt (setErrorMessage _ (setStatus "failed" _)))
      with etlLog.
    rewrite Hlog. reflexivity. }
  split; [exact Hrun|].
  repeat (split; [reflexivity|]).
  split.
  - exists ("Failed to connect to " ++ sourceType).
    split; [reflexivity|apply includes_connect].
  - assert (Hnext : forall (B : Type) (next : option RunResult -> IO B),
              (let* result :=
                 runSource clock raw_line_items order_source_id order_email hostTz this
                   true sourceType in
               next result) w
              = next (Some {| success := false; log := etlLog |}) w4).
    { intros B next. unfold runSource, bind. rewrite Hrun. reflexivity. }
    split; [exact Hnext|].
    intros config w0 startTime Hsource Henabled Hclock.
    unfold run. rewrite Henabled, <- Hsource.
    unfold bind at 1. unfold now at 1. rewrite Hclock.
    apply (Hnext RunResults).
Qed.

(** If the store refuses the log entry, its error is what [runForSource]
    ends with. *)
Lemma failed_connection_log_refused
    (sourceType : string) (connector : Connector)
    (w w1 w2 w3 w4 : World) (startedAt completedAt : Z) (message : string) :
  connectors this sourceType = Some connector ->
  clock w = (startedAt, w1) ->
  testConnection connector w1 = (Normal false, w2) ->
  clock w2 = (completedAt, w3) ->
  (forall entry, logETLRun (loader this) entry w3 = (Throw message, w4)) ->
  runForSource clock raw_line_items order_source_id order_email hostTz this sourceType w
  = (Throw message, w4).
Proof.
  intros Hconnector Hstart Htest Hend Hlog.
  unfold runForSource, bind, now. rewrite Hstart.
  unfold withLocal, tryCatch, runTry, bind. rewrite Hconnector.
  cbn [ret]. unfold outside at 1. cbn [fst snd]. rewrite Htest. cbn [throw].
  unfold runCatch, bind, updateLocal, outside, now, readLocal.
  cbn [fst snd]. rewrite Hend. cbn [fst snd]. rewrite Hlog. reflexivity.
Qed.
End Facts.

(** The claim of C3 as it is written fails on the double: two customers
    are read back, the run of the metrics step ends normally, and no
    metrics row was stored for customer 2, who has no orders. *)
Lemma customer_without_orders_gets_no_metrics :
  exists w,
    Mock.calculateMetrics [Mock.customerWithOrders; Mock.customerWithoutOrders]
      "shopify" Mock.start = (Normal tt, w) /\
    List.map CustomerMetrics.customer_id (Mock.customer_metrics w) = [1%positive] /\
    ~ (forall row,
         In row [Mock.customerWithOrders; Mock.customerWithoutOrders] ->
         In (Customer.id (ETLPipeline.customer row))
            (List.map CustomerMetrics.customer_id (Mock.customer_metrics w))).
Proof.
  eexists. split; [vm_compute; reflexivity|].
  split; [vm_compute; reflexivity|].
  intros H. specialize (H Mock.customerWithoutOrders).
  vm_compute in H. destruct H as [H|H]; [right; left; reflexivity|discriminate|exact H].
Qed.

(** The claim of C8 as it is written fails when the store refuses the
    log entry: the connection test of the source reports failure,
    [runForSource] ends with the error of the store instead of returning,
    no entry is stored, and [run] ends with the same error before it
    comes to the later sources. *)
Lemma failed_connection_unlogged_when_store_refuses :
  ETLPipeline.connectors MockFailures.unreachablePipeline "shopify"
  = Some (Mock.connector false) /\
  (forall w, ETLPipeline.testConnection (Mock.connector false) w = (Normal false, w)) /\
  (exists w,
     ETLPipeline.runForSource Mock.clock (fun _ => None) (fun _ => "order") (fun _ => None) 0
       MockFailures.unreachablePipeline "shopify" Mock.start
     = (Throw "Mock database error", w) /\
     Mock.etl_logs w = []) /\
  (exists w,
     ETLPipeline.run Mock.clock (fun _ => None) (fun _ => "order") (fun _ => None) 0
       MockFailures.unreachablePipeline
       {| ETLPipeline.shopify_enabled := true;
          ETLPipeline.woocommerce_enabled := true;
          ETLPipeline.commercetools_enabled := true |} Mock.start
     = (Throw "Mock database error", w) /\
     Mock.etl_logs w = []) /\
  ~ (exists result w,
       ETLPipeline.runForSource Mock.clock (fun _ => None) (fun _ => "order")
         (fun _ => None) 0 MockFailures.unreachablePipeline "shopify" Mock.start
       = (Normal result, w)).
Proof.
  split; [reflexivity|]. split; [intros w; reflexivity|].
  split; [eexists; split; vm_compute; reflexivity|].
  split; [eexists; split; vm_compute; reflexivity|].
  intros (result & w & H). vm_compute in H. discriminate.
Qed.

Lemma metrics_only_for_customers_with_orders_witness :
  exists metrics,
    CLVCalculator.calculateCustomerMetrics Fixture.mockCustomer
      (Some Fixture.mockOrders) Fixture.march1 = Normal metrics /\
    forall w,
      ETLPipeline.storeCustomerMetrics (Mock.pipeline true []) Fixture.march1
        Mock.customerWithOrders w
      = (let* _ := ETLPipeline.upsertCustomerMetrics (Mock.loader []) metrics in ret tt) w.
Proof.
  apply (proj1 (proj2 (metrics_only_for_customers_with_orders
                         Mock.clock 0 (Mock.pipeline true []) Mock.noData
                         "shopify" Mock.start))
           Fixture.march1 Mock.customerWithOrders).
  reflexivity.
Defined.

Lemma failed_connection_is_logged_witness :
  exists entry w,
    Mock.runForSource false [] "shopify" Mock.start
    = (Normal {| ETLPipeline.success := false; ETLPipeline.log := entry |}, w) /\
    Mock.etl_logs w = [entry] /\
    ETLPipeline.status entry = "failed" /\
    ETLPipeline.error_message entry = Some "Failed to connect to shopify".
Proof.
  destruct (failed_connection_is_logged Mock.clock (fun _ => None) (fun _ => "order")
              (fun _ => None) 0 (Mock.pipeline false []) "shopify"
              (Mock.connector false) Mock.start _ _ _ _ _ _ 1%positive
              eq_refl eq_refl eq_refl eq_refl eq_refl) as [Hrun _].
  eexists. eexists. split; [exact Hrun|].
  split; [reflexivity|]. split; reflexivity.
Defined.
End PipelineClaims.

(** * Further properties of the analytics engine *)

Module SortFacts.
Import CLVCalculator.
Local Open Scope list_scope.

(** The order the comparator of [calculateCustomerMetrics] sorts into. *)
Definition byDate (a b : Order.t) : Prop :=
  Order.processed_at a <= Order.processed_at b.

Lemma insertByDate_perm x l : Permutation (insertByDate x l) (x :: l).
Proof.
  induction l as [|y l IH]; simpl; [reflexivity|].
  destruct (Order.processed_at x <=? Order.processed_at y); [reflexivity|].
  rewrite IH. apply perm_swap.
Qed.

Lemma sortByDate_perm l : Permutation (sortByDate l) l.
Proof.
  induction l as [|x l IH]; simpl; [reflexivity|].
  rewrite insertByDate_perm. apply perm_skip, IH.
Qed.

Lemma insertByDate_sorted x l :
  StronglySorted byDate l -> StronglySorted byDate (insertByDate x l).
Proof.
  induction 1 as [|y l Hs IH Hy]; simpl.
  - constructor; constructor.
  - destruct (Z.leb_spec (Order.processed_at x) (Order.processed_at y)) as [Hle|Hgt].
    + constructor; [constructor; assumption|].
      constructor; [exact Hle|].
      rewrite List.Forall_forall in Hy |- *. intros z Hz.
      specialize (Hy z Hz). unfold byDate in *. lia.
    + constructor; [exact IH|].
      rewrite List.Forall_forall in Hy |- *. intros z Hz.
      apply (Permutation_in _ (insertByDate_perm x l)) in Hz.
      destruct Hz as [<-|Hz]; [unfold byDate; lia|auto].
Qed.

Lemma sortByDate_sorted l : StronglySorted byDate (sortByDate l).
Proof.
  induction l as [|x l IH]; simpl; [constructor|].
  apply insertByDate_sorted, IH.
Qed.

Lemma sorted_last_is_latest l la :
  StronglySorted byDate (l ++ [la]) -> Forall (fun x => byDate x la) l.
Proof.
  induction l as [|x l IH]; simpl; intros Hs; [constructor|].
  apply StronglySorted_inv in Hs. destruct Hs as [Hs Hx].
  constructor; [|apply IH, Hs].
  rewrite List.Forall_forall in Hx. apply Hx, in_or_app. right. left. reflexivity.
Qed.

Lemma nth_error_last_split {A} (l : list A) la :
  nth_error l (length l - 1) = Some la -> exists l', l = l' ++ [la].
Proof.
  intros H. destruct (exists_last (l := l)) as [l' [a ->]].
  { intros ->. discriminate. }
  exists l'. rewrite length_app in H. simpl in H.
  replace (length l' + 1 - 1)%nat with (length l' + 0)%nat in H by lia.
  rewrite nth_error_app2 in H by lia.
  replace (length l' + 0 - length l')%nat with 0%nat in H by lia.
  simpl in H. congruence.
Qed.

(** In a sorted array the first element is the earliest order and the
    last one the latest. *)
Lemma sorted_ends l f la :
  StronglySorted byDate l ->
  nth_error l 0 = Some f ->
  nth_error l (length l - 1) = Some la ->
  In f l /\ In la l /\
  forall x, In x l ->
    Order.processed_at f <= Order.processed_at x <= Order.processed_at la.
Proof.
  intros Hs Hf Hla.
  assert (Hinf : In f l) by (eapply nth_error_In; exact Hf).
  assert (Hinla : In la l) by (eapply nth_error_In; exact Hla).
  split; [exact Hinf|]. split; [exact Hinla|].
  intros x Hx. split.
  - destruct l as [|y l]; [discriminate|]. simpl in Hf. injection Hf as ->.
    apply StronglySorted_inv in Hs. destruct Hs as [_ Hall].
    destruct Hx as [<-|Hx]; [lia|].
    rewrite List.Forall_forall in Hall. apply (Hall x Hx).
  - destruct (nth_error_last_split l la Hla) as [l' ->].
    pose proof (sorted_last_is_latest l' la Hs) as Hall.
    apply in_app_or in Hx. destruct Hx as [Hx|[<-|[]]]; [|lia].
    rewrite List.Forall_forall in Hall. apply (Hall x Hx).
Qed.

Lemma sumTotals_perm l1 l2 :
  Permutation l1 l2 -> (Spec.sumTotals l1 == Spec.sumTotals l2)%Q.
Proof.
  induction 1 as [|x l1 l2 _ IH|x y l|l1 l2 l3 _ IH1 _ IH2]; simpl.
  - reflexivity.
  - rewrite IH. reflexivity.
  - ring.
  - rewrite IH1. exact IH2.
Qed.

Lemma calculateTotalRevenue_from l start :
  (fold_left (fun sum order => sum + orZeroQ (Order.total_price order)) l start
   == start + Spec.sumTotals l)%Q.
Proof.
  revert start. induction l as [|o l IH]; intros start; simpl.
  - ring.
  - rewrite IH. ring.
Qed.

Lemma calculateTotalRevenue_sum l :
  (calculateTotalRevenue l == Spec.sumTotals l)%Q.
Proof. unfold calculateTotalRevenue. rewrite calculateTotalRevenue_from. ring. Qed.
End SortFacts.

Module CLVMore.
Import CustomerMetrics CLVCalculator CLVFacts SortFacts.
Local Open Scope list_scope.

Lemma index_prop_nth {A} (l : list A) i prop x :
  index_prop l i prop = Normal x -> nth_error l i = Some x.
Proof. unfold index_prop. destruct (nth_error l i); congruence. Qed.

(** What [calculateRFMScores] returns, score by score. *)
Lemma calculateRFMScores_scores customer l date rfm :
  calculateRFMScores customer l date = Normal rfm ->
  1 <= RFMScores.recency rfm <= 5 /\
  1 <= RFMScores.frequency rfm <= 5 /\
  1 <= RFMScores.monetary rfm <= 5 /\
  RFMScores.combinedScore rfm
  = RFMScores.recency rfm + RFMScores.frequency rfm + RFMScores.monetary rfm.
Proof.
  unfold calculateRFMScores.
  destruct (index_prop l (length l - 1) "processed_at") as [la|msg]; [|discriminate].
  cbn [bindC]. intros H. injection H as <-. cbn [RFMScores.recency RFMScores.frequency
    RFMScores.monetary RFMScores.combinedScore].
  repeat split;
    repeat match goal with
           | |- context [if ?b then _ else _] => destruct b
           end; lia.
Qed.

(** The fields of the result for a customer that has orders, in terms of
    the customer's own orders. *)
Lemma metrics_of_own_orders customer (orders : list Order.t) date :
  List.filter (sameCustomer customer) orders <> [] ->
  exists m earliest latest rfm,
    calculateCustomerMetrics customer (Some orders) date = Normal m /\
    In earliest (List.filter (sameCustomer customer) orders) /\
    In latest (List.filter (sameCustomer customer) orders) /\
    (forall x, In x (List.filter (sameCustomer customer) orders) ->
       Order.processed_at earliest <= Order.processed_at x <= Order.processed_at latest) /\
    calculateRFMScores customer
      (sortByDate (List.filter (sameCustomer customer) orders)) date = Normal rfm /\
    total_orders m = length (List.filter (sameCustomer customer) orders) /\
    total_revenue m
    = calculateTotalRevenue (sortByDate (List.filter (sameCustomer customer) orders)) /\
    average_order_value m
    = (total_revenue m / inject_Z (Z.of_nat (total_orders m)))%Q /\
    customer_lifespan_days m
    = orOne (differenceInDays (Order.processed_at latest) (Order.processed_at earliest)) /\
    days_since_last_purchase m
    = Some (differenceInDays date (Order.processed_at latest)) /\
    purchase_frequency m
    = (inject_Z (Z.of_nat (total_orders m))
       / Qmax (inject_Z (customer_lifespan_days m) / 30) 1)%Q /\
    churn_probability m = churnStep (differenceInDays date (Order.processed_at latest)) /\
    rfm_recency_score m = RFMScores.recency rfm /\
    rfm_frequency_score m = RFMScores.frequency rfm /\
    rfm_monetary_score m = RFMScores.monetary rfm /\
    customer_segment m = determineSegment rfm.
Proof.
  intros Hne. unfold calculateCustomerMetrics.
  destruct (List.filter (sameCustomer customer) orders) as [|o l] eqn:E; [congruence|].
  destruct (metricsOfOrders_returns customer (o :: l) date Hne)
    as (f & la & rfm & Hf & Hla & Hr & Hm).
  replace (length (o :: l) =? 0)%nat with false by reflexivity.
  rewrite Hm. clear Hm.
  apply index_prop_nth in Hf. apply index_prop_nth in Hla.
  destruct (sorted_ends _ f la (sortByDate_sorted (o :: l)) Hf Hla) as (Hinf & Hinla & Hall).
  pose proof (sortByDate_perm (o :: l)) as Hperm.
  eexists. exists f, la, rfm. split; [reflexivity|].
  split; [eapply Permutation_in; eassumption|].
  split; [eapply Permutation_in; eassumption|].
  split.
  { intros x Hx. apply Hall. eapply Permutation_in; [symmetry; exact Hperm|exact Hx]. }
  split; [exact Hr|].
  split; [exact (length_sortByDate (o :: l))|].
  repeat split; reflexivity.
Qed.

Lemma orOne_at_least_one a : 0 <= a -> 1 <= orOne a.
Proof. unfold orOne. destruct (Z.eqb_spec a 0); lia. Qed.

Lemma differenceInDays_nonneg a b : b <= a -> 0 <= differenceInDays a b.
Proof.
  intros H. unfold differenceInDays. apply Z.quot_pos; [lia|reflexivity].
Qed.

Lemma differenceInDays_nonpos a b : a <= b -> differenceInDays a b <= 0.
Proof.
  intros H. unfold differenceInDays.
  replace 0 with (Z.quot 0 msPerDay) by reflexivity.
  apply Z.quot_le_mono; [reflexivity|lia].
Qed.

Lemma differenceInDays_same a : differenceInDays a a = 0.
Proof. unfold differenceInDays. rewrite Z.sub_diag. reflexivity. Qed.
End CLVMore.

Module CLVExtras.
Import CustomerMetrics CLVCalculator CLVFacts SortFacts CLVMore.
Local Open Scope list_scope.

(** X1.  Whatever the orders, the three RFM scores of the result lie
    between 1 and 5, as the CHECK constraints of the customer_metrics table
    require.  On a non-empty array [calculateRFMScores] returns such scores
    with combinedScore their sum, between 3 and 15; on an empty array it
    raises, reading [processed_at] of a missing element. *)
Theorem rfm_scores_between_one_and_five customer (orders : list Order.t) date :
  (exists m,
     calculateCustomerMetrics customer (Some orders) date = Normal m /\
     1 <= rfm_recency_score m <= 5 /\
     1 <= rfm_frequency_score m <= 5 /\
     1 <= rfm_monetary_score m <= 5) /\
  (forall o l,
     exists rfm,
       calculateRFMScores customer (o :: l) date = Normal rfm /\
       1 <= RFMScores.recency rfm <= 5 /\
       1 <= RFMScores.frequency rfm <= 5 /\
       1 <= RFMScores.monetary rfm <= 5 /\
       RFMScores.combinedScore rfm
       = RFMScores.recency rfm + RFMScores.frequency rfm + RFMScores.monetary rfm /\
       3 <= RFMScores.combinedScore rfm <= 15) /\
  calculateRFMScores customer [] date
  = Throw "Cannot read properties of undefined (reading 'processed_at')".
Proof.
  split; [|split; [|reflexivity]].
  - destruct (List.filter (sameCustomer customer) orders) as [|o l] eqn:E.
    + exists (getEmptyMetrics (Customer.id customer) date).
      unfold calculateCustomerMetrics. rewrite E. cbn. repeat split; lia.
    + destruct (metrics_of_own_orders customer orders date) as
        (m & _ & _ & rfm & Hm & _ & _ & _ & Hr & _ & _ & _ & _ & _ & _ & _ & H1 & H2 & H3 & _).
      { rewrite E. discriminate. }
      exists m. split; [exact Hm|]. rewrite H1, H2, H3.
      destruct (calculateRFMScores_scores _ _ _ _ Hr) as (? & ? & ? & _). auto.
  - intros o l.
    assert (Hne : o :: l <> []) by discriminate.
    destruct (index_prop_last (o :: l) "processed_at" Hne) as [la Hla].
    assert (Hr : exists rfm, calculateRFMScores customer (o :: l) date = Normal rfm).
    { unfold calculateRFMScores. rewrite Hla. cbn [bindC]. eauto. }
    destruct Hr as [rfm Hr]. exists rfm. split; [exact Hr|].
    destruct (calculateRFMScores_scores _ _ _ _ Hr) as (? & ? & ? & Hsum).
    repeat split; try assumption; try lia.
Qed.

(** X2.  For a customer with orders, customer_lifespan_days is the number
    of full days between the earliest and the latest of the customer's
    orders, in whatever order they were passed, and never less than 1: a
    single order, or orders within one day, give 1. *)
Theorem lifespan_is_at_least_one_day customer (orders : list Order.t) date
    (Hne : List.filter (sameCustomer customer) orders <> []) :
  exists m earliest latest,
    calculateCustomerMetrics customer (Some orders) date = Normal m /\
    In earliest (List.filter (sameCustomer customer) orders) /\
    In latest (List.filter (sameCustomer customer) orders) /\
    (forall x, In x (List.filter (sameCustomer customer) orders) ->
       Order.processed_at earliest <= Order.processed_at x <= Order.processed_at latest) /\
    customer_lifespan_days m
    = Z.max 1 (differenceInDays (Order.processed_at latest) (Order.processed_at earliest)) /\
    1 <= customer_lifespan_days m /\
    (length (List.filter (sameCustomer customer) orders) = 1%nat ->
     customer_lifespan_days m = 1).
Proof.
  destruct (metrics_of_own_orders customer orders date Hne) as
    (m & e & la & rfm & Hm & Hine & Hinla & Hall & _ & _ & _ & _ & Hlife & _).
  exists m, e, la. split; [exact Hm|]. split; [exact Hine|]. split; [exact Hinla|].
  split; [exact Hall|].
  assert (Hpos : 0 <= differenceInDays (Order.processed_at la) (Order.processed_at e)).
  { apply differenceInDays_nonneg. apply (Hall e Hine). }
  assert (Hmax : customer_lifespan_days m
                 = Z.max 1 (differenceInDays (Order.processed_at la) (Order.processed_at e))).
  { rewrite Hlife. unfold orOne.
    destruct (Z.eqb_spec (differenceInDays (Order.processed_at la) (Order.processed_at e)) 0);
      lia. }
  split; [exact Hmax|]. split; [lia|].
  intros Hone. rewrite Hlife.
  destruct (List.filter (sameCustomer customer) orders) as [|o [|o' l]]; try discriminate.
  destruct Hine as [<-|[]]. destruct Hinla as [<-|[]].
  rewrite differenceInDays_same. reflexivity.
Qed.

Lemma lifespan_is_at_least_one_day_witness :
  exists m,
    calculateCustomerMetrics Fixture.mockCustomer (Some Fixture.mockOrders) Fixture.march1
    = Normal m /\ 1 <= customer_lifespan_days m.
Proof.
  destruct (lifespan_is_at_least_one_day Fixture.mockCustomer Fixture.mockOrders
              Fixture.march1) as (m & _ & _ & Hm & _ & _ & _ & _ & Hone & _).
  - vm_compute. discriminate.
  - exists m. split; [exact Hm|exact Hone].
Defined.

(** X3.  For a customer with orders, days_since_last_purchase is the
    count [differenceInDays] gives from the latest of the customer's
    orders to the calculation date, in whatever sequence the orders were
    passed.  It is that count itself, not clamped as the lifespan is: it
    is not negative when the date is not before that order, and not
    positive when the date is not after it. *)
Theorem days_since_latest_order customer (orders : list Order.t) date
    (Hne : List.filter (sameCustomer customer) orders <> []) :
  exists m latest d,
    calculateCustomerMetrics customer (Some orders) date = Normal m /\
    In latest (List.filter (sameCustomer customer) orders) /\
    (forall x, In x (List.filter (sameCustomer customer) orders) ->
       Order.processed_at x <= Order.processed_at latest) /\
    days_since_last_purchase m = Some d /\
    d = differenceInDays date (Order.processed_at latest) /\
    (Order.processed_at latest <= date -> 0 <= d) /\
    (date <= Order.processed_at latest -> d <= 0).
Proof.
  destruct (metrics_of_own_orders customer orders date Hne) as
    (m & e & la & rfm & Hm & _ & Hinla & Hall & _ & _ & _ & _ & _ & Hdays & _).
  exists m, la, (differenceInDays date (Order.processed_at la)).
  split; [exact Hm|]. split; [exact Hinla|].
  split; [intros x Hx; apply (Hall x Hx)|].
  split; [exact Hdays|]. split; [reflexivity|].
  split; [apply differenceInDays_nonneg|apply differenceInDays_nonpos].
Qed.

Lemma days_since_latest_order_witness :
  exists m,
    calculateCustomerMetrics Fixture.mockCustomer (Some Fixture.mockOrders) Fixture.march1
    = Normal m /\ days_since_last_purchase m = Some 29.
Proof.
  destruct (days_since_latest_order Fixture.mockCustomer Fixture.mockOrders
              Fixture.march1) as (m & la & d & Hm & _ & _ & Hd & _).
  - vm_compute. discriminate.
  - exists m. split; [exact Hm|]. rewrite Hd. vm_compute in Hm.
    injection Hm as <-. cbn in Hd. congruence.
Defined.

(** X4.  total_orders is the number of orders of the customer and
    total_revenue the sum of their totals, an order without total counting
    0; orders passed in another sequence give the same sum. *)
Theorem revenue_and_order_count customer (orders : list Order.t) date :
  exists m,
    calculateCustomerMetrics customer (Some orders) date = Normal m /\
    total_orders m = length (List.filter (sameCustomer customer) orders) /\
    (total_revenue m == Spec.sumTotals (List.filter (sameCustomer customer) orders))%Q.
Proof.
  destruct (List.filter (sameCustomer customer) orders) as [|o l] eqn:E.
  - exists (getEmptyMetrics (Customer.id customer) date).
    unfold calculateCustomerMetrics. rewrite E. cbn. repeat split; reflexivity.
  - destruct (metrics_of_own_orders customer orders date) as
      (m & _ & _ & _ & Hm & _ & _ & _ & _ & Hn & Hrev & _).
    { rewrite E. discriminate. }
    exists m. split; [exact Hm|]. rewrite E in Hn, Hrev. split; [exact Hn|].
    rewrite Hrev, calculateTotalRevenue_sum. apply sumTotals_perm, sortByDate_perm.
Qed.

(** [Math.max(customer_lifespan_days / 30, 1)] for a lifespan of at least
    one day. *)
Lemma months_active (lifespan : Z) :
  1 <= lifespan ->
  (1 <= Qmax (inject_Z lifespan / 30) 1)%Q /\
  (lifespan <= 30 -> (Qmax (inject_Z lifespan / 30) 1 == 1)%Q) /\
  (30 <= lifespan -> (Qmax (inject_Z lifespan / 30) 1 == inject_Z lifespan / 30)%Q).
Proof.
  intros Hl.
  assert (H30 : (inject_Z lifespan / 30 == inject_Z lifespan * (1 # 30))%Q) by (field).
  split; [apply Q.le_max_r|]. split.
  - intros Hle. apply Q.max_r. rewrite H30.
    assert (inject_Z lifespan <= inject_Z 30)%Q by (rewrite <- Zle_Qle; exact Hle).
    change (inject_Z 30) with 30%Q in H. lra.
  - intros Hge. apply Q.max_l. rewrite H30.
    assert (inject_Z 30 <= inject_Z lifespan)%Q by (rewrite <- Zle_Qle; exact Hge).
    change (inject_Z 30) with 30%Q in H. lra.
Qed.

Lemma inject_count_positive (n : nat) : (0 < n)%nat -> (0 < inject_Z (Z.of_nat n))%Q.
Proof.
  intros Hn. change 0%Q with (inject_Z 0). rewrite <- Zlt_Qlt. lia.
Qed.

(** X5.  For a customer with orders, purchase_frequency is total_orders
    divided by the months of activity, which count at least 1: it is
    positive and never more than total_orders; it is total_orders itself
    for a lifespan of at most 30 days and 30 x total_orders / lifespan
    beyond. *)
Theorem purchase_frequency_bounds customer (orders : list Order.t) date
    (Hne : List.filter (sameCustomer customer) orders <> []) :
  exists m,
    calculateCustomerMetrics customer (Some orders) date = Normal m /\
    (0 < purchase_frequency m)%Q /\
    (purchase_frequency m <= inject_Z (Z.of_nat (total_orders m)))%Q /\
    (customer_lifespan_days m <= 30 ->
     (purchase_frequency m == inject_Z (Z.of_nat (total_orders m)))%Q) /\
    (30 <= customer_lifespan_days m ->
     (purchase_frequency m
      == 30 * inject_Z (Z.of_nat (total_orders m))
         / inject_Z (customer_lifespan_days m))%Q).
Proof.
  destruct (metrics_of_own_orders customer orders date Hne) as
    (m & e & la & rfm & Hm & Hine & _ & Hall & _ & Hn & _ & _ & Hlife & _ & Hpf & _).
  exists m. split; [exact Hm|].
  assert (Hlife1 : 1 <= customer_lifespan_days m).
  { rewrite Hlife. apply orOne_at_least_one, differenceInDays_nonneg, (Hall e Hine). }
  assert (Hcount : (0 < inject_Z (Z.of_nat (total_orders m)))%Q).
  { apply inject_count_positive. rewrite Hn.
    destruct (List.filter (sameCustomer customer) orders); [congruence|simpl; lia]. }
  destruct (months_active _ Hlife1) as (Hone & Hshort & Hlong).
  rewrite Hpf.
  set (n := inject_Z (Z.of_nat (total_orders m))) in *.
  set (months := Qmax (inject_Z (customer_lifespan_days m) / 30) 1) in *.
  assert (Hmonths : (0 < months)%Q) by lra.
  split; [apply Qlt_shift_div_l; [exact Hmonths|lra]|].
  split.
  { apply Qle_shift_div_r; [exact Hmonths|].
    assert (n * 1 <= n * months)%Q.
    { rewrite !(Qmult_comm n). apply Qmult_le_compat_r; [exact Hone|lra]. }
    lra. }
  split.
  - intros Hle. rewrite (Hshort Hle). field.
  - intros Hge. rewrite (Hlong Hge). field.
    assert (0 < inject_Z (customer_lifespan_days m))%Q.
    { change 0%Q with (inject_Z 0). rewrite <- Zlt_Qlt. lia. }
    lra.
Qed.

Lemma purchase_frequency_bounds_witness :
  exists m,
    calculateCustomerMetrics Fixture.mockCustomer (Some Fixture.mockOrders) Fixture.march1
    = Normal m /\ (0 < purchase_frequency m)%Q.
Proof.
  destruct (purchase_frequency_bounds Fixture.mockCustomer Fixture.mockOrders
              Fixture.march1) as (m & Hm & Hpos & _).
  - vm_compute. discriminate.
  - exists m. split; [exact Hm|exact Hpos].
Defined.

(** X6.  On the returned metrics [calculateSimpleCLV] gives the revenue
    already earned: total_revenue itself once the lifespan reaches 30 days,
    and total_revenue x lifespan / 30 for a shorter one. *)
Theorem simple_clv_is_past_revenue customer (orders : list Order.t) date
    (Hne : List.filter (sameCustomer customer) orders <> []) :
  exists m,
    calculateCustomerMetrics customer (Some orders) date = Normal m /\
    (30 <= customer_lifespan_days m ->
     (calculateSimpleCLV m == total_revenue m)%Q) /\
    (customer_lifespan_days m <= 30 ->
     (calculateSimpleCLV m
      == total_revenue m * inject_Z (customer_lifespan_days m) / 30)%Q).
Proof.
  destruct (metrics_of_own_orders customer orders date Hne) as
    (m & e & la & rfm & Hm & Hine & _ & Hall & _ & Hn & _ & Havg & Hlife & _ & Hpf & _).
  exists m. split; [exact Hm|].
  assert (Hlife1 : 1 <= customer_lifespan_days m).
  { rewrite Hlife. apply orOne_at_least_one, differenceInDays_nonneg, (Hall e Hine). }
  assert (Hcount : (0 < inject_Z (Z.of_nat (total_orders m)))%Q).
  { apply inject_count_positive. rewrite Hn.
    destruct (List.filter (sameCustomer customer) orders); [congruence|simpl; lia]. }
  assert (Hdays : (0 < inject_Z (customer_lifespan_days m))%Q).
  { change 0%Q with (inject_Z 0). rewrite <- Zlt_Qlt. lia. }
  destruct (months_active _ Hlife1) as (_ & Hshort & Hlong).
  unfold calculateSimpleCLV. rewrite Havg, Hpf.
  set (n := inject_Z (Z.of_nat (total_orders m))) in *.
  set (days := inject_Z (customer_lifespan_days m)) in *.
  split.
  - intros Hge. rewrite (Hlong Hge). field. split; lra.
  - intros Hle. rewrite (Hshort Hle). field. lra.
Qed.

Lemma simple_clv_is_past_revenue_witness :
  exists m,
    calculateCustomerMetrics Fixture.mockCustomer (Some Fixture.mockOrders) Fixture.march1
    = Normal m /\ (calculateSimpleCLV m == 450)%Q.
Proof.
  destruct (simple_clv_is_past_revenue Fixture.mockCustomer Fixture.mockOrders
              Fixture.march1) as (m & Hm & Hlong & _).
  - vm_compute. discriminate.
  - exists m. split; [exact Hm|].
    assert (Hlife : 30 <= customer_lifespan_days m).
    { vm_compute in Hm. injection Hm as <-. vm_compute. discriminate. }
    rewrite (Hlong Hlife). vm_compute in Hm. injection Hm as <-. reflexivity.
Defined.

(** X7.  For a churn probability between 0 and 1 and any monthly revenue
    [calculatePredictiveCLV] takes the quotient branch (the flat 36-month
    branch needs a churn probability of -1/120 or less): its divisor
    1/120 + churn is positive and the value is the monthly revenue times
    (1 - churn) / (1/120 + churn), which is 120 months of revenue at
    churn 0 and nothing at churn 1.  With a monthly revenue that is not
    negative the value is not negative and stays within 121 months of
    revenue. *)
Theorem predictive_clv_bounds (m : t)
    (Hchurn : (0 <= churn_probability m <= 1)%Q) :
  Qle_bool (1 + discountRate) (1 - churn_probability m) = false /\
  (0 < 1 + discountRate - (1 - churn_probability m))%Q /\
  (calculatePredictiveCLV m
   == average_order_value m * purchase_frequency m
      * ((1 - churn_probability m) / ((1 # 120) + churn_probability m)))%Q /\
  ((churn_probability m == 0)%Q ->
   (calculatePredictiveCLV m == average_order_value m * purchase_frequency m * 120)%Q) /\
  ((churn_probability m == 1)%Q -> (calculatePredictiveCLV m == 0)%Q) /\
  ((0 <= average_order_value m * purchase_frequency m)%Q ->
   (0 <= calculatePredictiveCLV m)%Q /\
   (calculatePredictiveCLV m
    <= average_order_value m * purchase_frequency m * 121)%Q).
Proof.
  destruct Hchurn as [Hp0 Hp1].
  assert (Hdisc : (discountRate == 1 # 120)%Q) by reflexivity.
  assert (Hguard : Qle_bool (1 + discountRate) (1 - churn_probability m) = false).
  { destruct (Qle_bool (1 + discountRate) (1 - churn_probability m)) eqn:E; [|reflexivity].
    apply Qle_bool_iff in E. rewrite Hdisc in E. lra. }
  set (p := churn_probability m) in *.
  set (revenue := (average_order_value m * purchase_frequency m)%Q) in *.
  assert (Hden : (0 < (1 # 120) + p)%Q) by lra.
  assert (Hvalue : (calculatePredictiveCLV m == revenue * ((1 - p) / ((1 # 120) + p)))%Q).
  { unfold calculatePredictiveCLV. fold p. rewrite Hguard. fold revenue.
    rewrite Hdisc. field. lra. }
  assert (Hq0 : (0 <= (1 - p) / ((1 # 120) + p))%Q).
  { apply Qle_shift_div_l; [exact Hden|lra]. }
  assert (Hq1 : ((1 - p) / ((1 # 120) + p) <= 121)%Q).
  { apply Qle_shift_div_r; [exact Hden|lra]. }
  split; [exact Hguard|]. split; [rewrite Hdisc; lra|]. split; [exact Hvalue|].
  split; [|split].
  - intros Hzero. rewrite Hvalue, Hzero. field.
  - intros Hone. rewrite Hvalue, Hone. field.
  - intros Hrevenue. split.
    + rewrite Hvalue. apply Qmult_le_0_compat; assumption.
    + rewrite Hvalue. rewrite !(Qmult_comm revenue).
      apply Qmult_le_compat_r; assumption.
Qed.

Lemma predictive_clv_bounds_witness :
  (calculatePredictiveCLV
     (set_churn_probability 0.9 (set_purchase_frequency 2
        (set_average_order_value 100 (getEmptyMetrics 1 0))))
   <= 100 * 2 * 121)%Q.
Proof.
  apply (predictive_clv_bounds
           (set_churn_probability 0.9 (set_purchase_frequency 2
              (set_average_order_value 100 (getEmptyMetrics 1 0))))).
  - split; vm_compute; discriminate.
  - vm_compute. discriminate.
Defined.

(** X8.  The segment Inactive, the churn probability 1 and the missing day
    count mark exactly the customers without orders: with at least one
    order of the customer the segment is one of the nine RFM segments, the
    churn probability is at most 0.90 and the day count is a number. *)
Theorem inactive_only_without_orders customer (orders : list Order.t) date :
  exists m,
    calculateCustomerMetrics customer (Some orders) date = Normal m /\
    (List.filter (sameCustomer customer) orders = [] ->
     customer_segment m = "Inactive" /\ churn_probability m = 1%Q /\
     days_since_last_purchase m = None /\ total_orders m = 0%nat) /\
    (List.filter (sameCustomer customer) orders <> [] ->
     In (customer_segment m) Spec.nineSegments /\
     customer_segment m <> "Inactive" /\
     (0.05 <= churn_probability m <= 0.90)%Q /\
     days_since_last_purchase m <> None /\
     (0 < total_orders m)%nat).
Proof.
  destruct (List.filter (sameCustomer customer) orders) as [|o l] eqn:E.
  - exists (getEmptyMetrics (Customer.id customer) date).
    unfold calculateCustomerMetrics. rewrite E. split; [reflexivity|].
    split; [intros _; repeat split; reflexivity|congruence].
  - destruct (metrics_of_own_orders customer orders date) as
      (m & _ & la & rfm & Hm & _ & _ & _ & _ & Hn & _ & _ & _ & Hdays & _ & Hchurn
       & _ & _ & _ & Hseg).
    { rewrite E. discriminate. }
    exists m. split; [exact Hm|]. split; [discriminate|]. intros _.
    assert (Hin : In (customer_segment m) Spec.nineSegments).
    { rewrite Hseg, SegmentClaims.determineSegment_firstMatch.
      apply SegmentClaims.firstMatch_in_segments, SegmentClaims.rules_in_segments. }
    split; [exact Hin|]. split.
    { intros Hinactive. rewrite Hinactive in Hin. vm_compute in Hin.
      repeat destruct Hin as [Hin|Hin]; try discriminate. exact Hin. }
    split.
    { rewrite Hchurn. unfold churnStep.
      repeat match goal with
             | |- context [if ?b then _ else _] => destruct b
             end; split; vm_compute; discriminate. }
    split; [rewrite Hdays; discriminate|].
    rewrite Hn, E. simpl. lia.
Qed.

Lemma inactive_only_without_orders_witness :
  exists m,
    calculateCustomerMetrics Fixture.mockCustomer
      (Some [Fixture.otherCustomersOrder]) Fixture.march1 = Normal m /\
    customer_segment m = "Inactive".
Proof.
  destruct (inactive_only_without_orders Fixture.mockCustomer
              [Fixture.otherCustomersOrder] Fixture.march1) as (m & Hm & Hnone & _).
  exists m. split; [exact Hm|]. apply Hnone. reflexivity.
Defined.

Lemma filter_perm {A} (f : A -> bool) (l1 l2 : list A) :
  Permutation l1 l2 -> Permutation (List.filter f l1) (List.filter f l2).
Proof.
  induction 1 as [|x l1 l2 _ IH|x y l|l1 l2 l3 _ IH1 _ IH2]; simpl.
  - reflexivity.
  - destruct (f x); [apply perm_skip|]; exact IH.
  - destruct (f x), (f y); try reflexivity. apply perm_swap.
  - rewrite IH1. exact IH2.
Qed.

(** The three scores as [calculateRFMScores] computes them. *)
Definition recencyOf (daysSinceLastOrder : Z) : Z :=
  if daysSinceLastOrder <=? 30 then 5
  else if daysSinceLastOrder <=? 60 then 4
  else if daysSinceLastOrder <=? 90 then 3
  else if daysSinceLastOrder <=? 180 then 2
  else 1.

Definition frequencyOf (orderCount : Z) : Z :=
  if 20 <=? orderCount then 5
  else if 10 <=? orderCount then 4
  else if 5 <=? orderCount then 3
  else if 2 <=? orderCount then 2
  else 1.

Definition monetaryOf (totalSpent : Q) : Z :=
  if Qle_bool 5000 totalSpent then 5
  else if Qle_bool 2000 totalSpent then 4
  else if Qle_bool 500 totalSpent then 3
  else if Qle_bool 100 totalSpent then 2
  else 1.

Lemma calculateRFMScores_value customer l date rfm la :
  calculateRFMScores customer l date = Normal rfm ->
  nth_error l (length l - 1) = Some la ->
  rfm = RFMScores.mk
          (recencyOf (differenceInDays date (Order.processed_at la)))
          (frequencyOf (Z.of_nat (length l)))
          (monetaryOf (calculateTotalRevenue l))
          (recencyOf (differenceInDays date (Order.processed_at la))
           + frequencyOf (Z.of_nat (length l))
           + monetaryOf (calculateTotalRevenue l)).
Proof.
  unfold calculateRFMScores, index_prop. intros H Hla. rewrite Hla in H.
  cbn [bindC] in H. injection H as <-. reflexivity.
Qed.

(** The scores of the result in terms of the customer's own orders. *)
Lemma scores_of_own_orders customer (orders : list Order.t) date :
  List.filter (sameCustomer customer) orders <> [] ->
  exists m latest,
    calculateCustomerMetrics customer (Some orders) date = Normal m /\
    In latest (List.filter (sameCustomer customer) orders) /\
    (forall x, In x (List.filter (sameCustomer customer) orders) ->
       Order.processed_at x <= Order.processed_at latest) /\
    rfm_recency_score m = recencyOf (differenceInDays date (Order.processed_at latest)) /\
    rfm_frequency_score m = frequencyOf (Z.of_nat (total_orders m)) /\
    rfm_monetary_score m = monetaryOf (total_revenue m) /\
    customer_segment m
    = determineSegment
        (RFMScores.mk (rfm_recency_score m) (rfm_frequency_score m) (rfm_monetary_score m)
           (rfm_recency_score m + rfm_frequency_score m + rfm_monetary_score m)).
Proof.
  intros Hne. unfold calculateCustomerMetrics.
  destruct (List.filter (sameCustomer customer) orders) as [|o l] eqn:E; [congruence|].
  destruct (metricsOfOrders_returns customer (o :: l) date Hne)
    as (f & la & rfm & Hf & Hla & Hr & Hm).
  replace (length (o :: l) =? 0)%nat with false by reflexivity.
  rewrite Hm. clear Hm.
  apply index_prop_nth in Hf. apply index_prop_nth in Hla.
  destruct (sorted_ends _ f la (sortByDate_sorted (o :: l)) Hf Hla) as (_ & Hinla & Hall).
  pose proof (sortByDate_perm (o :: l)) as Hperm.
  rewrite (calculateRFMScores_value _ _ _ _ _ Hr Hla).
  eexists. exists la. split; [reflexivity|].
  split; [eapply Permutation_in; eassumption|].
  split.
  { intros x Hx. apply Hall. eapply Permutation_in; [symmetry; exact Hperm|exact Hx]. }
  repeat split; reflexivity.
Qed.

(** Orders with different dates have one sorted sequence. *)
Lemma sorted_by_date_unique (l1 : list Order.t) : forall l2,
  StronglySorted byDate l1 -> StronglySorted byDate l2 ->
  Permutation l1 l2 ->
  NoDup (List.map Order.processed_at l1) ->
  l1 = l2.
Proof.
  induction l1 as [|x l1 IH]; intros l2 Hs1 Hs2 Hperm Hnd.
  - apply Permutation_nil in Hperm. congruence.
  - destruct l2 as [|y l2].
    { symmetry in Hperm. apply Permutation_nil in Hperm. discriminate. }
    apply StronglySorted_inv in Hs1. destruct Hs1 as [Hs1 Hx].
    apply StronglySorted_inv in Hs2. destruct Hs2 as [Hs2 Hy].
    cbn [List.map] in Hnd. apply NoDup_cons in Hnd. destruct Hnd as [Hfresh Hnd].
    assert (Hxy : x = y).
    { assert (Hyin : In y (x :: l1)).
      { eapply Permutation_in; [symmetry; exact Hperm|left; reflexivity]. }
      destruct Hyin as [Heq|Hyin]; [exact Heq|].
      assert (Hxin : In x (y :: l2)).
      { eapply Permutation_in; [exact Hperm|left; reflexivity]. }
      destruct Hxin as [Heq|Hxin]; [symmetry; exact Heq|].
      exfalso. apply Hfresh. apply list_elem_of_In.
      rewrite List.Forall_forall in Hx, Hy.
      pose proof (Hx y Hyin) as Hle1. pose proof (Hy x Hxin) as Hle2.
      unfold byDate in Hle1, Hle2.
      replace (Order.processed_at x) with (Order.processed_at y) by lia.
      apply in_map, Hyin. }
    subst y. f_equal. apply IH; try assumption.
    eapply Permutation_cons_inv. exact Hperm.
Qed.

Lemma sortByDate_unique (l1 l2 : list Order.t) :
  Permutation l1 l2 ->
  NoDup (List.map Order.processed_at l1) ->
  sortByDate l1 = sortByDate l2.
Proof.
  intros Hperm Hnd. apply sorted_by_date_unique.
  - apply sortByDate_sorted.
  - apply sortByDate_sorted.
  - rewrite (sortByDate_perm l1), (sortByDate_perm l2). exact Hperm.
  - pose proof (Permutation_map Order.processed_at (sortByDate_perm l1)) as Hkeys.
    rewrite Hkeys. exact Hnd.
Qed.

(** X9.  The sequence in which the orders are passed does not change the
    order count, the lifespan, the day count, the purchase frequency, the
    churn probability, the recency score or the frequency score.  When no
    two orders of the customer have the same date, it changes nothing at
    all: the sort puts them into one sequence and the two results are the
    same record.  (Orders of one date keep the sequence of the array, and
    the revenue is added up in that sequence.) *)
Theorem sequence_of_orders_irrelevant customer (orders1 orders2 : list Order.t) date
    (Hperm : Permutation orders1 orders2) :
  exists m1 m2,
    calculateCustomerMetrics customer (Some orders1) date = Normal m1 /\
    calculateCustomerMetrics customer (Some orders2) date = Normal m2 /\
    total_orders m1 = total_orders m2 /\
    customer_lifespan_days m1 = customer_lifespan_days m2 /\
    days_since_last_purchase m1 = days_since_last_purchase m2 /\
    purchase_frequency m1 = purchase_frequency m2 /\
    churn_probability m1 = churn_probability m2 /\
    rfm_recency_score m1 = rfm_recency_score m2 /\
    rfm_frequency_score m1 = rfm_frequency_score m2 /\
    (NoDup (List.map Order.processed_at (List.filter (sameCustomer customer) orders1)) ->
     m1 = m2).
Proof.
  pose proof (filter_perm (sameCustomer customer) _ _ Hperm) as Hown.
  destruct (List.filter (sameCustomer customer) orders1) as [|o l] eqn:E1.
  - apply Permutation_nil in Hown.
    exists (getEmptyMetrics (Customer.id customer) date),
           (getEmptyMetrics (Customer.id customer) date).
    unfold calculateCustomerMetrics. rewrite E1, Hown.
    repeat split; reflexivity.
  - assert (Hne1 : List.filter (sameCustomer customer) orders1 <> [])
      by (rewrite E1; discriminate).
    assert (Hne2 : List.filter (sameCustomer customer) orders2 <> []).
    { intros H2. rewrite H2 in Hown. symmetry in Hown.
      apply Permutation_nil in Hown. discriminate. }
    rewrite <- E1 in Hown |- *. clear E1 o l.
    destruct (metrics_of_own_orders customer orders1 date Hne1) as
      (m1 & e1 & la1 & rfm1 & Hm1 & Hine1 & Hinla1 & Hall1 & _ & Hn1 & _ & _
       & Hlife1 & Hdays1 & Hpf1 & Hchurn1 & _).
    destruct (metrics_of_own_orders customer orders2 date Hne2) as
      (m2 & e2 & la2 & rfm2 & Hm2 & Hine2 & Hinla2 & Hall2 & _ & Hn2 & _ & _
       & Hlife2 & Hdays2 & Hpf2 & Hchurn2 & _).
    destruct (scores_of_own_orders customer orders1 date Hne1) as
      (m1' & l1 & Hm1' & Hinl1 & Hmax1 & Hr1 & Hf1 & _).
    destruct (scores_of_own_orders customer orders2 date Hne2) as
      (m2' & l2 & Hm2' & Hinl2 & Hmax2 & Hr2 & Hf2 & _).
    assert (m1' = m1) by congruence. assert (m2' = m2) by congruence. subst m1' m2'.
    assert (He : Order.processed_at e1 = Order.processed_at e2).
    { pose proof (Hall1 e2 (Permutation_in _ (Permutation_sym Hown) Hine2)).
      pose proof (Hall2 e1 (Permutation_in _ Hown Hine1)). lia. }
    assert (Hla : Order.processed_at la1 = Order.processed_at la2).
    { pose proof (Hall1 la2 (Permutation_in _ (Permutation_sym Hown) Hinla2)).
      pose proof (Hall2 la1 (Permutation_in _ Hown Hinla1)). lia. }
    assert (Hl1 : Order.processed_at l1 = Order.processed_at la1).
    { pose proof (Hall1 l1 Hinl1). pose proof (Hmax1 la1 Hinla1). lia. }
    assert (Hl2 : Order.processed_at l2 = Order.processed_at la2).
    { pose proof (Hall2 l2 Hinl2). pose proof (Hmax2 la2 Hinla2). lia. }
    assert (Hn : total_orders m1 = total_orders m2).
    { rewrite Hn1, Hn2. apply Permutation_length, Hown. }
    assert (Hlife : customer_lifespan_days m1 = customer_lifespan_days m2)
      by (rewrite Hlife1, Hlife2, He, Hla; reflexivity).
    assert (Hpf : purchase_frequency m1 = purchase_frequency m2)
      by (rewrite Hpf1, Hpf2, Hn, Hlife; reflexivity).
    exists m1, m2. split; [exact Hm1|]. split; [exact Hm2|].
    split; [exact Hn|]. split; [exact Hlife|].
    split; [rewrite Hdays1, Hdays2, Hla; reflexivity|].
    split; [exact Hpf|].
    split; [rewrite Hchurn1, Hchurn2, Hla; reflexivity|].
    split; [rewrite Hr1, Hr2, Hl1, Hl2, Hla; reflexivity|].
    split; [rewrite Hf1, Hf2, Hn; reflexivity|].
    intros Hdistinct.
    assert (Hsame : calculateCustomerMetrics customer (Some orders1) date
                    = calculateCustomerMetrics customer (Some orders2) date).
    { unfold calculateCustomerMetrics.
      rewrite (Permutation_length Hown).
      destruct (length (List.filter (sameCustomer customer) orders2) =? 0)%nat;
        [reflexivity|].
      unfold metricsOfOrders.
      rewrite (sortByDate_unique _ _ Hown Hdistinct). reflexivity. }
    rewrite Hm1, Hm2 in Hsame. injection Hsame as ->. reflexivity.
Qed.

Lemma sequence_of_orders_irrelevant_witness :
  exists m,
    calculateCustomerMetrics Fixture.mockCustomer (Some Fixture.mockOrders) Fixture.march1
    = Normal m /\
    calculateCustomerMetrics Fixture.mockCustomer (Some (rev Fixture.mockOrders))
      Fixture.march1 = Normal m.
Proof.
  destruct (sequence_of_orders_irrelevant Fixture.mockCustomer Fixture.mockOrders
              (rev Fixture.mockOrders) Fixture.march1) as
    (m1 & m2 & H1 & H2 & _ & _ & _ & _ & _ & _ & _ & Hsame).
  - apply Permutation_rev.
  - exists m1. split; [exact H1|]. rewrite H2. f_equal. symmetry. apply Hsame.
    vm_compute. repeat (apply NoDup_cons_2; [vm_compute; set_solver|]). apply NoDup_nil_2.
Defined.
End CLVExtras.

(** * Further properties of the daily aggregate *)

Module DailyMore.
Import DailyMetrics DailyCalculator DailyFacts.
Local Open Scope list_scope.

(** The accumulator before the first order of the day. *)
Definition emptyAcc : acc := mkAcc 0 ∅ 0 ∅ [] ∅.

(** Quantities on the line items of an order and of a list of orders, a
    missing quantity counting 0. *)
Definition itemsSold (order : Order.t) : Z :=
  match Order.line_items order with
  | Some items => fold_right (fun i s => orZeroZ (LineItem.quantity i) + s) 0 items
  | None => 0
  end.

Definition productsSold (orders : list Order.t) : Z :=
  fold_right (fun o s => itemsSold o + s) 0 orders.

(** The orders of a list that fall into the bucket of a source. *)
Definition bucketOf (source : string) (orders : list Order.t) : list Order.t :=
  List.filter (fun o => String.eqb (sourceOf o) source) orders.

Lemma dayOrders_idempotent tz orders date :
  dayOrders tz (dayOrders tz orders date) date = dayOrders tz orders date.
Proof.
  unfold dayOrders. induction orders as [|o l IH]; simpl; [reflexivity|].
  destruct (toDateString tz (Order.processed_at o) =? toDateString tz date) eqn:E; simpl.
  - rewrite E, IH. reflexivity.
  - exact IH.
Qed.

Lemma calculateDailyMetrics_other_fields tz orders date :
  let day := dayOrders tz orders date in
  let a := fold_left visitOrder day emptyAcc in
  let r := calculateDailyMetrics tz orders date in
  metric_date r = date /\
  average_order_value r
  = (if (0 <? length day)%nat
     then (acc_total_revenue a / inject_Z (Z.of_nat (length day)))%Q else 0%Q) /\
  total_revenue r = acc_total_revenue a /\
  total_products_sold r = acc_total_products_sold a /\
  top_selling_products r
  = take 10 (sortByRevenue (JsObject.values (productSales a))) /\
  revenue_by_source r = acc_revenue_by_source a.
Proof.
  intros day a r. subst r. unfold calculateDailyMetrics. fold day. fold emptyAcc. fold a.
  destruct (countNewReturning (map_to_list (customerOrderCounts a))).
  repeat split; reflexivity.
Qed.

Lemma fold_visitItem_sold items a :
  acc_total_products_sold (fold_left visitItem items a)
  = acc_total_products_sold a
    + fold_right (fun i s => orZeroZ (LineItem.quantity i) + s) 0 items /\
  acc_revenue_by_source (fold_left visitItem items a) = acc_revenue_by_source a.
Proof.
  revert a. induction items as [|item items IH]; intros a; simpl; [split; [lia|reflexivity]|].
  destruct (IH (visitItem a item)) as [-> ->]. cbn [visitItem acc_total_products_sold
    acc_revenue_by_source]. split; [lia|reflexivity].
Qed.

Lemma visitOrder_sold a o :
  acc_total_products_sold (visitOrder a o) = acc_total_products_sold a + itemsSold o.
Proof.
  unfold visitOrder, itemsSold. destruct (Order.line_items o) as [items|].
  - rewrite (proj1 (fold_visitItem_sold items _)). reflexivity.
  - cbn. lia.
Qed.

Lemma fold_visitOrder_sold l a :
  acc_total_products_sold (fold_left visitOrder l a)
  = acc_total_products_sold a + productsSold l.
Proof.
  revert a. induction l as [|o l IH]; intros a; simpl; [lia|].
  rewrite IH, visitOrder_sold. lia.
Qed.

Lemma visitOrder_by_source a o :
  acc_revenue_by_source (visitOrder a o)
  = <[sourceOf o := (default 0%Q (acc_revenue_by_source a !! sourceOf o)
                     + orZeroQ (Order.total_price o))%Q]> (acc_revenue_by_source a).
Proof.
  unfold visitOrder. destruct (Order.line_items o) as [items|]; [|reflexivity].
  rewrite (proj2 (fold_visitItem_sold items _)). reflexivity.
Qed.

(** The bucket of a source after a run of orders: untouched when none of
    them belongs to the source, else what it held plus their totals. *)
Lemma fold_visitOrder_bucket source l a :
  (bucketOf source l = [] ->
   acc_revenue_by_source (fold_left visitOrder l a) !! source
   = acc_revenue_by_source a !! source) /\
  (bucketOf source l <> [] ->
   exists v,
     acc_revenue_by_source (fold_left visitOrder l a) !! source = Some v /\
     (v == default 0%Q (acc_revenue_by_source a !! source)
           + Spec.sumTotals (bucketOf source l))%Q).
Proof.
  revert a. induction l as [|o l IH]; intros a.
  - split; [reflexivity|]. intros H. exfalso. apply H. reflexivity.
  - cbn [fold_left]. destruct (IH (visitOrder a o)) as [IHnone IHsome].
    unfold bucketOf in *. cbn [List.filter].
    destruct (String.eqb_spec (sourceOf o) source) as [Heq|Hneq].
    + split; [discriminate|]. intros _.
      assert (Hhere : acc_revenue_by_source (visitOrder a o) !! source
                      = Some (default 0%Q (acc_revenue_by_source a !! source)
                              + orZeroQ (Order.total_price o))%Q).
      { rewrite visitOrder_by_source, Heq. apply lookup_insert_eq. }
      destruct (List.filter (fun o0 => String.eqb (sourceOf o0) source) l) eqn:E.
      * rewrite (IHnone eq_refl), Hhere. eexists. split; [reflexivity|].
        unfold Spec.sumTotals. cbn [fold_right].
        generalize (default 0%Q (acc_revenue_by_source a !! source)).
        intros held. ring.
      * destruct IHsome as (v & Hv & Hsum); [discriminate|].
        exists v. split; [exact Hv|]. rewrite Hsum, Hhere.
        unfold Spec.sumTotals. cbn [from_option id fold_right].
        generalize (default 0%Q (acc_revenue_by_source a !! source)).
        intros held. ring.
    + assert (Hhere : acc_revenue_by_source (visitOrder a o) !! source
                      = acc_revenue_by_source a !! source).
      { rewrite visitOrder_by_source. apply lookup_insert_ne. exact Hneq. }
      split.
      * intros H. rewrite (IHnone H). exact Hhere.
      * intros H. destruct (IHsome H) as (v & Hv & Hsum).
        exists v. split; [exact Hv|]. rewrite Hsum, Hhere. reflexivity.
Qed.

Lemma sourceOf_not_empty o : sourceOf o <> EmptyString.
Proof.
  unfold sourceOf. destruct (Order.source_name o) as [s|]; [|discriminate].
  destruct (String.eqb_spec s EmptyString); [discriminate|assumption].
Qed.
End DailyMore.

Module DailyExtras.
Import DailyMetrics DailyCalculator DailyFacts DailyMore.
Local Open Scope list_scope.

(** X10.  Orders of other days never change the daily aggregate.  When no
    order falls on the day, every count and amount is 0, the product list
    and the revenue table are empty and the average is 0 (no division is
    made); otherwise the average is total_revenue / total_orders. *)
Theorem daily_metrics_ignore_other_days tz (orders : list Order.t) date :
  calculateDailyMetrics tz orders date
  = calculateDailyMetrics tz (dayOrders tz orders date) date /\
  (dayOrders tz orders date = [] ->
   calculateDailyMetrics tz orders date
   = {| metric_date := date;
        total_revenue := 0;
        total_orders := 0;
        total_customers := 0;
        new_customers := 0;
        returning_customers := 0;
        average_order_value := 0;
        total_products_sold := 0;
        top_selling_products := [];
        revenue_by_source := ∅ |}) /\
  (dayOrders tz orders date <> [] ->
   (0 < total_orders (calculateDailyMetrics tz orders date))%nat /\
   (average_order_value (calculateDailyMetrics tz orders date)
    == total_revenue (calculateDailyMetrics tz orders date)
       / inject_Z (Z.of_nat (total_orders (calculateDailyMetrics tz orders date))))%Q).
Proof.
  split; [|split].
  - unfold calculateDailyMetrics. rewrite dayOrders_idempotent. reflexivity.
  - intros Hnone. unfold calculateDailyMetrics. rewrite Hnone. reflexivity.
  - intros Hsome.
    destruct (calculateDailyMetrics_fields tz orders date) as (Hn & _).
    destruct (calculateDailyMetrics_other_fields tz orders date) as (_ & Havg & Hrev & _).
    rewrite Hn, Havg, Hrev.
    destruct (dayOrders tz orders date) as [|o l]; [congruence|].
    split; [simpl; lia|]. reflexivity.
Qed.

Lemma daily_metrics_ignore_other_days_witness :
  total_orders (calculateDailyMetrics DailyFixture.utc
                  DailyFixture.ordersWithDifferentDates 0) = 0%nat.
Proof.
  rewrite (proj1 (proj2 (daily_metrics_ignore_other_days DailyFixture.utc
                           DailyFixture.ordersWithDifferentDates 0)) eq_refl).
  reflexivity.
Defined.

(** X11.  total_products_sold is the sum of the quantities on all line
    items of the orders of the day: an item without quantity counts 0, an
    order without line items adds nothing, and an item without product id
    is counted like any other. *)
Theorem products_sold_sums_quantities tz (orders : list Order.t) date :
  total_products_sold (calculateDailyMetrics tz orders date)
  = productsSold (dayOrders tz orders date) /\
  (forall o items,
     Order.line_items o = Some items ->
     itemsSold o = fold_right Z.add 0 (List.map (fun i => orZeroZ (LineItem.quantity i)) items)) /\
  (forall o, Order.line_items o = None -> itemsSold o = 0).
Proof.
  split; [|split].
  - destruct (calculateDailyMetrics_other_fields tz orders date) as (_ & _ & _ & Hsold & _).
    rewrite Hsold, fold_visitOrder_sold. reflexivity.
  - intros o items Hitems. unfold itemsSold. rewrite Hitems. clear Hitems.
    induction items as [|i items IH]; simpl; [reflexivity|].
    f_equal. exact IH.
  - intros o Hnone. unfold itemsSold. rewrite Hnone. reflexivity.
Qed.

Lemma products_sold_sums_quantities_witness :
  total_products_sold (calculateDailyMetrics DailyFixture.utc
                         DailyFixture.ordersWithDifferentDates DailyFixture.january15) = 2.
Proof.
  rewrite (proj1 (products_sold_sums_quantities DailyFixture.utc
                    DailyFixture.ordersWithDifferentDates DailyFixture.january15)).
  reflexivity.
Defined.

Lemma bucketOf_empty_key l : bucketOf EmptyString l = [].
Proof.
  unfold bucketOf. induction l as [|o l IH]; simpl; [reflexivity|].
  destruct (String.eqb_spec (sourceOf o) EmptyString) as [Heq|_]; [|exact IH].
  exfalso. exact (sourceOf_not_empty o Heq).
Qed.

(** X12.  For a source whose name is not one that objects inherit from
    [Object.prototype], revenue_by_source has an entry exactly when an
    order of the day belongs to the source, and the entry is the sum of
    the totals of those orders.  An order without source_name belongs to
    the source direct, and no entry is ever keyed by the empty string. *)
Theorem revenue_by_source_buckets tz (orders : list Order.t) date (source : string)
    (Hplain : ~ In source JsObject.inherited) :
  (bucketOf source (dayOrders tz orders date) = [] ->
   revenue_by_source (calculateDailyMetrics tz orders date) !! source = None) /\
  (bucketOf source (dayOrders tz orders date) <> [] ->
   exists v,
     revenue_by_source (calculateDailyMetrics tz orders date) !! source = Some v /\
     (v == Spec.sumTotals (bucketOf source (dayOrders tz orders date)))%Q) /\
  revenue_by_source (calculateDailyMetrics tz orders date) !! EmptyString = None /\
  (forall o,
     In o (dayOrders tz orders date) ->
     Order.source_name o = None ->
     In o (bucketOf "direct" (dayOrders tz orders date))).
Proof.
  clear Hplain.
  destruct (calculateDailyMetrics_other_fields tz orders date) as (_ & _ & _ & _ & _ & Hsrc).
  rewrite Hsrc.
  assert (Hnone : forall s,
            bucketOf s (dayOrders tz orders date) = [] ->
            acc_revenue_by_source (fold_left visitOrder (dayOrders tz orders date) emptyAcc)
              !! s = None).
  { intros s Hs.
    rewrite (proj1 (fold_visitOrder_bucket s (dayOrders tz orders date) emptyAcc) Hs).
    apply lookup_empty. }
  split; [apply Hnone|]. split; [|split].
  - intros Hsome.
    destruct (proj2 (fold_visitOrder_bucket source (dayOrders tz orders date) emptyAcc) Hsome)
      as (v & Hv & Hsum).
    exists v. split; [exact Hv|]. rewrite Hsum.
    replace (acc_revenue_by_source emptyAcc !! source) with (@None Q) by (symmetry; apply lookup_empty).
    cbn [from_option]. ring.
  - apply Hnone, bucketOf_empty_key.
  - intros o Hin Hsource. unfold bucketOf. apply filter_In. split; [exact Hin|].
    unfold sourceOf. rewrite Hsource. reflexivity.
Qed.

Lemma revenue_by_source_buckets_witness :
  exists v,
    revenue_by_source (calculateDailyMetrics DailyFixture.utc
                         DailyFixture.ordersWithDifferentDates DailyFixture.january15)
      !! "web" = Some v /\ (v == 75)%Q.
Proof.
  destruct (proj1 (proj2 (revenue_by_source_buckets DailyFixture.utc
                            DailyFixture.ordersWithDifferentDates DailyFixture.january15
                            "web" ltac:(vm_compute; intuition discriminate))))
    as (v & Hv & Hsum).
  - vm_compute. discriminate.
  - exists v. split; [exact Hv|]. rewrite Hsum. vm_compute. reflexivity.
Defined.

(** The number of orders of a customer among the customer ids of the day. *)
Definition ordersOf (ids : list positive) (c : positive) : nat :=
  count_occ Pos.eq_dec ids c.

Lemma bump_lookup (counts : gmap positive nat) x c :
  bump counts x !! c
  = if decide (x = c) then Some (default 0%nat (counts !! c) + 1)%nat else counts !! c.
Proof.
  unfold bump. destruct (decide (x = c)) as [->|Hne].
  - apply lookup_insert_eq.
  - apply lookup_insert_ne. exact Hne.
Qed.

Lemma fold_bump_lookup (ids : list positive) (counts : gmap positive nat) c :
  fold_left bump ids counts !! c
  = if (ordersOf ids c =? 0)%nat then counts !! c
    else Some (default 0%nat (counts !! c) + ordersOf ids c)%nat.
Proof.
  revert counts. unfold ordersOf.
  induction ids as [|x ids IH]; intros counts; [reflexivity|].
  cbn [fold_left count_occ]. rewrite IH, bump_lookup.
  destruct (Pos.eq_dec x c) as [->|Hne].
  - destruct (decide (c = c)) as [_|]; [|congruence].
    cbn [from_option id]. destruct (count_occ Pos.eq_dec ids c) as [|k]; cbn.
    + reflexivity.
    + f_equal. lia.
  - destruct (decide (x = c)) as [|_]; [congruence|]. reflexivity.
Qed.

(** The table of counts has one entry per customer of the day, holding
    the number of that customer's orders. *)
Lemma counts_lookup (ids : list positive) c k :
  fold_left bump ids (∅ : gmap positive nat) !! c = Some k
  <-> In c ids /\ k = ordersOf ids c.
Proof.
  rewrite fold_bump_lookup, lookup_empty. cbn [from_option].
  unfold ordersOf.
  destruct (Nat.eqb_spec (count_occ Pos.eq_dec ids c) 0) as [H0|Hpos].
  - split; [discriminate|]. intros [Hin _].
    apply (count_occ_In Pos.eq_dec) in Hin. lia.
  - split.
    + intros H. injection H as <-. split; [|reflexivity].
      apply (count_occ_In Pos.eq_dec). lia.
    + intros [_ ->]. reflexivity.
Qed.

Lemma counts_entries (ids : list positive) :
  Permutation (map_to_list (fold_left bump ids (∅ : gmap positive nat)))
              (List.map (fun c => (c, ordersOf ids c)) (remove_dups ids)).
Proof.
  apply NoDup_Permutation.
  - apply NoDup_map_to_list.
  - assert (Hinj : Inj eq eq (fun c => (c, ordersOf ids c))).
    { intros a b H. injection H as H _. exact H. }
    change (List.map (fun c0 => (c0, ordersOf ids c0)) (remove_dups ids))
      with ((fun c0 => (c0, ordersOf ids c0)) <$> remove_dups ids).
    apply (NoDup_fmap_2 _), NoDup_remove_dups.
  - intros [c k]. rewrite elem_of_map_to_list, counts_lookup.
    change (List.map (fun c0 => (c0, ordersOf ids c0)) (remove_dups ids))
      with ((fun c0 => (c0, ordersOf ids c0)) <$> remove_dups ids).
    rewrite list_elem_of_fmap. split.
    + intros [Hin ->]. exists c. split; [reflexivity|].
      apply elem_of_remove_dups, list_elem_of_In. exact Hin.
    + intros (c' & Heq & Hin). injection Heq as -> ->.
      split; [|reflexivity].
      apply list_elem_of_In, elem_of_remove_dups. exact Hin.
Qed.

Lemma countNewReturning_filters (entries : list (positive * nat)) :
  countNewReturning entries
  = (length (List.filter (fun e => (snd e =? 1)%nat) entries),
     length (List.filter (fun e => negb (snd e =? 1)%nat) entries)).
Proof.
  unfold countNewReturning.
  assert (H : forall new returning,
            fold_left (fun '(new, returning) '(_, count) =>
                         if (count =? 1)%nat then (S new, returning) else (new, S returning))
                      entries (new, returning)
            = ((new + length (List.filter (fun e => (snd e =? 1)%nat) entries))%nat,
               (returning
                + length (List.filter (fun e => negb (snd e =? 1)%nat) entries))%nat)).
  { induction entries as [|[c k] entries IH]; intros n r; simpl.
    - f_equal; lia.
    - destruct (k =? 1)%nat; simpl; rewrite IH; f_equal; lia. }
  apply (H 0%nat 0%nat).
Qed.

Lemma length_filter_map {A B} (g : A -> B) (p : B -> bool) (l : list A) :
  length (List.filter p (List.map g l)) = length (List.filter (fun a => p (g a)) l).
Proof.
  induction l as [|a l IH]; simpl; [reflexivity|].
  destruct (p (g a)); simpl; congruence.
Qed.

(** X13.  new_customers is the number of customers with exactly one order
    on the day and returning_customers the number of customers with more
    than one; orders of earlier days play no part. *)
Theorem new_and_returning_customers tz (orders : list Order.t) date :
  let ids := omap Order.customer_id (dayOrders tz orders date) in
  new_customers (calculateDailyMetrics tz orders date)
  = length (List.filter (fun c => (ordersOf ids c =? 1)%nat) (remove_dups ids)) /\
  returning_customers (calculateDailyMetrics tz orders date)
  = length (List.filter (fun c => (1 <? ordersOf ids c)%nat) (remove_dups ids)).
Proof.
  intros ids.
  destruct (calculateDailyMetrics_fields tz orders date) as (_ & _ & _ & Hnew & Hret).
  fold ids in Hnew, Hret.
  rewrite Hnew, Hret, countNewReturning_filters. cbn [fst snd].
  rewrite !(Permutation_length (CLVExtras.filter_perm _ _ _ (counts_entries ids))).
  rewrite !length_filter_map. cbn [snd]. split; [reflexivity|].
  clear Hnew Hret. clearbody ids.
  f_equal. apply filter_ext_in. intros c Hc.
  assert (Hin : In c ids).
  { apply list_elem_of_In, elem_of_remove_dups, list_elem_of_In. exact Hc. }
  apply (count_occ_In Pos.eq_dec) in Hin. unfold ordersOf.
  destruct (Nat.eqb_spec (count_occ Pos.eq_dec ids c) 1);
    destruct (Nat.ltb_spec 1 (count_occ Pos.eq_dec ids c)); simpl; try reflexivity; lia.
Qed.

Lemma new_and_returning_customers_example :
  new_customers (calculateDailyMetrics DailyFixture.utc
                   (DailyFixture.guestOrder :: DailyFixture.ordersWithDifferentDates)
                   DailyFixture.january15) = 2%nat.
Proof. vm_compute. reflexivity. Qed.
End DailyExtras.

(** * The table of product sales and the ranking drawn from it *)

Module ProductFacts.
Import DailyMetrics DailyCalculator DailyFacts DailyMore.
Local Open Scope list_scope.

Section Entries.
Context {V : Type}.

Lemma get_None_absent key (entries : list (string * V)) :
  JsObject.get key entries = None -> ~ In key (List.map fst entries).
Proof.
  induction entries as [|[k v] rest IH]; simpl; [tauto|].
  destruct (String.eqb_spec k key) as [->|Hne]; [discriminate|].
  intros Hget [Hk|Hin]; [congruence|exact (IH Hget Hin)].
Qed.

Lemma set_absent key (v : V) (entries : list (string * V)) :
  JsObject.get key entries = None ->
  JsObject.set key v entries = entries ++ [(key, v)].
Proof.
  induction entries as [|[k v'] rest IH]; simpl; [reflexivity|].
  destruct (String.eqb_spec k key) as [->|Hne]; [discriminate|].
  intros Hget. rewrite (IH Hget). reflexivity.
Qed.

Lemma set_present_keys key (v : V) (entries : list (string * V)) :
  JsObject.get key entries <> None ->
  List.map fst (JsObject.set key v entries) = List.map fst entries.
Proof.
  induction entries as [|[k v'] rest IH]; simpl; [congruence|].
  destruct (String.eqb_spec k key) as [->|Hne]; [reflexivity|].
  intros Hget. simpl. rewrite (IH Hget). reflexivity.
Qed.

Lemma set_In key (v : V) (entries : list (string * V)) e :
  In e (JsObject.set key v entries) -> e = (key, v) \/ In e entries.
Proof.
  induction entries as [|[k v'] rest IH]; simpl.
  - intros [<-|[]]. left. reflexivity.
  - destruct (String.eqb_spec k key) as [->|Hne]; simpl.
    + intros [<-|Hin]; [left; reflexivity|right; right; exact Hin].
    + intros [<-|Hin]; [right; left; reflexivity|].
      destruct (IH Hin) as [->|Hrest]; [left; reflexivity|right; right; exact Hrest].
Qed.

Lemma insertIndexed_perm (e : Z * V) l :
  Permutation (JsObject.insertIndexed e l) (e :: l).
Proof.
  induction l as [|y l IH]; simpl; [reflexivity|].
  destruct (fst e <=? fst y); [reflexivity|].
  rewrite IH. apply perm_swap.
Qed.

(** [Object.values] lists every value of the object once. *)
Lemma values_perm (entries : list (string * V)) :
  Permutation (JsObject.values entries) (List.map snd entries).
Proof.
  unfold JsObject.values.
  induction entries as [|[k v] rest IH]; simpl; [reflexivity|].
  destruct (JsObject.arrayIndex k) as [n|].
  - rewrite (Permutation_map snd (insertIndexed_perm (n, v) (JsObject.indexed rest))).
    simpl. apply perm_skip, IH.
  - rewrite <- Permutation_middle. apply perm_skip, IH.
Qed.
End Entries.

(** Every property of the sales table is keyed by the product id of its
    record, no key is the empty string, and no key occurs twice. *)
Definition wellKeyed (sales : list (string * ProductSale.t)) : Prop :=
  NoDup (List.map fst sales) /\
  Forall (fun e => ProductSale.product_id (snd e) = fst e /\ fst e <> EmptyString) sales.

Lemma get_keeps_key key (sales : list (string * ProductSale.t)) e :
  wellKeyed sales -> JsObject.get key sales = Some e -> ProductSale.product_id e = key.
Proof.
  intros [_ Hall]. induction sales as [|[k v] rest IH]; simpl; [discriminate|].
  apply Forall_cons_1 in Hall. destruct Hall as [[Hk _] Hrest].
  destruct (String.eqb_spec k key) as [->|Hne].
  - intros H. injection H as <-. exact Hk.
  - apply IH, Hrest.
Qed.

Lemma visitItem_wellKeyed a item :
  wellKeyed (productSales a) -> wellKeyed (productSales (visitItem a item)).
Proof.
  intros Hwf. unfold visitItem. cbn [productSales].
  destruct (LineItem.source_product_id item) as [productId|]; [|exact Hwf].
  destruct (String.eqb_spec productId EmptyString) as [Hempty|Hid]; [exact Hwf|].
  destruct (JsObject.get productId (productSales a)) as [e|] eqn:Hget.
  - pose proof (get_keeps_key _ _ _ Hwf Hget) as Hkey.
    destruct Hwf as [Hnodup Hall]. split.
    + rewrite set_present_keys by congruence. exact Hnodup.
    + rewrite List.Forall_forall in Hall |- *. intros x Hx.
      apply set_In in Hx. destruct Hx as [->|Hx]; [|exact (Hall x Hx)].
      cbn. split; [exact Hkey|exact Hid].
  - destruct Hwf as [Hnodup Hall]. rewrite set_absent by exact Hget. split.
    + rewrite List.map_app. cbn [List.map fst].
      rewrite <- Permutation_cons_append. apply NoDup_cons. split; [|exact Hnodup].
      intros Hin. apply list_elem_of_In in Hin. exact (get_None_absent _ _ Hget Hin).
    + apply Forall_app. split; [exact Hall|].
      constructor; [|constructor]. cbn. split; [reflexivity|exact Hid].
Qed.

Lemma fold_visitItem_wellKeyed items a :
  wellKeyed (productSales a) -> wellKeyed (productSales (fold_left visitItem items a)).
Proof.
  revert a. induction items as [|item items IH]; intros a Hwf; simpl; [exact Hwf|].
  apply IH, visitItem_wellKeyed, Hwf.
Qed.

Lemma visitOrder_wellKeyed a o :
  wellKeyed (productSales a) -> wellKeyed (productSales (visitOrder a o)).
Proof.
  intros Hwf. unfold visitOrder.
  destruct (Order.line_items o) as [items|]; [|exact Hwf].
  apply fold_visitItem_wellKeyed. exact Hwf.
Qed.

Lemma fold_visitOrder_wellKeyed l a :
  wellKeyed (productSales a) -> wellKeyed (productSales (fold_left visitOrder l a)).
Proof.
  revert a. induction l as [|o l IH]; intros a Hwf; simpl; [exact Hwf|].
  apply IH, visitOrder_wellKeyed, Hwf.
Qed.

(** The order [.sort((a, b) => b.revenue - a.revenue)] sorts into. *)
Definition byRevenue (a b : ProductSale.t) : Prop :=
  (ProductSale.revenue b <= ProductSale.revenue a)%Q.

Lemma insertByRevenue_perm x l : Permutation (insertByRevenue x l) (x :: l).
Proof.
  induction l as [|y l IH]; simpl; [reflexivity|].
  destruct (Qle_bool (ProductSale.revenue y) (ProductSale.revenue x)); [reflexivity|].
  rewrite IH. apply perm_swap.
Qed.

Lemma sortByRevenue_perm l : Permutation (sortByRevenue l) l.
Proof.
  induction l as [|x l IH]; simpl; [reflexivity|].
  rewrite insertByRevenue_perm. apply perm_skip, IH.
Qed.

Lemma insertByRevenue_sorted x l :
  StronglySorted byRevenue l -> StronglySorted byRevenue (insertByRevenue x l).
Proof.
  induction 1 as [|y l Hs IH Hy]; simpl.
  - constructor; constructor.
  - destruct (Qle_bool (ProductSale.revenue y) (ProductSale.revenue x)) eqn:E.
    + apply Qle_bool_iff in E.
      constructor; [constructor; assumption|].
      constructor; [exact E|].
      rewrite List.Forall_forall in Hy |- *. intros z Hz.
      specialize (Hy z Hz). unfold byRevenue in *.
      apply (Qle_trans _ _ _ Hy E).
    + assert (Hlt : (ProductSale.revenue x < ProductSale.revenue y)%Q).
      { apply Qnot_le_lt. intros H. apply Qle_bool_iff in H. congruence. }
      constructor; [exact IH|].
      rewrite List.Forall_forall in Hy |- *. intros z Hz.
      apply (Permutation_in _ (insertByRevenue_perm x l)) in Hz.
      destruct Hz as [<-|Hz]; [apply Qlt_le_weak, Hlt|auto].
Qed.

Lemma sortByRevenue_sorted l : StronglySorted byRevenue (sortByRevenue l).
Proof.
  induction l as [|x l IH]; simpl; [constructor|].
  apply insertByRevenue_sorted, IH.
Qed.

Lemma take_sorted {A} (R : A -> A -> Prop) n l :
  StronglySorted R l -> StronglySorted R (take n l).
Proof.
  revert l. induction n as [|n IH]; intros l Hs; [constructor|].
  destruct l as [|x l]; [constructor|]. cbn.
  apply StronglySorted_inv in Hs. destruct Hs as [Hs Hx].
  constructor; [apply IH, Hs|apply Forall_take, Hx].
Qed.

Lemma take_NoDup {A} n (l : list A) : NoDup l -> NoDup (take n l).
Proof.
  intros H. rewrite <- (take_drop n l) in H. apply NoDup_app in H. apply H.
Qed.
End ProductFacts.

Module ProductExtras.
Import DailyMetrics DailyCalculator DailyFacts DailyMore ProductFacts.
Local Open Scope list_scope.

(** X14.  top_selling_products holds at most ten records, ranked by
    revenue from the highest down; no product appears twice and no record
    has an empty product id. *)
Theorem top_selling_products_ranked tz (orders : list Order.t) date :
  Nat.le (length (top_selling_products (calculateDailyMetrics tz orders date))) 10 /\
  StronglySorted
    (fun a b => (ProductSale.revenue b <= ProductSale.revenue a)%Q)
    (top_selling_products (calculateDailyMetrics tz orders date)) /\
  NoDup (List.map ProductSale.product_id
           (top_selling_products (calculateDailyMetrics tz orders date))) /\
  Forall (fun e => ProductSale.product_id e <> EmptyString)
    (top_selling_products (calculateDailyMetrics tz orders date)).
Proof.
  destruct (calculateDailyMetrics_other_fields tz orders date) as (_ & _ & _ & _ & Htop & _).
  rewrite Htop.
  set (sales := productSales (fold_left visitOrder (dayOrders tz orders date) emptyAcc)).
  assert (Hwf : wellKeyed sales).
  { apply fold_visitOrder_wellKeyed. split; constructor. }
  assert (Hperm : Permutation (sortByRevenue (JsObject.values sales)) (List.map snd sales)).
  { rewrite sortByRevenue_perm. apply values_perm. }
  destruct Hwf as [Hnodup Hall].
  assert (Hids : List.map ProductSale.product_id (List.map snd sales) = List.map fst sales).
  { clear Hnodup Hperm. induction sales as [|[k e] rest IH]; [reflexivity|].
    apply Forall_cons_1 in Hall. destruct Hall as [[Hk _] Hrest].
    cbn in *. rewrite Hk, (IH Hrest). reflexivity. }
  split; [unfold Nat.le; rewrite length_take; lia|].
  split; [apply take_sorted, sortByRevenue_sorted|].
  split.
  - rewrite <- firstn_map. apply take_NoDup.
    rewrite (Permutation_map ProductSale.product_id Hperm), Hids. exact Hnodup.
  - apply Forall_take.
    rewrite List.Forall_forall in Hall |- *. intros e He.
    apply (Permutation_in _ Hperm) in He. apply in_map_iff in He.
    destruct He as ([k e'] & <- & Hin). destruct (Hall _ Hin) as [Hk Hne].
    cbn in *. congruence.
Qed.
End ProductExtras.

(** * Further properties of the orchestrator *)

Module RunLogic.
(** Reasoning about the body of a [try] that updates a local object: what
    holds of the object when the body returns, and what holds of it when
    the body raises. *)
Section Triples.
Context {L W : Type}.

Definition triple {A : Type} (P : L -> Prop) (c : Eff (L * W) A)
    (Q : A -> L -> Prop) (E : L -> Prop) : Prop :=
  forall l w, P l ->
    match c (l, w) with
    | (Normal a, (l', _)) => Q a l'
    | (Throw _, (l', _)) => E l'
    end.

Lemma triple_bind {A B} (P : L -> Prop) (c : Eff (L * W) A) (k : A -> Eff (L * W) B)
    (Q : A -> L -> Prop) (R : B -> L -> Prop) (E : L -> Prop) :
  triple P c Q E -> (forall a, triple (Q a) (k a) R E) -> triple P (bind c k) R E.
Proof.
  intros Hc Hk l w Hl. unfold bind. specialize (Hc l w Hl).
  destruct (c (l, w)) as [[a|m] [l' w']]; [|exact Hc].
  apply (Hk a l' w' Hc).
Qed.

Lemma triple_outside {A} (P : L -> Prop) (c : Eff W A) :
  triple P (outside c) (fun _ l => P l) P.
Proof.
  intros l w Hl. unfold outside. cbn [fst snd].
  destruct (c w) as [[a|m] w']; exact Hl.
Qed.

Lemma triple_update (P Q E : L -> Prop) (f : L -> L) :
  (forall l, P l -> Q (f l)) -> triple P (updateLocal f) (fun _ l => Q l) E.
Proof. intros H l w Hl. cbn. apply H, Hl. Qed.

Lemma triple_read (P E : L -> Prop) :
  triple P readLocal (fun a l => a = l /\ P l) E.
Proof. intros l w Hl. cbn. split; [reflexivity|exact Hl]. Qed.

Lemma triple_ret {A} (P E : L -> Prop) (a : A) :
  triple P (ret a) (fun x l => x = a /\ P l) E.
Proof. intros l w Hl. cbn. split; [reflexivity|exact Hl]. Qed.

Lemma triple_throw {A} (P : L -> Prop) (Q : A -> L -> Prop) message :
  triple P (throw message) Q P.
Proof. intros l w Hl. exact Hl. Qed.

Lemma triple_weaken {A} (P : L -> Prop) (c : Eff (L * W) A)
    (Q Q' : A -> L -> Prop) (E : L -> Prop) :
  triple P c Q E -> (forall a l, Q a l -> Q' a l) -> triple P c Q' E.
Proof.
  intros Hc HQ l w Hl. specialize (Hc l w Hl).
  destruct (c (l, w)) as [[a|m] [l' w']]; [apply HQ, Hc|exact Hc].
Qed.

Lemma triple_outside_raising {A} (P E : L -> Prop) (c : Eff W A) :
  (forall l, P l -> E l) -> triple P (outside c) (fun _ l => P l) E.
Proof.
  intros HE l w Hl. unfold outside. cbn [fst snd].
  destruct (c w) as [[a|m] w']; [exact Hl|apply HE, Hl].
Qed.

Lemma triple_throw_raising {A} (P E : L -> Prop) (Q : A -> L -> Prop) message :
  (forall l, P l -> E l) -> triple P (throw message) Q E.
Proof. intros HE l w Hl. apply HE, Hl. Qed.

Lemma triple_ret_keeps {A} (P E : L -> Prop) (a : A) :
  triple P (ret a) (fun _ l => P l) E.
Proof. intros l w Hl. exact Hl. Qed.

Lemma triple_outside_returns {A} (P E : L -> Prop) (c : Eff W A) :
  (forall w, exists a w', c w = (Normal a, w')) ->
  triple P (outside c) (fun _ l => P l) E.
Proof.
  intros Hc l w Hl. unfold outside. cbn [fst snd].
  destruct (Hc w) as (a & w' & Hcw). rewrite Hcw. exact Hl.
Qed.
End Triples.
End RunLogic.

Module PipelineExtras.
Import ETLPipeline RunLogic.
Local Open Scope list_scope.

Section Facts.
Context {World RawCustomer RawProduct RawOrder RawItem : Type}.
Context {TCustomer TProduct TOrder TItem : Type}.
Variable clock : World -> Z * World.
Variable raw_line_items : RawOrder -> option (list RawItem).
Variable order_source_id : TOrder -> string.
Variable order_email : TOrder -> option string.
Variable hostTz : Z.
Variable this : @ETLPipeline World RawCustomer RawProduct RawOrder RawItem
                  TCustomer TProduct TOrder TItem.

Arguments inserted {A} _.
Arguments failed {A} _.

(** What no step of [runForSource] changes on [etlLog] before the
    [catch] block. *)
Definition started (sourceType : string) (startedAt : Z) (l : @ETLLog TCustomer TProduct TOrder TItem) : Prop :=
  source_type l = sourceType /\ pipeline_name l = "main_etl" /\
  started_at l = startedAt.

(** [etlLog] while the [try] block is at work. *)
Definition running (sourceType : string) (startedAt : Z) (l : @ETLLog TCustomer TProduct TOrder TItem) : Prop :=
  started sourceType startedAt l /\ error_message l = None /\ metadata l = None.

(** [etlLog] once it has its completion time. *)
Definition completed (startedAt : Z) (l : @ETLLog TCustomer TProduct TOrder TItem) : Prop :=
  exists completedAt,
    completed_at l = Some completedAt /\
    duration_seconds l = Some ((completedAt - startedAt) / 1000).

(** [etlLog] when the [try] block returns. *)
Definition succeeded (sourceType : string) (startedAt : Z) (l : @ETLLog TCustomer TProduct TOrder TItem) : Prop :=
  started sourceType startedAt l /\ error_message l = None /\
  status l = "success" /\
  (exists loadResults,
     metadata l = Some loadResults /\ records_loaded l = totalLoaded loadResults) /\
  completed startedAt l.

(** [etlLog] when the [catch] block returns. *)
Definition failedRun (sourceType : string) (startedAt : Z) (l : @ETLLog TCustomer TProduct TOrder TItem) : Prop :=
  started sourceType startedAt l /\ error_message l <> None /\
  status l = "failed" /\ metadata l = None /\ completed startedAt l.

Definition storeAcceptsLogs : Prop :=
  forall entry w, exists id w', logETLRun (loader this) entry w = (Normal id, w').

Lemma runTry_outcome sourceType startedAt :
  storeAcceptsLogs ->
  triple (W := World) (running sourceType startedAt)
    (runTry clock raw_line_items order_source_id order_email hostTz this sourceType)
    (fun result l => success result = true /\ log result = l /\
                     succeeded sourceType startedAt l)
    (running sourceType startedAt).
Proof.
  intros Hstore.
  set (Inv := running sourceType startedAt).
  assert (Hkeep : forall l, Inv l -> Inv l) by auto.
  unfold runTry.
  apply (triple_bind Inv _ _ (fun _ l => Inv l) _ Inv).
  { destruct (connectors this sourceType);
      [apply triple_ret_keeps|apply triple_throw_raising, Hkeep]. }
  intros connector.
  apply (triple_bind Inv _ _ (fun _ l => Inv l) _ Inv);
    [apply triple_outside_raising, Hkeep|].
  intros connectionOk.
  apply (triple_bind Inv _ _ (fun _ l => Inv l) _ Inv).
  { destruct connectionOk; [apply triple_ret_keeps|apply triple_throw_raising, Hkeep]. }
  intros _.
  apply (triple_bind Inv _ _ (fun _ l => Inv l) _ Inv);
    [apply triple_outside_raising, Hkeep|].
  intros lastRun.
  apply (triple_bind Inv _ _ (fun _ l => Inv l) _ Inv);
    [apply triple_outside_raising, Hkeep|].
  intros extractedData.
  apply (triple_bind Inv _ _ (fun _ l => Inv l) _ Inv);
    [apply triple_update; intros l Hl; exact Hl|].
  intros _.
  apply (triple_bind Inv _ _ (fun _ l => Inv l) _ Inv);
    [apply triple_outside_raising, Hkeep|].
  intros transformedData.
  apply (triple_bind Inv _ _ (fun _ l => Inv l) _ Inv);
    [apply triple_update; intros l Hl; exact Hl|].
  intros _.
  apply (triple_bind Inv _ _ (fun _ l => Inv l) _ Inv);
    [apply triple_outside_raising, Hkeep|].
  intros loadResults.
  set (Loaded := fun l : (@ETLLog TCustomer TProduct TOrder TItem) => Inv l /\ records_loaded l = totalLoaded loadResults).
  apply (triple_bind Inv _ _ (fun _ l => Loaded l) _ Inv).
  { apply triple_update. intros l Hl. split; [exact Hl|reflexivity]. }
  intros _.
  apply (triple_bind _ _ _ (fun _ l => Loaded l) _ Inv).
  { apply triple_outside_raising. intros l [Hl _]. exact Hl. }
  intros _.
  apply (triple_bind _ _ _ (fun _ l => Loaded l /\ status l = "success") _ Inv).
  { apply triple_update. intros l Hl. split; [exact Hl|reflexivity]. }
  intros _.
  apply (triple_bind _ _ _ (fun _ l => Loaded l /\ status l = "success") _ Inv).
  { apply triple_outside_raising. intros l [[Hl _] _]. exact Hl. }
  intros completedAt.
  apply (triple_bind _ _ _ (fun _ l => succeeded sourceType startedAt l) _ Inv).
  { apply triple_update. intros l [[[Hstarted [Herr Hmeta]] Hloaded] Hstatus].
    split; [exact Hstarted|]. split; [exact Herr|]. split; [exact Hstatus|].
    split.
    - exists loadResults. split; [reflexivity|exact Hloaded].
    - exists completedAt. split; [reflexivity|].
      cbn. destruct Hstarted as (_ & _ & Hat). rewrite Hat. reflexivity. }
  intros _.
  apply (triple_bind _ _ _
           (fun etlLog l => etlLog = l /\ succeeded sourceType startedAt l) _ Inv).
  { apply triple_read. }
  intros etlLog.
  apply (triple_bind _ _ _
           (fun _ l => etlLog = l /\ succeeded sourceType startedAt l) _ Inv).
  { apply triple_outside_returns. apply Hstore. }
  intros _ l w [Hlog Hl]. cbn. split; [reflexivity|]. split; [exact Hlog|exact Hl].
Qed.

(** [runForSource] when the store accepts every log entry. *)
Lemma runForSource_reports sourceType w :
  storeAcceptsLogs ->
  exists result w',
    runForSource clock raw_line_items order_source_id order_email hostTz this sourceType w
    = (Normal result, w') /\
    ((success result = true /\ succeeded sourceType (fst (clock w)) (log result))
     \/
     (success result = false /\ failedRun sourceType (fst (clock w)) (log result))).
Proof.
  intros Hstore. unfold runForSource, bind at 1, now.
  destruct (clock w) as [startedAt w1] eqn:Hclock. cbn [fst].
  unfold withLocal, tryCatch.
  match goal with
  | |- context [runTry _ _ _ _ _ _ _ (?l0, w1)] => set (init := l0)
  end.
  assert (Hinit : running sourceType startedAt init) by (repeat split).
  pose proof (runTry_outcome sourceType startedAt Hstore init w1 Hinit) as Htry.
  destruct (runTry clock raw_line_items order_source_id order_email hostTz this sourceType
              (init, w1)) as [[result|message] [l' w']].
  - destruct Htry as (Hsuccess & Hlog & Hdone).
    exists result, w'. split; [reflexivity|]. rewrite Hlog. left. auto.
  - destruct Htry as ((Hsrc & Hname & Hstart) & Herr & Hmeta).
    unfold runCatch, bind, updateLocal, outside, now, readLocal. cbn [fst snd].
    destruct (clock w') as [completedAt w''].
    match goal with
    | |- context [logETLRun (loader this) ?entry ?w0] =>
        destruct (Hstore entry w0) as (id & w3 & Hlog)
    end.
    rewrite Hlog. cbn [ret fst snd].
    eexists. eexists. split; [reflexivity|]. right. cbn [success log].
    split; [reflexivity|]. split; [repeat split; assumption|].
    split; [discriminate|]. split; [reflexivity|]. split; [exact Hmeta|].
    exists completedAt. split; [reflexivity|]. cbn. rewrite Hstart. reflexivity.
Qed.

(** X15.  Whatever the connector, the transformer and the other store
    calls do, if the store accepts the log entry then [runForSource]
    returns normally, and its entry names the source, the pipeline
    main_etl and the start, and carries a completion time and the whole
    seconds between the two.  Either success is true, the status is
    success, there is no error message, and the load results are the
    metadata, their total being the loaded count; or success is false, the
    status is failed, there is an error message and no metadata. *)
Theorem run_for_source_always_reports (sourceType : string) (w : World)
    (Hstore : forall entry w0, exists id w',
        logETLRun (loader this) entry w0 = (Normal id, w')) :
  exists result w',
    runForSource clock raw_line_items order_source_id order_email hostTz this sourceType w
    = (Normal result, w') /\
    source_type (log result) = sourceType /\
    pipeline_name (log result) = "main_etl" /\
    started_at (log result) = fst (clock w) /\
    (exists completedAt,
       completed_at (log result) = Some completedAt /\
       duration_seconds (log result) = Some ((completedAt - fst (clock w)) / 1000)) /\
    ((success result = true /\ status (log result) = "success" /\
      error_message (log result) = None /\
      exists loadResults,
        metadata (log result) = Some loadResults /\
        records_loaded (log result) = totalLoaded loadResults)
     \/
     (success result = false /\ status (log result) = "failed" /\
      error_message (log result) <> None /\ metadata (log result) = None)).
Proof.
  destruct (runForSource_reports sourceType w Hstore) as (result & w' & Hrun & Hcase).
  exists result, w'. split; [exact Hrun|].
  destruct Hcase as [[Hs ((Hsrc & Hname & Hat) & Herr & Hstatus & Hmeta & Hdone)]
                    |[Hs ((Hsrc & Hname & Hat) & Herr & Hstatus & Hmeta & Hdone)]].
  - repeat (split; [assumption|]). left. auto.
  - repeat (split; [assumption|]). right. auto.
Qed.

(** X16.  If the store accepts every log entry, [run] returns normally
    for every configuration and whatever happens inside the sources: each
    enabled source has a result, each disabled one has none. *)
Theorem run_completes_for_every_source (config : Config) (w : World)
    (Hstore : forall entry w0, exists id w',
        logETLRun (loader this) entry w0 = (Normal id, w')) :
  exists results w',
    run clock raw_line_items order_source_id order_email hostTz this config w
    = (Normal results, w') /\
    (shopify results <> None <-> shopify_enabled config = true) /\
    (woocommerce results <> None <-> woocommerce_enabled config = true) /\
    (commercetools results <> None <-> commercetools_enabled config = true).
Proof.
  assert (Hsource : forall enabled sourceType w0,
            exists r w1,
              runSource clock raw_line_items order_source_id order_email hostTz this
                enabled sourceType w0 = (Normal r, w1) /\
              (r <> None <-> enabled = true)).
  { intros enabled sourceType w0. unfold runSource. destruct enabled.
    - destruct (runForSource_reports sourceType w0 Hstore) as (result & w1 & Hrun & _).
      unfold bind. rewrite Hrun. eexists. eexists. split; [reflexivity|].
      split; [reflexivity|discriminate].
    - eexists. eexists. split; [reflexivity|]. split; [congruence|discriminate]. }
  unfold run. unfold bind at 1, now. destruct (clock w) as [startTime w0].
  destruct (Hsource (shopify_enabled config) "shopify" w0) as (s & w1 & Hs & Hse).
  unfold bind at 1. rewrite Hs.
  destruct (Hsource (woocommerce_enabled config) "woocommerce" w1) as (wo & w2 & Hw & Hwe).
  unfold bind at 1. rewrite Hw.
  destruct (Hsource (commercetools_enabled config) "commercetools" w2) as (c & w3 & Hc & Hce).
  unfold bind at 1. rewrite Hc.
  unfold bind, now. destruct (clock w3) as [endTime w4]. cbn [ret].
  eexists. eexists. split; [reflexivity|]. cbn. auto.
Qed.

(** The loop over the orders in [loadData] returns, and files every order
    once. *)
Lemma loadOrders_returns data sourceType todo : forall orders orderItems w,
  exists stored refused items w',
    loadOrders order_source_id order_email this data sourceType todo orders orderItems w
    = (Normal ({| inserted := inserted orders ++ stored;
                  failed := failed orders ++ refused |},
               {| inserted := inserted orderItems ++ items;
                  failed := failed orderItems |}), w') /\
    List.map fst stored ++ List.map fst refused ≡ₚ todo.
Proof.
  induction todo as [|order rest IH]; intros orders orderItems w.
  - exists [], [], [], w. cbn. rewrite !app_nil_r.
    destruct orders, orderItems. split; reflexivity.
  - cbn [loadOrders]. unfold bind at 1, tryCatch. unfold bind at 1.
    destruct (loadOrder order_source_id order_email this data sourceType order w)
      as [[[orderId insertedItems]|message] w1]; cbn [ret].
    + destruct (IH {| inserted := inserted orders ++ [(order, orderId)];
                      failed := failed orders |}
                   {| inserted := inserted orderItems ++ insertedItems;
                      failed := failed orderItems |} w1)
        as (stored & refused & items & w' & Hrun & Hperm).
      cbn [inserted failed] in Hrun.
      exists ((order, orderId) :: stored), refused, (insertedItems ++ items), w'.
      split.
      * rewrite Hrun. rewrite <- !app_assoc. reflexivity.
      * cbn. rewrite Hperm. reflexivity.
    + destruct (IH {| inserted := inserted orders;
                      failed := failed orders ++ [(order, message)] |}
                   orderItems w1)
        as (stored & refused & items & w' & Hrun & Hperm).
      cbn [inserted failed] in Hrun.
      exists stored, ((order, message) :: refused), items, w'.
      split.
      * rewrite Hrun. rewrite <- !app_assoc. reflexivity.
      * cbn. rewrite <- Permutation_middle. rewrite Hperm. reflexivity.
Qed.

(** [loadData] when the two batches return. *)
Lemma loadData_returns data sourceType w :
  (forall w0, exists r w1,
      upsertCustomerBatch (loader this) (tr_customers data) w0 = (Normal r, w1)) ->
  (forall w0, exists r w1,
      upsertProductBatch (loader this) (tr_products data) w0 = (Normal r, w1)) ->
  exists results w',
    loadData order_source_id order_email this data sourceType w = (Normal results, w') /\
    List.map fst (inserted (lr_orders results))
      ++ List.map fst (failed (lr_orders results)) ≡ₚ tr_orders data /\
    failed (lr_orderItems results) = [] /\
    totalLoaded results
    = (length (inserted (lr_customers results)) + length (inserted (lr_products results))
       + length (inserted (lr_orders results))
       + length (inserted (lr_orderItems results)))%nat.
Proof.
  intros Hcustomers Hproducts. unfold loadData.
  destruct (Hcustomers w) as (customers & w1 & Hc). unfold bind at 1. rewrite Hc.
  destruct (Hproducts w1) as (products & w2 & Hp). unfold bind at 1. rewrite Hp.
  destruct (loadOrders_returns data sourceType (tr_orders data)
              {| inserted := []; failed := [] |} {| inserted := []; failed := [] |} w2)
    as (stored & refused & items & w3 & Hrun & Hperm).
  unfold bind at 1. rewrite Hrun. cbn [inserted failed app].
  unfold bind, updateCustomerPurchaseDates, tryCatch.
  destruct (queryUpdatePurchaseDates (loader this) sourceType w3) as [[[]|message] w4];
    cbn [ret]; (eexists; eexists; split; [reflexivity|]); cbn;
    (split; [exact Hperm|]); split; reflexivity.
Qed.

(** X17.  If the customer and the product batch return, [loadData]
    returns normally whatever happens to single orders and to the update
    of the purchase dates: every transformed order is filed once, as
    inserted or as failed, no order item is ever filed as failed, and
    totalLoaded counts the inserted customers, products, orders and order
    items. *)
Theorem load_survives_failing_orders (data : TransformedData) (sourceType : string)
    (w : World)
    (Hcustomers : forall w0, exists r w1,
        upsertCustomerBatch (loader this) (tr_customers data) w0 = (Normal r, w1))
    (Hproducts : forall w0, exists r w1,
        upsertProductBatch (loader this) (tr_products data) w0 = (Normal r, w1)) :
  exists results w',
    loadData order_source_id order_email this data sourceType w = (Normal results, w') /\
    List.map fst (inserted (lr_orders results))
      ++ List.map fst (failed (lr_orders results)) ≡ₚ tr_orders data /\
    failed (lr_orderItems results) = [] /\
    totalLoaded results
    = (length (inserted (lr_customers results)) + length (inserted (lr_products results))
       + length (inserted (lr_orders results))
       + length (inserted (lr_orderItems results)))%nat.
Proof. exact (loadData_returns data sourceType w Hcustomers Hproducts). Qed.

(** The number of line items of a raw order. *)
Definition lineItemCount (order : RawOrder) : nat :=
  match raw_line_items order with
  | Some items => length items
  | None => 0
  end.

Lemma transformItems_shape items sourceOrderId sourceType : forall transformed,
  transformItems this items sourceOrderId sourceType = Normal transformed ->
  length transformed = length items /\
  Forall (fun i => source_order_id i = sourceOrderId) transformed.
Proof.
  induction items as [|rawItem rest IH]; intros transformed H; cbn in H.
  - inversion H. split; [reflexivity|constructor].
  - destruct (transformOrderItem (transformer this) rawItem sourceType) as [t|m];
      cbn in H; [|discriminate].
    destruct (transformItems this rest sourceOrderId sourceType) as [others|m];
      cbn in H; [|discriminate].
    inversion H. destruct (IH others eq_refl) as [Hlen Hall].
    split; [cbn; rewrite Hlen; reflexivity|].
    constructor; [reflexivity|exact Hall].
Qed.

Lemma transformOrders_shape rawOrders sourceType : forall orders orderItems,
  transformOrders raw_line_items order_source_id this rawOrders sourceType
  = Normal (orders, orderItems) ->
  Forall2 (fun raw order => transformOrder (transformer this) raw sourceType = Normal order)
    rawOrders orders /\
  length orderItems = list_sum (List.map lineItemCount rawOrders) /\
  Forall (fun i => In (source_order_id i) (List.map order_source_id orders)) orderItems.
Proof.
  induction rawOrders as [|raw rest IH]; intros orders orderItems H; cbn in H.
  - inversion H. split; [constructor|]. split; [reflexivity|constructor].
  - destruct (transformOrder (transformer this) raw sourceType) as [order|m] eqn:Horder;
      cbn in H; [|discriminate].
    destruct (match raw_line_items raw with
              | Some items => transformItems this items (order_source_id order) sourceType
              | None => Normal []
              end) as [items|m] eqn:Hitems; cbn in H; [|discriminate].
    destruct (transformOrders raw_line_items order_source_id this rest sourceType)
      as [[orders' items']|m]; cbn in H; [|discriminate].
    inversion H. subst orders orderItems.
    destruct (IH orders' items' eq_refl) as (Hall & Hlen & Hids).
    assert (Hshape : length items = lineItemCount raw /\
                     Forall (fun i => source_order_id i = order_source_id order) items).
    { unfold lineItemCount. destruct (raw_line_items raw) as [rawItems|].
      - apply (transformItems_shape _ _ _ _ Hitems).
      - inversion Hitems. split; [reflexivity|constructor]. }
    destruct Hshape as [Hcount Hown].
    split; [constructor; assumption|]. split.
    + rewrite length_app, Hcount, Hlen. reflexivity.
    + apply Forall_app. split.
      * eapply Forall_impl; [exact Hown|]. intros i Hi; cbn beta in Hi. left. symmetry. exact Hi.
      * eapply Forall_impl; [exact Hids|]. intros i Hi; cbn beta in Hi. right. exact Hi.
Qed.

(** X18.  What [transformData] returns, when it returns: it leaves the
    outside state untouched; the customers and products are the
    transformer's batches; the orders are the raw orders transformed one
    by one, in their sequence; there are as many order items as line items
    in the raw orders, and each carries the source id of one of the
    transformed orders. *)
Theorem transformed_data_shape (data : ExtractedData) (sourceType : string)
    (w w' : World) (transformed : TransformedData)
    (Hreturns : transformData raw_line_items order_source_id this data sourceType w
                = (Normal transformed, w')) :
  w' = w /\
  transformCustomerBatch (transformer this) (ex_customers data) sourceType
  = Normal (tr_customers transformed) /\
  transformProductBatch (transformer this) (ex_products data) sourceType
  = Normal (tr_products transformed) /\
  Forall2 (fun raw order => transformOrder (transformer this) raw sourceType = Normal order)
    (ex_orders data) (tr_orders transformed) /\
  length (tr_orderItems transformed) = list_sum (List.map lineItemCount (ex_orders data)) /\
  Forall (fun i => In (source_order_id i)
                     (List.map order_source_id (tr_orders transformed)))
    (tr_orderItems transformed).
Proof.
  unfold transformData, liftC in Hreturns.
  destruct (transformCustomerBatch (transformer this) (ex_customers data) sourceType)
    as [customers|m]; cbn in Hreturns; [|discriminate].
  destruct (transformProductBatch (transformer this) (ex_products data) sourceType)
    as [products|m]; cbn in Hreturns; [|discriminate].
  destruct (transformOrders raw_line_items order_source_id this (ex_orders data) sourceType)
    as [[orders orderItems]|m] eqn:Horders; cbn in Hreturns; [|discriminate].
  inversion Hreturns. subst w'. cbn.
  destruct (transformOrders_shape _ _ _ _ Horders) as (Hall & Hlen & Hids).
  repeat split; assumption.
Qed.

Lemma transformOrders_fails rawOrders sourceType order message :
  In order rawOrders ->
  transformOrder (transformer this) order sourceType = Throw message ->
  exists raised,
    transformOrders raw_line_items order_source_id this rawOrders sourceType = Throw raised.
Proof.
  induction rawOrders as [|raw rest IH]; intros Hin Hthrow; [destruct Hin|].
  cbn [transformOrders].
  destruct (transformOrder (transformer this) raw sourceType) as [t|m] eqn:Hraw;
    cbn [bindC]; [|eexists; reflexivity].
  destruct (match raw_line_items raw with
            | Some items => transformItems this items (order_source_id t) sourceType
            | None => Normal []
            end) as [items|m]; cbn [bindC]; [|eexists; reflexivity].
  destruct Hin as [Heq|Hin]; [subst raw; congruence|].
  destruct (IH Hin Hthrow) as (raised & Hrest). rewrite Hrest. eexists. reflexivity.
Qed.

(** X19.  One raw order that the transformer rejects fails the whole
    transformation: [transformData] throws, and leaves the outside state
    untouched. *)
Theorem one_bad_order_fails_the_transformation (data : ExtractedData)
    (sourceType : string) (w : World) (order : RawOrder) (message : string)
    (Hin : In order (ex_orders data))
    (Hthrow : transformOrder (transformer this) order sourceType = Throw message) :
  exists raised,
    transformData raw_line_items order_source_id this data sourceType w
    = (Throw raised, w).
Proof.
  unfold transformData, liftC.
  destruct (transformCustomerBatch (transformer this) (ex_customers data) sourceType)
    as [customers|m]; cbn [bindC]; [|eexists; reflexivity].
  destruct (transformProductBatch (transformer this) (ex_products data) sourceType)
    as [products|m]; cbn [bindC]; [|eexists; reflexivity].
  destruct (transformOrders_fails _ _ _ _ Hin Hthrow) as (raised & Hfails).
  rewrite Hfails. eexists. reflexivity.
Qed.

(** X20.  A source without a connector: [runForSource] reads the clock
    twice and hands the store one entry, with status failed, no records
    and the message "Connector for <source> not initialized"; nothing else
    is called. *)
Theorem missing_connector_is_reported (sourceType : string)
    (w w1 w2 w3 : World) (startedAt completedAt : Z) (id : positive) :
  let etlLog : (@ETLLog TCustomer TProduct TOrder TItem) :=
    {| pipeline_name := "main_etl";
       source_type := sourceType;
       status := "failed";
       records_extracted := 0;
       records_transformed := 0;
       records_loaded := 0;
       started_at := startedAt;
       metadata := None;
       error_message := Some ("Connector for " ++ sourceType ++ " not initialized")%string;
       completed_at := Some completedAt;
       duration_seconds := Some ((completedAt - startedAt) / 1000) |} in
  connectors this sourceType = None ->
  clock w = (startedAt, w1) ->
  clock w1 = (completedAt, w2) ->
  logETLRun (loader this) etlLog w2 = (Normal id, w3) ->
  runForSource clock raw_line_items order_source_id order_email hostTz this sourceType w
  = (Normal {| success := false; log := etlLog |}, w3).
Proof.
  intros etlLog Hconnector Hstart Hend Hlog.
  unfold runForSource, bind, now. rewrite Hstart.
  unfold withLocal, tryCatch, runTry, bind. rewrite Hconnector.
  cbn [throw].
  unfold runCatch, bind, updateLocal, outside, now, readLocal.
  cbn [fst snd]. rewrite Hend. cbn [fst snd].
  change (setCompleted completedAt (setErrorMessage _ (setStatus "failed" _)))
    with etlLog.
  rewrite Hlog. reflexivity.
Qed.

(** X21.  When the transformation throws, [runForSource] stores nothing
    but the log entry: after the extraction only the clock and
    [logETLRun] are called, and the entry has status failed, the message
    of the error, the number of extracted records, and zero transformed
    and loaded records. *)
Theorem failed_transformation_loads_nothing (sourceType : string)
    (connector : Connector) (lastRun : option (@ETLLog TCustomer TProduct TOrder TItem)) (data : ExtractedData)
    (message : string)
    (w w1 w2 w3 w4 w5 w6 : World) (startedAt completedAt : Z) (id : positive) :
  let since :=
    match lastRun with
    | Some lastRun => Some (orZeroZ (completed_at lastRun))
    | None => None
    end in
  let etlLog : (@ETLLog TCustomer TProduct TOrder TItem) :=
    {| pipeline_name := "main_etl";
       source_type := sourceType;
       status := "failed";
       records_extracted :=
         (length (ex_customers data) + length (ex_products data)
          + length (ex_orders data))%nat;
       records_transformed := 0;
       records_loaded := 0;
       started_at := startedAt;
       metadata := None;
       error_message := Some message;
       completed_at := Some completedAt;
       duration_seconds := Some ((completedAt - startedAt) / 1000) |} in
  connectors this sourceType = Some connector ->
  clock w = (startedAt, w1) ->
  testConnection connector w1 = (Normal true, w2) ->
  getLastETLRun (loader this) "main_etl" sourceType w2 = (Normal lastRun, w3) ->
  extractData connector since w3 = (Normal data, w4) ->
  transformData raw_line_items order_source_id this data sourceType w4
  = (Throw message, w4) ->
  clock w4 = (completedAt, w5) ->
  logETLRun (loader this) etlLog w5 = (Normal id, w6) ->
  runForSource clock raw_line_items order_source_id order_email hostTz this sourceType w
  = (Normal {| success := false; log := etlLog |}, w6).
Proof.
  intros since etlLog Hconnector Hstart Htest Hlast Hextract Htransform Hend Hlog.
  unfold runForSource, bind at 1, now. rewrite Hstart.
  unfold withLocal, tryCatch, runTry.
  unfold bind at 1. rewrite Hconnector. cbn [ret].
  unfold bind at 1. unfold outside at 1. cbn [fst snd]. rewrite Htest.
  unfold bind at 1. cbn [ret].
  unfold bind at 1. unfold outside at 1. cbn [fst snd]. rewrite Hlast.
  unfold bind at 1. unfold outside at 1. cbn [fst snd]. fold since. rewrite Hextract.
  unfold bind at 1. unfold updateLocal at 1. cbn [fst snd].
  unfold bind at 1. unfold outside at 1. cbn [fst snd]. rewrite Htransform.
  unfold runCatch, bind, updateLocal, outside, now, readLocal.
  cbn [fst snd]. rewrite Hend. cbn [fst snd].
  change (setCompleted completedAt (setErrorMessage _ (setStatus "failed" _)))
    with etlLog.
  rewrite Hlog. reflexivity.
Qed.
End Facts.

Lemma run_for_source_always_reports_witness :
  exists result w',
    Mock.runForSource true [Mock.customerWithOrders] "shopify" Mock.start
    = (Normal result, w') /\
    source_type (log result) = "shopify".
Proof.
  destruct (run_for_source_always_reports Mock.clock (fun _ => None) (fun _ => "order")
              (fun _ => None) 0 (Mock.pipeline true [Mock.customerWithOrders])
              "shopify" Mock.start)
    as (result & w' & Hrun & Hsource & _).
  { intros entry w0. eexists. eexists. reflexivity. }
  exists result, w'. split; [exact Hrun|exact Hsource].
Defined.

Lemma run_completes_for_every_source_witness :
  exists results w',
    run Mock.clock (fun _ => None) (fun _ => "order") (fun _ => None) 0
      (Mock.pipeline false [])
      {| shopify_enabled := true; woocommerce_enabled := true;
         commercetools_enabled := false |} Mock.start
    = (Normal results, w') /\
    woocommerce results <> None.
Proof.
  destruct (run_completes_for_every_source Mock.clock (fun _ => None) (fun _ => "order")
              (fun _ => None) 0 (Mock.pipeline false [])
              {| shopify_enabled := true; woocommerce_enabled := true;
                 commercetools_enabled := false |} Mock.start)
    as (results & w' & Hrun & _ & Hwoo & _).
  { intros entry w0. eexists. eexists. reflexivity. }
  exists results, w'. split; [exact Hrun|]. apply Hwoo. reflexivity.
Defined.

Lemma load_survives_failing_orders_witness :
  exists results w',
    loadData (fun _ => "order") (fun _ => None) MockFailures.failingPipeline
      MockFailures.transformed "shopify" Mock.start
    = (Normal results, w') /\
    failed _ (lr_orderItems results) = [].
Proof.
  destruct (load_survives_failing_orders (fun _ => "order") (fun _ => None)
              MockFailures.failingPipeline MockFailures.transformed "shopify" Mock.start)
    as (results & w' & Hrun & _ & Hitems & _).
  { intros w0. eexists. eexists. reflexivity. }
  { intros w0. eexists. eexists. reflexivity. }
  exists results, w'. split; [exact Hrun|exact Hitems].
Defined.

Lemma transformed_data_shape_witness :
  exists transformed,
    transformData (fun _ => Some [tt]) (fun _ => "order") (Mock.pipeline true [])
      {| ex_customers := [tt]; ex_products := []; ex_orders := [tt; tt] |}
      "shopify" Mock.start
    = (Normal transformed, Mock.start) /\
    length (tr_orderItems transformed) = 2%nat.
Proof.
  eexists. split; [reflexivity|].
  exact (proj1 (proj2 (proj2 (proj2 (proj2
    (transformed_data_shape (fun _ => Some [tt]) (fun _ => "order") (Mock.pipeline true [])
       {| ex_customers := [tt]; ex_products := []; ex_orders := [tt; tt] |}
       "shopify" Mock.start _ _ eq_refl)))))).
Defined.

Lemma one_bad_order_fails_the_transformation_witness :
  exists raised,
    transformData (fun _ => None) (fun _ => "order") MockFailures.rejectingPipeline
      {| ex_customers := []; ex_products := []; ex_orders := [tt] |}
      "shopify" Mock.start
    = (Throw raised, Mock.start).
Proof.
  apply (one_bad_order_fails_the_transformation (fun _ => None) (fun _ => "order")
           MockFailures.rejectingPipeline
           {| ex_customers := []; ex_products := []; ex_orders := [tt] |}
           "shopify" Mock.start tt "Invalid order").
  - left. reflexivity.
  - reflexivity.
Defined.

Lemma missing_connector_is_reported_witness :
  exists entry w,
    Mock.runForSource true [] "woocommerce" Mock.start
    = (Normal {| success := false; log := entry |}, w) /\
    error_message entry = Some "Connector for woocommerce not initialized".
Proof.
  eexists. eexists. split.
  - apply (missing_connector_is_reported Mock.clock (fun _ => None) (fun _ => "order")
             (fun _ => None) 0 (Mock.pipeline true []) "woocommerce"
             Mock.start _ _ _ _ _ 1%positive eq_refl eq_refl eq_refl eq_refl).
  - reflexivity.
Defined.

Lemma failed_transformation_loads_nothing_witness :
  exists entry w,
    runForSource Mock.clock (fun _ => None) (fun _ => "order") (fun _ => None) 0
      MockFailures.rejectingPipeline "shopify" Mock.start
    = (Normal {| success := false; log := entry |}, w) /\
    records_extracted entry = 3%nat /\ records_transformed entry = 0%nat /\
    Mock.customer_metrics w = [].
Proof.
  eexists. eexists. split.
  - apply (failed_transformation_loads_nothing Mock.clock (fun _ => None)
             (fun _ => "order") (fun _ => None) 0 MockFailures.rejectingPipeline "shopify"
             MockFailures.connectorWithData None
             {| ex_customers := [tt]; ex_products := []; ex_orders := [tt; tt] |}
             "Invalid order"
             Mock.start _ _ _ _ _ _ _ _ 1%positive
             eq_refl eq_refl eq_refl eq_refl eq_refl eq_refl eq_refl eq_refl).
  - split; [reflexivity|]. split; reflexivity.
Defined.
End PipelineExtras.

(** * Properties of the loader *)

Module LoaderFacts.
Import ETLPipeline.
Local Open Scope list_scope.

Section Facts.
Context {World TCustomer TProduct TOrder TItem : Type}.
Variable pool_query :
  @PostgresLoader.Statement TCustomer TProduct TOrder TItem -> Eff World (list positive).
Variable item_source_product_id : TItem -> option string.
Variable item_source_type : TItem -> option string.

Lemma upsertEach_returns {A : Type} (upsert : A -> Eff World positive) (todo : list A) :
  forall inserted failed (w : World),
  exists stored refused w',
    PostgresLoader.upsertEach upsert todo inserted failed w
    = (Normal {| ETLPipeline.inserted := inserted ++ stored;
                 ETLPipeline.failed := failed ++ refused |}, w') /\
    List.map fst stored ++ List.map fst refused ≡ₚ todo /\
    List.map fst stored `sublist_of` todo /\
    List.map fst refused `sublist_of` todo.
Proof.
  induction todo as [|entity rest IH]; intros inserted failed w.
  - exists [], [], w. cbn. rewrite !app_nil_r. repeat split; constructor.
  - cbn [PostgresLoader.upsertEach]. unfold bind at 1, tryCatch. unfold bind at 1.
    destruct (upsert entity w) as [[id|message] w1]; cbn [ret].
    + destruct (IH (inserted ++ [(entity, id)]) failed w1)
        as (stored & refused & w' & Hrun & Hperm & Hstored & Hrefused).
      exists ((entity, id) :: stored), refused, w'.
      split; [rewrite Hrun, <- app_assoc; reflexivity|].
      split; [cbn; rewrite Hperm; reflexivity|].
      split; [cbn; apply sublist_skip, Hstored|apply sublist_cons, Hrefused].
    + destruct (IH inserted (failed ++ [(entity, message)]) w1)
        as (stored & refused & w' & Hrun & Hperm & Hstored & Hrefused).
      exists stored, ((entity, message) :: refused), w'.
      split; [rewrite Hrun, <- app_assoc; reflexivity|].
      split; [cbn; rewrite <- Permutation_middle, Hperm; reflexivity|].
      split; [apply sublist_cons, Hstored|cbn; apply sublist_skip, Hrefused].
Qed.

Lemma findProductId_returns sourceProductId sourceType (w : World) :
  exists productId w',
    PostgresLoader.findProductId pool_query sourceProductId sourceType w
    = (Normal productId, w').
Proof.
  unfold PostgresLoader.findProductId.
  destruct (truthyString sourceProductId) as [id|]; [|eexists; eexists; reflexivity].
  unfold tryCatch, bind.
  destruct (pool_query (PostgresLoader.SelectProductId id sourceType) w) as [[rows|m] w'];
    eexists; eexists; reflexivity.
Qed.

(** What becomes of the items of an order, one after the other: the
    product of the item is looked up and the row is inserted; the item is
    returned with the id of its row when the insert answers with a row,
    and is left out when the insert fails or answers with no row. *)
Inductive itemsInserted (orderId : positive)
    : list (@OrderItem TItem) -> World -> list (@OrderItem TItem * positive) -> World
      -> Prop :=
| items_done (w : World) : itemsInserted orderId [] w [] w
| item_inserted orderItem rest productId id rows (w w1 w2 w3 : World) insertedItems :
    PostgresLoader.findProductId pool_query (item_source_product_id (item orderItem))
      (item_source_type (item orderItem)) w = (Normal productId, w1) ->
    pool_query (PostgresLoader.InsertOrderItem orderId productId orderItem) w1
    = (Normal (id :: rows), w2) ->
    itemsInserted orderId rest w2 insertedItems w3 ->
    itemsInserted orderId (orderItem :: rest) w ((orderItem, id) :: insertedItems) w3
| item_left_out orderItem rest productId (w w1 w2 w3 : World) insertedItems :
    PostgresLoader.findProductId pool_query (item_source_product_id (item orderItem))
      (item_source_type (item orderItem)) w = (Normal productId, w1) ->
    (pool_query (PostgresLoader.InsertOrderItem orderId productId orderItem) w1
     = (Normal [], w2)
     \/ exists message,
          pool_query (PostgresLoader.InsertOrderItem orderId productId orderItem) w1
          = (Throw message, w2)) ->
    itemsInserted orderId rest w2 insertedItems w3 ->
    itemsInserted orderId (orderItem :: rest) w insertedItems w3.

Lemma itemsInserted_sublist orderId todo w insertedItems w' :
  itemsInserted orderId todo w insertedItems w' ->
  List.map fst insertedItems `sublist_of` todo.
Proof.
  induction 1 as [w|orderItem rest productId id rows w w1 w2 w3 out _ _ _ IH
                  |orderItem rest productId w w1 w2 w3 out _ _ _ IH].
  - constructor.
  - cbn. apply sublist_skip, IH.
  - apply sublist_cons, IH.
Qed.

Lemma insertEach_returns orderId (todo : list (@OrderItem TItem)) :
  forall insertedItems (w : World),
  exists added w',
    PostgresLoader.insertEach pool_query item_source_product_id item_source_type
      orderId todo insertedItems w
    = (Normal (insertedItems ++ added), w') /\
    itemsInserted orderId todo w added w'.
Proof.
  induction todo as [|orderItem rest IH]; intros insertedItems w.
  - exists [], w. cbn. rewrite app_nil_r. split; [reflexivity|constructor].
  - cbn [PostgresLoader.insertEach]. unfold bind at 1.
    destruct (findProductId_returns (item_source_product_id (item orderItem))
                (item_source_type (item orderItem)) w) as (productId & w1 & Hfind).
    rewrite Hfind. unfold bind at 1, tryCatch. unfold bind at 1.
    destruct (pool_query (PostgresLoader.InsertOrderItem orderId productId orderItem) w1)
      as [[[|id rows]|message] w2] eqn:Hinsert;
      cbn [PostgresLoader.firstId bind ret throw].
    + destruct (IH insertedItems w2) as (added & w' & Hrun & Hitems).
      exists added, w'. split; [exact Hrun|].
      eapply item_left_out; [exact Hfind|left; exact Hinsert|exact Hitems].
    + destruct (IH (insertedItems ++ [(orderItem, id)]) w2) as (added & w' & Hrun & Hitems).
      exists ((orderItem, id) :: added), w'.
      split; [rewrite Hrun, <- app_assoc; reflexivity|].
      eapply item_inserted; [exact Hfind|exact Hinsert|exact Hitems].
    + destruct (IH insertedItems w2) as (added & w' & Hrun & Hitems).
      exists added, w'. split; [exact Hrun|].
      eapply item_left_out; [exact Hfind|right; exists message; exact Hinsert|exact Hitems].
Qed.

Lemma insertOrderItems_returns (orderItems : list (@OrderItem TItem)) orderId (w : World) :
  exists insertedItems w',
    PostgresLoader.insertOrderItems pool_query item_source_product_id item_source_type
      orderItems orderId w
    = (Normal insertedItems, w') /\
    itemsInserted orderId orderItems w insertedItems w'.
Proof.
  unfold PostgresLoader.insertOrderItems. destruct orderItems as [|orderItem rest].
  - exists [], w. split; [reflexivity|constructor].
  - destruct (insertEach_returns orderId (orderItem :: rest) [] w)
      as (added & w' & Hrun & Hitems).
    exists added, w'. split; [exact Hrun|exact Hitems].
Qed.
End Facts.
End LoaderFacts.

Module LoaderExtras.
Import ETLPipeline.
Local Open Scope list_scope.

Section Facts.
Context {World TCustomer TProduct TOrder TItem : Type}.
Context {RawCustomer RawProduct RawOrder RawItem : Type}.
Variable pool_query :
  @PostgresLoader.Statement TCustomer TProduct TOrder TItem -> Eff World (list positive).
Variable pool_query_logs :
  string -> string -> Eff World (list (@ETLLog TCustomer TProduct TOrder TItem)).
Variable pool_query_purchase_dates : string -> Eff World unit.
Variable pool_query_customers : string -> Eff World (list CustomerRow).
Variable pool_query_daily_orders : string -> Z -> Eff World (list Order.t).
Variable order_customer_id : TOrder -> option positive.
Variable item_source_product_id : TItem -> option string.
Variable item_source_type : TItem -> option string.
Variable toLowerCase : string -> string.
Variable order_source_id : TOrder -> string.
Variable order_email : TOrder -> option string.
Variable transformer : @Transformer RawCustomer RawProduct RawOrder RawItem
                         TCustomer TProduct TOrder TItem.
Variable connectors : string -> option (@Connector World RawCustomer RawProduct RawOrder).

(** X22.  [upsertCustomerBatch] and [upsertProductBatch] never throw:
    whatever the database answers, every entity of the batch is filed
    once, as inserted or as failed, and both lists keep the sequence of
    the batch. *)
Theorem batch_upserts_never_throw (customers : list TCustomer)
    (products : list TProduct) (w : World) :
  (exists result w',
     PostgresLoader.upsertCustomerBatch pool_query customers w = (Normal result, w') /\
     List.map fst (inserted _ result) ++ List.map fst (failed _ result) ≡ₚ customers /\
     List.map fst (inserted _ result) `sublist_of` customers /\
     List.map fst (failed _ result) `sublist_of` customers) /\
  (exists result w',
     PostgresLoader.upsertProductBatch pool_query products w = (Normal result, w') /\
     List.map fst (inserted _ result) ++ List.map fst (failed _ result) ≡ₚ products /\
     List.map fst (inserted _ result) `sublist_of` products /\
     List.map fst (failed _ result) `sublist_of` products).
Proof.
  split.
  - destruct (LoaderFacts.upsertEach_returns (PostgresLoader.upsertCustomer pool_query)
                customers [] [] w) as (stored & refused & w' & Hrun & Hfacts).
    eexists. exists w'. split; [exact Hrun|exact Hfacts].
  - destruct (LoaderFacts.upsertEach_returns (PostgresLoader.upsertProduct pool_query)
                products [] [] w) as (stored & refused & w' & Hrun & Hfacts).
    eexists. exists w'. split; [exact Hrun|exact Hfacts].
Qed.

(** X23.  [insertOrderItems] never throws, whatever the database
    answers.  It takes the items one after the other: an item whose
    insert answers with a row is returned with the id of that row, and an
    item whose insert fails or answers with no row is left out; so the
    items returned are items of the order, in their sequence. *)
Theorem insert_order_items_never_throws (orderItems : list (@OrderItem TItem))
    (orderId : positive) (w : World) :
  exists insertedItems w',
    PostgresLoader.insertOrderItems pool_query item_source_product_id item_source_type
      orderItems orderId w
    = (Normal insertedItems, w') /\
    LoaderFacts.itemsInserted pool_query item_source_product_id item_source_type
      orderId orderItems w insertedItems w' /\
    List.map fst insertedItems `sublist_of` orderItems.
Proof.
  destruct (LoaderFacts.insertOrderItems_returns pool_query item_source_product_id
              item_source_type orderItems orderId w) as (insertedItems & w' & Hrun & Hitems).
  exists insertedItems, w'. split; [exact Hrun|]. split; [exact Hitems|].
  exact (LoaderFacts.itemsInserted_sublist _ _ _ _ _ _ _ _ Hitems).
Qed.

(** X24.  The three lookups never throw: [findCustomerId],
    [findProductId] and [getLastETLRun] return normally whatever the
    database answers, with [null] when the query fails. *)
Theorem lookups_never_throw (email sourceType pipelineName : string)
    (sourceProductId itemSourceType : option string) (w : World) :
  (exists customerId w',
     PostgresLoader.findCustomerId pool_query toLowerCase email sourceType w
     = (Normal customerId, w') /\
     (forall message w1,
        pool_query (PostgresLoader.SelectCustomerId (toLowerCase email) sourceType) w
        = (Throw message, w1) -> customerId = None)) /\
  (exists productId w',
     PostgresLoader.findProductId pool_query sourceProductId itemSourceType w
     = (Normal productId, w') /\
     (forall id message w1,
        sourceProductId = Some id ->
        pool_query (PostgresLoader.SelectProductId id itemSourceType) w
        = (Throw message, w1) -> productId = None)) /\
  (exists lastRun w',
     PostgresLoader.getLastETLRun pool_query_logs pipelineName sourceType w
     = (Normal lastRun, w') /\
     (forall message w1,
        pool_query_logs pipelineName sourceType w = (Throw message, w1) ->
        lastRun = None)).
Proof.
  split; [|split].
  - unfold PostgresLoader.findCustomerId.
    destruct (String.eqb email EmptyString).
    + exists None, w. split; [reflexivity|reflexivity].
    + unfold tryCatch, bind.
      destruct (pool_query (PostgresLoader.SelectCustomerId (toLowerCase email) sourceType) w)
        as [[rows|m] w'].
      * eexists. eexists. split; [reflexivity|]. intros message w1 H. discriminate.
      * eexists. eexists. split; [reflexivity|reflexivity].
  - unfold PostgresLoader.findProductId.
    destruct sourceProductId as [id|]; cbn [truthyString].
    + destruct (String.eqb id EmptyString).
      * exists None, w. split; [reflexivity|reflexivity].
      * unfold tryCatch, bind.
        destruct (pool_query (PostgresLoader.SelectProductId id itemSourceType) w)
          as [[rows|m] w'] eqn:Hquery.
        -- eexists. eexists. split; [reflexivity|].
           intros id' message w1 Hid H. inversion Hid. subst id'. congruence.
        -- eexists. eexists. split; [reflexivity|reflexivity].
    + exists None, w. split; [reflexivity|reflexivity].
  - unfold PostgresLoader.getLastETLRun, tryCatch, bind.
    destruct (pool_query_logs pipelineName sourceType w) as [[rows|m] w'].
    + eexists. eexists. split; [reflexivity|]. intros message w1 H. discriminate.
    + eexists. eexists. split; [reflexivity|reflexivity].
Qed.

(** The pipeline over the PostgreSQL loader. *)
Definition production :=
  PostgresLoader.productionPipeline pool_query pool_query_logs pool_query_purchase_dates
    pool_query_customers pool_query_daily_orders order_customer_id
    item_source_product_id item_source_type toLowerCase transformer connectors.

(** X25.  With the PostgreSQL loader [loadData] never throws, whatever
    the database answers: every transformed order is filed once, as
    inserted or as failed, and the [catch] block around the load is never
    entered. *)
Theorem postgres_load_never_throws (data : TransformedData) (sourceType : string)
    (w : World) :
  exists results w',
    loadData order_source_id order_email production data sourceType w
    = (Normal results, w') /\
    List.map fst (inserted _ (lr_orders results))
      ++ List.map fst (failed _ (lr_orders results)) ≡ₚ tr_orders data /\
    List.map fst (inserted _ (lr_customers results))
      ++ List.map fst (failed _ (lr_customers results)) ≡ₚ tr_customers data /\
    List.map fst (inserted _ (lr_products results))
      ++ List.map fst (failed _ (lr_products results)) ≡ₚ tr_products data.
Proof.
  unfold loadData. cbn [loader production PostgresLoader.productionPipeline PostgresLoader.asLoader
                          upsertCustomerBatch upsertProductBatch].
  destruct (LoaderFacts.upsertEach_returns (PostgresLoader.upsertCustomer pool_query)
              (tr_customers data) [] [] w) as (cs & cf & w1 & Hc & Hcperm & _).
  unfold bind at 1. unfold PostgresLoader.upsertCustomerBatch. rewrite Hc.
  destruct (LoaderFacts.upsertEach_returns (PostgresLoader.upsertProduct pool_query)
              (tr_products data) [] [] w1) as (ps & pf & w2 & Hp & Hpperm & _).
  unfold bind at 1. unfold PostgresLoader.upsertProductBatch. rewrite Hp.
  destruct (PipelineExtras.loadOrders_returns order_source_id order_email production
              data sourceType (tr_orders data)
              {| inserted := []; failed := [] |} {| inserted := []; failed := [] |} w2)
    as (stored & refused & items & w3 & Hrun & Hperm).
  unfold bind at 1.
  change (PostgresLoader.productionPipeline _ _ _ _ _ _ _ _ _ _ _) with production.
  rewrite Hrun. cbn [inserted failed app].
  unfold bind, updateCustomerPurchaseDates, tryCatch.
  destruct (queryUpdatePurchaseDates (loader production) sourceType w3)
    as [[[]|message] w4];
    cbn [ret]; (eexists; eexists; split; [reflexivity|]); cbn;
    (split; [exact Hperm|]); split; assumption.
Qed.

(** X26.  With the PostgreSQL loader an order fails to load exactly when
    its own upsert fails, and then with the error of the upsert.  The
    lookup of the customer by the email of the order never fails it: the
    upsert is made with what the lookup returns.  Its items never fail it
    either: those whose insert answers with a row are returned with the
    id of the row, and those whose insert fails are left out. *)
Theorem order_fails_only_with_its_upsert (data : TransformedData) (sourceType : string)
    (order : TOrder) (w : World) :
  exists customerId w1,
    match truthyString (order_email order) with
    | Some email => PostgresLoader.findCustomerId pool_query toLowerCase email sourceType
    | None => ret None
    end w = (Normal customerId, w1) /\
    match PostgresLoader.upsertOrder pool_query order_customer_id order customerId w1 with
    | (Throw message, w2) =>
        loadOrder order_source_id order_email production data sourceType order w
        = (Throw message, w2)
    | (Normal orderId, w2) =>
        exists insertedItems w3,
          loadOrder order_source_id order_email production data sourceType order w
          = (Normal (orderId, insertedItems), w3) /\
          LoaderFacts.itemsInserted pool_query item_source_product_id item_source_type
            orderId
            (List.filter (fun i => String.eqb (source_order_id i) (order_source_id order))
               (tr_orderItems data))
            w2 insertedItems w3
    end.
Proof.
  unfold loadOrder.
  cbn [loader production PostgresLoader.productionPipeline PostgresLoader.asLoader
       findCustomerId upsertOrder insertOrderItems].
  assert (Hfind : exists customerId w1,
            match truthyString (order_email order) with
            | Some email =>
                PostgresLoader.findCustomerId pool_query toLowerCase email sourceType
            | None => ret None
            end w = (Normal customerId, w1)).
  { destruct (truthyString (order_email order)) as [email|].
    - unfold PostgresLoader.findCustomerId.
      destruct (String.eqb email EmptyString); [eexists; eexists; reflexivity|].
      unfold tryCatch, bind.
      destruct (pool_query (PostgresLoader.SelectCustomerId (toLowerCase email) sourceType) w)
        as [[rows|m] w']; eexists; eexists; reflexivity.
    - eexists. eexists. reflexivity. }
  destruct Hfind as (customerId & w1 & Hfind).
  exists customerId, w1. split; [exact Hfind|].
  destruct (PostgresLoader.upsertOrder pool_query order_customer_id order customerId w1)
    as [[orderId|message] w2] eqn:Hupsert.
  - set (orderItems := List.filter _ (tr_orderItems data)).
    destruct (LoaderFacts.insertOrderItems_returns pool_query item_source_product_id
                item_source_type orderItems orderId w2)
      as (insertedItems & w3 & Hrun & Hitems).
    destruct orderItems as [|orderItem rest] eqn:Hlist.
    + exists [], w2. split; [|constructor].
      unfold bind at 1. rewrite Hfind. unfold bind at 1. rewrite Hupsert. reflexivity.
    + exists insertedItems, w3. split; [|exact Hitems].
      unfold bind at 1. rewrite Hfind. unfold bind at 1. rewrite Hupsert.
      cbn [length Nat.ltb Nat.leb]. unfold bind. rewrite Hrun. reflexivity.
  - unfold bind at 1. rewrite Hfind. unfold bind at 1. rewrite Hupsert. reflexivity.
Qed.
End Facts.
End LoaderExtras.

(** * Properties of the status words *)

Module TransformerExtras.
Import DataTransformer.

Lemma truthyString_Some status text :
  truthyString status = Some text -> status = Some text /\ text <> EmptyString.
Proof.
  destruct status as [s|]; cbn; [|discriminate].
  destruct (String.eqb_spec s EmptyString) as [->|Hne]; [discriminate|].
  intros H. inversion H. subst. split; [reflexivity|exact Hne].
Qed.

Lemma truthyString_kept text :
  text <> EmptyString -> truthyString (Some text) = Some text.
Proof.
  intros Hne. cbn. destruct (String.eqb_spec text EmptyString); [contradiction|reflexivity].
Qed.

Lemma normalizeFinancialStatus_cases status :
  In (normalizeFinancialStatus status)
     ["paid"; "pending"; "refunded"; "voided"; "partially_paid"; "partially_refunded"]
  \/ (status = Some (normalizeFinancialStatus status) /\
      normalizeFinancialStatus status <> EmptyString).
Proof.
  unfold normalizeFinancialStatus.
  destruct (truthyString status) as [text|] eqn:Htruthy; [|left; cbn; tauto].
  destruct (truthyString_Some _ _ Htruthy) as [-> Hne]. cbv zeta.
  repeat match goal with
  | |- context [if oneOf ?words (toLowerCase text) then _ else _] =>
      destruct (oneOf words (toLowerCase text)); [left; cbn; tauto|]
  end.
  right. split; [reflexivity|exact Hne].
Qed.

Lemma normalizeStatus_cases status :
  In (normalizeStatus status) ["active"; "draft"; "archived"]
  \/ (status = Some (normalizeStatus status) /\ normalizeStatus status <> EmptyString).
Proof.
  unfold normalizeStatus.
  destruct (truthyString status) as [text|] eqn:Htruthy; [|left; cbn; tauto].
  destruct (truthyString_Some _ _ Htruthy) as [-> Hne]. cbv zeta.
  repeat match goal with
  | |- context [if oneOf ?words (toLowerCase text) then _ else _] =>
      destruct (oneOf words (toLowerCase text)); [left; cbn; tauto|]
  end.
  right. split; [reflexivity|exact Hne].
Qed.

(** X27.  [normalizeFinancialStatus] and [normalizeStatus] never return
    an empty status, return one of their canonical words or the status
    they were given, and normalising twice changes nothing. *)
Theorem status_normalisation_is_stable (status : option string) :
  (normalizeFinancialStatus status <> EmptyString /\
   normalizeFinancialStatus (Some (normalizeFinancialStatus status))
   = normalizeFinancialStatus status /\
   (In (normalizeFinancialStatus status)
       ["paid"; "pending"; "refunded"; "voided"; "partially_paid"; "partially_refunded"]
    \/ status = Some (normalizeFinancialStatus status))) /\
  (normalizeStatus status <> EmptyString /\
   normalizeStatus (Some (normalizeStatus status)) = normalizeStatus status /\
   (In (normalizeStatus status) ["active"; "draft"; "archived"]
    \/ status = Some (normalizeStatus status))).
Proof.
  split.
  - destruct (normalizeFinancialStatus_cases status) as [Hword|[Hkept Hne]].
    + split; [|split; [|left; exact Hword]];
        cbn [In] in Hword;
        repeat (destruct Hword as [Hword|Hword]; [rewrite <- Hword; easy|]);
        destruct Hword.
    + split; [exact Hne|]. split; [rewrite <- Hkept; reflexivity|right; exact Hkept].
  - destruct (normalizeStatus_cases status) as [Hword|[Hkept Hne]].
    + split; [|split; [|left; exact Hword]];
        cbn [In] in Hword;
        repeat (destruct Hword as [Hword|Hword]; [rewrite <- Hword; easy|]);
        destruct Hword.
    + split; [exact Hne|]. split; [rewrite <- Hkept; reflexivity|right; exact Hkept].
Qed.

(** X28.  The case of a status word does not matter: two statuses that
    differ in the case of their letters only are either both kept as they
    are, or normalised to the same word. *)
Theorem status_words_match_in_any_case (a b : string)
    (Ha : a <> EmptyString) (Hb : b <> EmptyString)
    (Hcase : toLowerCase a = toLowerCase b) :
  (normalizeFinancialStatus (Some a) = normalizeFinancialStatus (Some b)
   \/ (normalizeFinancialStatus (Some a) = a /\ normalizeFinancialStatus (Some b) = b)) /\
  (normalizeStatus (Some a) = normalizeStatus (Some b)
   \/ (normalizeStatus (Some a) = a /\ normalizeStatus (Some b) = b)).
Proof.
  unfold normalizeFinancialStatus, normalizeStatus.
  rewrite (truthyString_kept a Ha), (truthyString_kept b Hb). cbv zeta.
  rewrite <- Hcase. split.
  - repeat match goal with
    | |- context [if oneOf ?words (toLowerCase a) then _ else _] =>
        destruct (oneOf words (toLowerCase a)); [left; reflexivity|]
    end.
    right. split; reflexivity.
  - repeat match goal with
    | |- context [if oneOf ?words (toLowerCase a) then _ else _] =>
        destruct (oneOf words (toLowerCase a)); [left; reflexivity|]
    end.
    right. split; reflexivity.
Qed.

Lemma status_words_match_in_any_case_witness :
  normalizeFinancialStatus (Some "Completed") = normalizeFinancialStatus (Some "COMPLETED")
  \/ (normalizeFinancialStatus (Some "Completed") = "Completed" /\
      normalizeFinancialStatus (Some "COMPLETED") = "COMPLETED").
Proof.
  apply (status_words_match_in_any_case "Completed" "COMPLETED").
  - discriminate.
  - discriminate.
  - reflexivity.
Defined.
End TransformerExtras.

(** * Properties of the cohorts *)

Module CohortFacts.
Import Cohorts.
Local Open Scope list_scope.

(** The cohort a customer belongs to, if any. *)
Definition keyOf (tz : Z) (c : CohortCustomer) : option string :=
  match first_purchase_date c with
  | Some firstOrderDate => Some (cohortKey tz firstOrderDate)
  | None => None
  end.

Definition inCohort (tz : Z) (key : string) (c : CohortCustomer) : bool :=
  match keyOf tz c with
  | Some k => String.eqb k key
  | None => false
  end.

(** The customers of a cohort, in the sequence they were given in. *)
Definition members (tz : Z) (key : string) (customers : list CohortCustomer)
    : list CohortCustomer :=
  List.filter (inCohort tz key) customers.

(** The revenue of some customers: that of their orders, added up
    customer by customer. *)
Definition cohortRevenue (orders : list Order.t) (cs : list CohortCustomer) : Q :=
  fold_left (fun sum c => (sum + customerRevenue orders c)%Q) cs 0%Q.

Definition dated (c : CohortCustomer) : bool :=
  match first_purchase_date c with
  | Some _ => true
  | None => false
  end.

Definition countAll (cohorts : list (string * Cohort)) : Z :=
  fold_right (fun entry sum => customer_count (snd entry) + sum) 0 cohorts.

Section Entries.
Context {V : Type}.

Lemma get_set key key' (v : V) (entries : list (string * V)) :
  JsObject.get key (JsObject.set key' v entries)
  = if String.eqb key' key then Some v else JsObject.get key entries.
Proof.
  induction entries as [|[k v'] rest IH]; cbn.
  - reflexivity.
  - destruct (String.eqb_spec k key') as [->|Hne]; cbn.
    + destruct (String.eqb key' key); reflexivity.
    + rewrite IH. destruct (String.eqb_spec key' key) as [->|Hne'].
      * destruct (String.eqb_spec k key); [contradiction|reflexivity].
      * reflexivity.
Qed.

Lemma get_map (f : V -> V) key (entries : list (string * V)) :
  JsObject.get key (List.map (fun entry => (fst entry, f (snd entry))) entries)
  = option_map f (JsObject.get key entries).
Proof.
  induction entries as [|[k v] rest IH]; cbn; [reflexivity|].
  destruct (String.eqb k key); [reflexivity|exact IH].
Qed.

Lemma set_keys_NoDup key (v : V) (entries : list (string * V)) :
  NoDup (List.map fst entries) -> NoDup (List.map fst (JsObject.set key v entries)).
Proof.
  induction entries as [|[k v'] rest IH]; cbn; intros Hnd.
  - apply NoDup_singleton.
  - apply NoDup_cons in Hnd. destruct Hnd as [Hk Hrest].
    destruct (String.eqb_spec k key) as [->|Hne]; cbn.
    + apply NoDup_cons. split; assumption.
    + apply NoDup_cons. split; [|exact (IH Hrest)].
      intros Hin. apply Hk. apply list_elem_of_In in Hin. apply list_elem_of_In.
      apply in_map_iff in Hin. destruct Hin as ([k0 v0] & Hk0 & Hin). cbn in Hk0. subst k0.
      destruct (ProductFacts.set_In _ _ _ _ Hin) as [Heq|Hold].
      * inversion Heq. contradiction.
      * apply in_map_iff. exists (k, v0). split; [reflexivity|exact Hold].
Qed.
End Entries.

Lemma countAll_set key (v : Cohort) (cohorts : list (string * Cohort)) :
  countAll (JsObject.set key v cohorts)
  = countAll cohorts + customer_count v
    - match JsObject.get key cohorts with
      | Some old => customer_count old
      | None => 0
      end.
Proof.
  induction cohorts as [|[k old] rest IH]; cbn.
  - lia.
  - destruct (String.eqb k key); cbn.
    + lia.
    + unfold countAll in IH. rewrite IH. lia.
Qed.

Lemma members_app tz key l1 l2 :
  members tz key (l1 ++ l2) = members tz key l1 ++ members tz key l2.
Proof. apply List.filter_app. Qed.

(** The cohorts before the averages are set. *)
Lemma visited_cohort tz orders key : forall customers,
  JsObject.get key (fold_left (visitCustomer tz orders) customers [])
  = match members tz key customers with
    | [] => None
    | cs => Some {| cohort_month := key;
                    customer_count := Z.of_nat (length cs);
                    total_revenue := cohortRevenue orders cs;
                    average_ltv := 0 |}
    end.
Proof.
  intros customers. induction customers as [|c customers IH] using rev_ind.
  - reflexivity.
  - rewrite fold_left_app, members_app. cbn [fold_left].
    unfold visitCustomer at 1. unfold members at 2. cbn [List.filter].
    unfold inCohort, keyOf.
    destruct (first_purchase_date c) as [firstOrderDate|].
    + cbv zeta. rewrite get_set.
      destruct (String.eqb_spec (cohortKey tz firstOrderDate) key) as [Hkey|Hother].
      * rewrite Hkey, IH.
        destruct (members tz key customers) as [|m ms] eqn:Hmembers.
        -- reflexivity.
        -- cbn [app]. change (m :: ms ++ [c]) with ((m :: ms) ++ [c]).
           cbn [cohort_month customer_count total_revenue average_ltv].
           f_equal. f_equal.
           ++ rewrite length_app. cbn [length]. lia.
           ++ unfold cohortRevenue. rewrite fold_left_app. reflexivity.
      * rewrite app_nil_r. exact IH.
    + rewrite app_nil_r. exact IH.
Qed.

Lemma visited_keys tz orders : forall customers,
  NoDup (List.map fst (fold_left (visitCustomer tz orders) customers [])) /\
  countAll (fold_left (visitCustomer tz orders) customers [])
  = Z.of_nat (length (List.filter dated customers)).
Proof.
  intros customers. induction customers as [|c customers [IHkeys IHcount]] using rev_ind.
  - split; [apply NoDup_nil_2|reflexivity].
  - rewrite fold_left_app, List.filter_app, length_app. cbn [fold_left List.filter].
    unfold visitCustomer at 1 3. unfold dated at 2.
    destruct (first_purchase_date c) as [firstOrderDate|]; cbv zeta.
    + split; [apply set_keys_NoDup, IHkeys|].
      rewrite countAll_set, IHcount. cbn [customer_count length].
      destruct (JsObject.get (cohortKey tz firstOrderDate)
                  (fold_left (visitCustomer tz orders) customers [])); cbn; lia.
    + split; [exact IHkeys|]. rewrite IHcount. cbn [length]. lia.
Qed.
End CohortFacts.

Module CohortExtras.
Import Cohorts CohortFacts.
Local Open Scope list_scope.

(** X29.  The cohort of a month in the result of [analyzeCohorts]: there
    is one exactly when some customer made the first purchase in that
    month, and then it counts those customers, adds up the revenue of
    their orders, and its average is the revenue by customer. *)
Theorem cohort_of_a_month (tz : Z) (customers : list CohortCustomer)
    (orders : list Order.t) (key : string) :
  JsObject.get key (analyzeCohorts tz customers orders)
  = match members tz key customers with
    | [] => None
    | cs => Some {| cohort_month := key;
                    customer_count := Z.of_nat (length cs);
                    total_revenue := cohortRevenue orders cs;
                    average_ltv :=
                      (cohortRevenue orders cs / inject_Z (Z.of_nat (length cs)))%Q |}
    end.
Proof.
  unfold analyzeCohorts. rewrite get_map, visited_cohort.
  destruct (members tz key customers) as [|m ms]; reflexivity.
Qed.

Lemma cohort_of_a_month_witness :
  option_map (fun cohort => (customer_count cohort, Qred (total_revenue cohort),
                             Qred (average_ltv cohort)))
    (JsObject.get "2023-01"
       (analyzeCohorts 0 CohortFixture.mockCustomers CohortFixture.mockOrders))
  = Some (2, 450%Q, 225%Q) /\
  JsObject.get "2023-03"
    (analyzeCohorts 0 CohortFixture.mockCustomers CohortFixture.mockOrders) = None.
Proof.
  rewrite !cohort_of_a_month. split; reflexivity.
Defined.

(** X30.  [analyzeCohorts] has one cohort per month, and the cohorts
    together count every customer with a first purchase date once; the
    customers without one are in no cohort. *)
Theorem cohorts_count_every_dated_customer (tz : Z) (customers : list CohortCustomer)
    (orders : list Order.t) :
  NoDup (List.map fst (analyzeCohorts tz customers orders)) /\
  countAll (analyzeCohorts tz customers orders)
  = Z.of_nat (length (List.filter dated customers)).
Proof.
  destruct (visited_keys tz orders customers) as [Hkeys Hcount].
  unfold analyzeCohorts.
  set (cohorts := fold_left (visitCustomer tz orders) customers []) in *.
  clearbody cohorts. split.
  - rewrite List.map_map. cbn [fst]. exact Hkeys.
  - rewrite <- Hcount. clear. induction cohorts as [|[k cohort] rest IH]; cbn; [reflexivity|].
    unfold countAll in IH. rewrite IH. f_equal.
    unfold settle. destruct (0 <? customer_count cohort); reflexivity.
Qed.
End CohortExtras.
